(** * git-auto-commit: change analysis and commit-message synthesis

    A shallow embedding of [git-auto-commit.py]: the collector
    ([get_staged_files]), the classifier ([categorize_changes]), the
    heuristic synthesizer ([analyze_changes]), the remote adapter
    ([generate_ai_commit_message]) and the policy layer
    ([generate_commit_message]), followed by the properties of the
    specification that they satisfy or violate.

    Conventions of the embedding.
    - A Python [str] is a [string]; a character is a code point in 0..255.
      ([git diff --name-status] quotes bytes above 127 by default, so paths
      arrive as ASCII text.)
    - A Python [int] is a [Z]; counters that only grow from 0 are [nat].
    - A [dict] with string keys is an association list in insertion order,
      updated in place, as Python dicts are.
    - [print] appends a line to an explicit output log.
    - [os.path] is [posixpath]. *)

From Stdlib Require Import String Ascii List ZArith Lia Bool Arith.
From Stdlib Require Import DecimalString.
From Stdlib Require Import Permutation.
Import ListNotations.
Open Scope string_scope.

(** ** Python string primitives *)

Module PyStr.

(** [len(s)] as a Python int. *)
Definition len (s : string) : Z := Z.of_nat (String.length s).

(** Truthiness of a [str]: non-empty. *)
Definition truthy (s : string) : bool := negb (s =? "").

Fixpoint take (n : nat) (s : string) : string :=
  match n, s with
  | O, _ => ""
  | S _, "" => ""
  | S n', String c r => String c (take n' r)
  end.

Fixpoint drop (n : nat) (s : string) : string :=
  match n, s with
  | O, _ => s
  | S _, "" => ""
  | S n', String _ r => drop n' r
  end.

(** [s[:n]] for any int [n]: a negative bound counts from the end and is
    clamped at the start of the string. *)
Definition slice_to (n : Z) (s : string) : string :=
  if (0 <=? n)%Z then take (Z.to_nat n) s
  else take (Z.to_nat (len s + n)) s.

(** [s[i:]] for any int [i], with the same clamping. *)
Definition slice_from (i : Z) (s : string) : string :=
  if (0 <=? i)%Z then drop (Z.to_nat i) s
  else drop (Z.to_nat (len s + i)) s.

(** [s.rfind(c)] for a one-character [c]: the highest index holding [c],
    or -1.  [i] is the index of the head of [s] in the whole string. *)
Fixpoint rfind_from (c : ascii) (s : string) (i : Z) : Z :=
  match s with
  | "" => (-1)%Z
  | String a r =>
      let k := rfind_from c r (i + 1) in
      if (0 <=? k)%Z then k
      else if Ascii.eqb a c then i else (-1)%Z
  end.

Definition rfind (c : ascii) (s : string) : Z := rfind_from c s 0.

(** [s.split(c)] for a one-character separator: never the empty list. *)
Fixpoint split (sep : ascii) (s : string) : list string :=
  match s with
  | "" => [""]
  | String a r =>
      if Ascii.eqb a sep then "" :: split sep r
      else match split sep r with
           | h :: t => String a h :: t
           | [] => [String a ""]
           end
  end.

(** Whitespace as [str.isspace], [str.strip] and the pattern class [\s]
    see it on code points below 256. *)
Definition is_space (c : ascii) : bool :=
  let n := nat_of_ascii c in
  (((9 <=? n) && (n <=? 13)) || ((28 <=? n) && (n <=? 32))
   || (n =? 133) || (n =? 160))%nat.

(** The pattern class [\w] on code points below 256: alphanumeric
    characters and the underscore. *)
Definition is_word (c : ascii) : bool :=
  let n := nat_of_ascii c in
  (((48 <=? n) && (n <=? 57)) || ((65 <=? n) && (n <=? 90))
  || ((97 <=? n) && (n <=? 122)) || (n =? 95)
  || (n =? 170) || (n =? 178) || (n =? 179) || (n =? 181)
  || (n =? 185) || (n =? 186) || ((188 <=? n) && (n <=? 190))
  || ((192 <=? n) && (n <=? 214)) || ((216 <=? n) && (n <=? 246))
  || ((248 <=? n) && (n <=? 255)))%nat.

Fixpoint lstrip_by (p : ascii -> bool) (s : string) : string :=
  match s with
  | "" => ""
  | String a r => if p a then lstrip_by p r else s
  end.

Fixpoint rstrip_by (p : ascii -> bool) (s : string) : string :=
  match s with
  | "" => ""
  | String a r =>
      let r' := rstrip_by p r in
      if (r' =? "") && p a then "" else String a r'
  end.

(** [s.strip()] *)
Definition strip (s : string) : string :=
  rstrip_by is_space (lstrip_by is_space s).

(** [s.lstrip(c)] for a one-character set. *)
Definition lstrip_char (c : ascii) (s : string) : string :=
  lstrip_by (fun a => Ascii.eqb a c) s.

(** [s.endswith(suffix)] *)
Definition endswith (s suffix : string) : bool :=
  (String.length suffix <=? String.length s)%nat
  && (drop (String.length s - String.length suffix) s =? suffix).

(** [str(n)] for a non-negative int. *)
Definition str_of_nat (n : nat) : string :=
  NilZero.string_of_uint (Nat.to_uint n).

(** [x in [k1, ..., kn]] on strings. *)
Definition in_list (x : string) (l : list string) : bool :=
  existsb (String.eqb x) l.

End PyStr.

(** ** Python effects: printed lines and exceptions *)

Module Py.

(** An exception in flight.  [SystemExit] is what [sys.exit] raises; it is
    not an [Exception], so [except Exception] lets it through.  [Exception]
    stands for any exception under [Exception], with its [str(e)]. *)
Inductive exn : Type :=
| SystemExit (code : Z)
| Exception (message : string).

(** A computation prints lines and then either raises or returns. *)
Definition Run (A : Type) : Type := (list string * (exn + A))%type.

Definition ret {A : Type} (a : A) : Run A := ([], inr a).

Definition raise {A : Type} (e : exn) : Run A := ([], inl e).

Definition print (line : string) : Run unit := ([line], inr tt).

Definition bind {A B : Type} (m : Run A) (k : A -> Run B) : Run B :=
  match m with
  | (out, inl e) => (out, inl e)
  | (out, inr a) => let '(out', r) := k a in ((out ++ out')%list, r)
  end.

(** [try: body  except Exception as e: handler(str(e))] *)
Definition try_except {A : Type} (body : Run A) (handler : string -> Run A)
  : Run A :=
  match body with
  | (out, inl (Exception message)) =>
      let '(out', r) := handler message in ((out ++ out')%list, r)
  | _ => body
  end.

Definition printed {A : Type} (m : Run A) : list string := fst m.

(** [x.attr] where [x] may be [None]. *)
Definition attribute_of {A : Type} (x : option A) (attr : string) : Run A :=
  match x with
  | Some a => ret a
  | None =>
      raise (Exception ("'NoneType' object has no attribute '" ++ attr ++ "'"))
  end.

End Py.

Declare Scope py_scope.
Delimit Scope py_scope with py.
Notation "x <- m ;; k" := (Py.bind m (fun x => k))
  (at level 61, m at next level, right associativity) : py_scope.
Notation "m ;;; k" := (Py.bind m (fun _ => k))
  (at level 61, right associativity) : py_scope.

(** ** Dictionaries with string keys, in insertion order *)

Module Dict.

Definition t (V : Type) : Type := list (string * V).

Fixpoint get {V : Type} (k : string) (d : t V) : option V :=
  match d with
  | [] => None
  | (k', v) :: d' => if k =? k' then Some v else get k d'
  end.

(** [k in d] *)
Definition mem {V : Type} (k : string) (d : t V) : bool :=
  match get k d with Some _ => true | None => false end.

(** [d.get(k, default)] *)
Definition get_default {V : Type} (k : string) (default : V) (d : t V) : V :=
  match get k d with Some v => v | None => default end.

(** [d[k] = v]: an existing key keeps its place, a new one goes last. *)
Fixpoint set {V : Type} (k : string) (v : V) (d : t V) : t V :=
  match d with
  | [] => [(k, v)]
  | (k', v') :: d' => if k =? k' then (k', v) :: d' else (k', v') :: set k v d'
  end.

Definition keys {V : Type} (d : t V) : list string := map fst d.
Definition values {V : Type} (d : t V) : list V := map snd d.

End Dict.

(** ** [posixpath] *)

Module PosixPath.

(** [os.path.basename(p)]: [p[p.rfind('/') + 1:]] *)
Definition basename (p : string) : string :=
  let i := (PyStr.rfind "/" p + 1)%Z in
  PyStr.slice_from i p.

(** The loop of [genericpath._splitext] that skips leading dots of the file
    name: is some character in [filenameIndex, filenameIndex + n) not a
    dot? *)
Fixpoint has_non_dot (p : string) (filenameIndex : Z) (n : nat) : bool :=
  match n with
  | O => false
  | S n' =>
      if negb (PyStr.take 1 (PyStr.slice_from filenameIndex p) =? ".")
      then true
      else has_non_dot p (filenameIndex + 1) n'
  end.

(** [os.path.splitext(p)] *)
Definition splitext (p : string) : string * string :=
  let sepIndex := PyStr.rfind "/" p in
  let dotIndex := PyStr.rfind "." p in
  if (sepIndex <? dotIndex)%Z
     && has_non_dot p (sepIndex + 1) (Z.to_nat (dotIndex - (sepIndex + 1)))
  then (PyStr.slice_to dotIndex p, PyStr.slice_from dotIndex p)
  else (p, "").

End PosixPath.

(** ** The pattern of [get_staged_files] *)

Module Re.

(** What a greedy dot-star consumes: everything up to the first newline. *)
Fixpoint dot_star (s : string) : string :=
  match s with
  | "" => ""
  | String a r => if Ascii.eqb a "010" then "" else String a (dot_star r)
  end.

(** [re.match(PATTERN, line)], giving [.groups()] on a match, where PATTERN
    is: one captured [\w], then [\s+], then a captured dot-star.  The greedy
    [\s+] takes the whole run of whitespace and the dot-star then always
    succeeds, so no backtracking takes place. *)
Definition match_status_line (line : string) : option (string * string) :=
  match line with
  | String c rest =>
      if PyStr.is_word c then
        match rest with
        | String w _ =>
            if PyStr.is_space w
            then Some (String c "", dot_star (PyStr.lstrip_by PyStr.is_space rest))
            else None
        | "" => None
        end
      else None
  | "" => None
  end.

End Re.

(** ** Configuration and environment *)

(** The [config] dict of [get_config], one field per key. *)
Record Config : Type := {
  prefix : string;
  prefixes : list string;
  max_length : Z;
  use_ai : bool;
  openai_api_key : string;
  openai_model : string;
  conventional_commits : bool
}.

(** What the program reads from outside: whether [import openai] succeeded,
    the text of [repo.git.diff('--cached')], and what
    [client.chat.completions.create(model, system, user)] does: it raises,
    or it answers with [response.choices[0].message.content], which may be
    [None]. *)
Record World : Type := {
  OPENAI_AVAILABLE : bool;
  get_full_diff : string;
  chat_completions_create : string -> string -> string -> Py.exn + option string
}.

Definition nl : string := String "010" "".

(** ** Change Collector *)

(** The two ways collection stops the run, under the specification's names:
    [sys.exit(1)] after the notice, and the [AttributeError] of calling
    [.groups()] on the [None] that [re.match] returns. *)
Definition NoStagedChanges : Py.exn := Py.SystemExit 1.
Definition MalformedStatusLine : Py.exn :=
  Py.Exception "'NoneType' object has no attribute 'groups'".

Local Open Scope py_scope.

(** The [for line in staged_diff.split('\n')] loop. *)
Fixpoint collect_lines (lines : list string) (staged_files : list (string * string))
  : Py.Run (list (string * string)) :=
  match lines with
  | [] => Py.ret staged_files
  | line :: lines' =>
      if negb (PyStr.truthy line) then collect_lines lines' staged_files
      else
        groups <- Py.attribute_of (Re.match_status_line line) "groups" ;;
        let '(status, file_path) := groups in
        collect_lines lines' (staged_files ++ [(status, file_path)])%list
  end.

(** [get_staged_files], on the text of [repo.git.diff('--cached',
    '--name-status')]. *)
Definition get_staged_files (staged_diff : string)
  : Py.Run (list (string * string)) :=
  if negb (PyStr.truthy staged_diff) then
    Py.print "No changes staged for commit." ;;;
    Py.raise NoStagedChanges
  else collect_lines (PyStr.split "010" staged_diff) [].

(** ** Change Classifier *)

Record category : Type := { count : nat; files : list string }.

Definition initial_categories : Dict.t category :=
  [ ("A", {| count := 0; files := [] |});
    ("M", {| count := 0; files := [] |});
    ("D", {| count := 0; files := [] |});
    ("R", {| count := 0; files := [] |});
    ("C", {| count := 0; files := [] |}) ].

(** The extension key of a path: [os.path.splitext(p)[1].lstrip('.')]. *)
Definition extension_of (file_path : string) : string :=
  let ext := snd (PosixPath.splitext file_path) in
  PyStr.lstrip_char "." ext.

(** One turn of the loop of [categorize_changes]. *)
Definition categorize_entry
  (acc : Dict.t category * Dict.t nat) (entry : string * string)
  : Dict.t category * Dict.t nat :=
  let '(categories, extensions) := acc in
  let '(status, file_path) := entry in
  let categories :=
    match Dict.get status categories with
    | Some c =>
        Dict.set status
          {| count := count c + 1; files := (files c ++ [file_path])%list |}
          categories
    | None => categories
    end in
  let ext := extension_of file_path in
  let extensions :=
    if PyStr.truthy ext
    then Dict.set ext (Dict.get_default ext 0 extensions + 1) extensions
    else extensions in
  (categories, extensions).

Definition categorize_changes (staged_files : list (string * string))
  : Dict.t category * Dict.t nat :=
  fold_left categorize_entry staged_files (initial_categories, []).

(** ** Heuristic Message Synthesizer *)

(** [categories[s]['count']]; every key read by the source is present. *)
Definition count_of (s : string) (categories : Dict.t category) : nat :=
  match Dict.get s categories with
  | Some c => count c
  | None => 0
  end.

(** [sum(c['count'] for s', c in categories.items() if s' != s)] *)
Definition others_count (s : string) (categories : Dict.t category) : nat :=
  list_sum
    (map (fun kv => count (snd kv))
       (filter (fun kv => negb (fst kv =? s)) categories)).

(** [sum(c['count'] for c in categories.values())] *)
Definition file_count (categories : Dict.t category) : nat :=
  list_sum (map count (Dict.values categories)).

(** The [if len(staged_files) == 1] block; [None] when it falls through. *)
Definition single_file_message (staged_files : list (string * string))
  : option string :=
  match staged_files with
  | [(status, file_path)] =>
      let file_name := PosixPath.basename file_path in
      if status =? "A" then Some ("Add " ++ file_name)
      else if status =? "M" then Some ("Update " ++ file_name)
      else if status =? "D" then Some ("Delete " ++ file_name)
      else if status =? "R" then Some ("Rename file to " ++ file_name)
      else None
  | _ => None
  end.

Definition primary_action (categories : Dict.t category) : option string :=
  if ((0 <? count_of "A" categories)
      && (others_count "A" categories <=? count_of "A" categories))%nat
  then Some "Add"
  else if ((0 <? count_of "M" categories)
           && (others_count "M" categories <=? count_of "M" categories))%nat
  then Some "Update"
  else if ((0 <? count_of "D" categories)
           && (others_count "D" categories <=? count_of "D" categories))%nat
  then Some "Remove"
  else None.

(** The chain that maps the only extension to a scope. *)
Definition scope_of_extension (ext : string) : option string :=
  if PyStr.in_list ext ["js"; "ts"] then Some "JavaScript"
  else if PyStr.in_list ext ["py"] then Some "Python"
  else if PyStr.in_list ext ["css"; "scss"] then Some "styles"
  else if PyStr.in_list ext ["html"] then Some "HTML"
  else if PyStr.in_list ext ["md"; "txt"] then Some "documentation"
  else if PyStr.in_list ext ["json"; "yaml"; "yml"; "toml"]
  then Some "configuration"
  else None.

(** [len(extensions) == 1] and then [next(iter(extensions))]. *)
Definition scope (extensions : Dict.t nat) : option string :=
  match Dict.keys extensions with
  | [ext] => scope_of_extension ext
  | _ => None
  end.

(** The last [if] of [analyze_changes].  Both values are [None] or a
    non-empty string, so truthiness is presence. *)
Definition compose_message
  (primary_action : option string) (scope : option string)
  (categories : Dict.t category) : string :=
  match primary_action, scope with
  | Some action, Some sc => action ++ " " ++ sc ++ " files"
  | Some action, None =>
      action ++ " " ++ PyStr.str_of_nat (file_count categories) ++ " files"
  | None, _ => "Update " ++ PyStr.str_of_nat (file_count categories) ++ " files"
  end.

(** Everything below the comment [# Multiple files changed]. *)
Definition multi_file_message
  (categories : Dict.t category) (extensions : Dict.t nat) : string :=
  compose_message (primary_action categories) (scope extensions) categories.

(** [analyze_changes]; [repo] is not read.  The source also computes
    [most_changed_category], a [max] over the five items that cannot raise,
    and never reads it. *)
Definition analyze_changes (staged_files : list (string * string)) : string :=
  let '(categories, extensions) := categorize_changes staged_files in
  match single_file_message staged_files with
  | Some message => message
  | None => multi_file_message categories extensions
  end.

(** ** Remote Synthesizer Adapter *)

Definition indent : string := "        ".

Definition conventional_system_prompt : string :=
  "Generate a concise, meaningful git commit message based on the provided diff. " ++ nl
  ++ indent ++ "Follow the Conventional Commits format: <type>[(scope)]: <description>" ++ nl
  ++ indent ++ nl
  ++ indent ++ "Types: feat, fix, docs, style, refactor, perf, test, build, ci, chore, revert" ++ nl
  ++ indent ++ nl
  ++ indent ++ "Keep the message under 72 characters. Focus on WHAT changed and WHY, not HOW." ++ nl
  ++ indent ++ "Don't include obvious things like 'Update file.txt'." ++ nl
  ++ indent.

Definition plain_system_prompt : string :=
  "Generate a concise, meaningful git commit message based on the provided diff." ++ nl
  ++ indent ++ "Keep the message under 72 characters. Focus on WHAT changed and WHY, not HOW." ++ nl
  ++ indent ++ "Don't include obvious things like 'Update file.txt'." ++ nl
  ++ indent.

(** [if len(diff) > 4000: diff = diff[:4000] + marker] *)
Definition bound_diff (diff : string) : string :=
  if (4000 <? PyStr.len diff)%Z
  then PyStr.slice_to 4000 diff ++ nl ++ "..." ++ nl ++ "(diff truncated due to size)"
  else diff.

(** [if config['prefix'] and <enabled>: message = f'{prefix} {message}'] *)
Definition apply_prefix (config : Config) (enabled : bool) (message : string)
  : string :=
  if PyStr.truthy (prefix config) && enabled
  then prefix config ++ " " ++ message
  else message.

(** [if len(message) > max_length: message = message[:max_length - 3] + '...'] *)
Definition truncate (config : Config) (message : string) : string :=
  if (max_length config <? PyStr.len message)%Z
  then PyStr.slice_to (max_length config - 3) message ++ "..."
  else message.

(** [system_prompt], chosen by [config['conventional_commits']]. *)
Definition system_prompt (config : Config) : string :=
  if conventional_commits config then conventional_system_prompt
  else plain_system_prompt.

(** What [client.chat.completions.create(...)] does on the arguments the
    adapter passes for [diff]. *)
Definition remote_response (world : World) (config : Config) (diff : string)
  : Py.exn + option string :=
  chat_completions_create world (openai_model config) (system_prompt config)
    ("Here's the git diff:" ++ nl ++ nl ++ diff).

(** The call inside [try], as a computation that may raise. *)
Definition remote_call (world : World) (config : Config) (diff : string)
  : Py.Run (option string) :=
  match remote_response world config diff with
  | inl e => Py.raise e
  | inr content => Py.ret content
  end.

(** [generate_ai_commit_message]; [None] is the absent result.  [repo] is
    read through [get_full_diff] only and [staged_files] is not read, so
    the world stands for both.  Reading the diff and building the client
    stand outside the [try] and are taken not to raise. *)
Definition generate_ai_commit_message (world : World) (config : Config)
  : Py.Run (option string) :=
  if negb (OPENAI_AVAILABLE world) then
    Py.print "OpenAI package not installed. Run 'pip install openai' to use AI-powered commit messages." ;;;
    Py.ret None
  else if negb (PyStr.truthy (openai_api_key config)) then
    Py.print "OpenAI API key not configured. Set it in .git-autocommit file or OPENAI_API_KEY environment variable." ;;;
    Py.ret None
  else
    let diff := get_full_diff world in
    if negb (PyStr.truthy diff) then Py.ret None
    else
      let diff := bound_diff diff in
      Py.try_except
        (content <- remote_call world config diff ;;
         content <- Py.attribute_of content "strip" ;;
         let message := PyStr.strip content in
         let message :=
           apply_prefix config (negb (conventional_commits config)) message in
         let message := truncate config message in
         Py.ret (Some message))
        (fun e =>
           Py.print ("Error generating AI commit message: " ++ e) ;;;
           Py.ret None).

(** ** Message Policy Layer *)

(** The rule-based tail of [generate_commit_message]. *)
Definition rule_based_message (config : Config)
  (staged_files : list (string * string)) : string :=
  let message := analyze_changes staged_files in
  let message := apply_prefix config true message in
  truncate config message.

Definition generate_commit_message (world : World) (config : Config)
  (staged_files : list (string * string)) : Py.Run string :=
  if use_ai config then
    ai_message <- generate_ai_commit_message world config ;;
    match ai_message with
    | Some message =>
        if PyStr.truthy message then Py.ret message
        else
          Py.print "Falling back to rule-based commit message generation..." ;;;
          Py.ret (rule_based_message config staged_files)
    | None =>
        Py.print "Falling back to rule-based commit message generation..." ;;;
        Py.ret (rule_based_message config staged_files)
    end
  else Py.ret (rule_based_message config staged_files).

(** ** Vocabulary of the specification

    The definitions below are not code of the program: they name what the
    specification talks about, so that the theorems can say it. *)

(** A status letter of the five-letter set. *)
Definition recognized (status : string) : bool :=
  PyStr.in_list status ["A"; "M"; "D"; "R"; "C"].

(** The entries of a ChangeSet that carry [status], in order. *)
Definition entries_with (status : string) (cs : list (string * string))
  : list (string * string) :=
  filter (fun e => fst e =? status) cs.

(** How many entries of a ChangeSet carry [status]. *)
Definition tally (status : string) (cs : list (string * string)) : nat :=
  List.length (entries_with status cs).

(** The bucket the classifier is expected to hold for [status]. *)
Definition bucket (status : string) (cs : list (string * string)) : category :=
  {| count := tally status cs; files := map snd (entries_with status cs) |}.

Definition buckets (cs : list (string * string)) : Dict.t category :=
  [ ("A", bucket "A" cs); ("M", bucket "M" cs); ("D", bucket "D" cs);
    ("R", bucket "R" cs); ("C", bucket "C" cs) ].

(** No character of [s] is [c]. *)
Fixpoint free_of (c : ascii) (s : string) : bool :=
  match s with
  | "" => true
  | String a r => negb (Ascii.eqb a c) && free_of c r
  end.

(** Every character of [s] is whitespace. *)
Fixpoint all_space (s : string) : bool :=
  match s with
  | "" => true
  | String a r => PyStr.is_space a && all_space r
  end.

(** [s] starts with a whitespace character. *)
Definition starts_with_space (s : string) : bool :=
  match s with
  | "" => false
  | String a _ => PyStr.is_space a
  end.

(** Every character of [s] is a dot. *)
Fixpoint all_dots (s : string) : bool :=
  match s with
  | "" => true
  | String a r => Ascii.eqb a "." && all_dots r
  end.

(** The part of [categorize_entry] that touches [extensions]. *)
Definition record_extension (extensions : Dict.t nat) (e : string * string)
  : Dict.t nat :=
  let ext := extension_of (snd e) in
  if PyStr.truthy ext
  then Dict.set ext (Dict.get_default ext 0 extensions + 1) extensions
  else extensions.

(** [exts] holds one key for each non-empty extension key of the paths of
    [cs], whatever their status, and no other key. *)
Definition extension_keys_of (cs : list (string * string))
  (exts : Dict.t nat) : Prop :=
  NoDup (Dict.keys exts) /\
  forall k, In k (Dict.keys exts) <->
            k <> "" /\ exists e, In e cs /\ extension_of (snd e) = k.

(** How many entries of a ChangeSet carry a status other than [status],
    recognized or not. *)
Definition other_entries (status : string) (cs : list (string * string))
  : nat :=
  List.length (filter (fun e => negb (fst e =? status)) cs).

(** The primary action as the specification words it: in the order Add,
    Update, Remove, the first status whose count is at least the combined
    count of every other status of the ChangeSet, so that the status alone
    accounts for at least half of all changes. *)
Definition primary_action_spec (cs : list (string * string)) : option string :=
  if (other_entries "A" cs <=? tally "A" cs)%nat then Some "Add"
  else if (other_entries "M" cs <=? tally "M" cs)%nat then Some "Update"
  else if (other_entries "D" cs <=? tally "D" cs)%nat then Some "Remove"
  else None.

(** The classified files as the specification words them: the files
    bucketed under a recognized status. *)
Definition classified_files (categories : Dict.t category) : list string :=
  concat (map files (Dict.values categories)).

(** The scope as the specification words it: the table applied to the
    single extension that appears across the classified files. *)
Definition scope_spec (categories : Dict.t category) : option string :=
  match nodup string_dec
          (filter PyStr.truthy (map extension_of (classified_files categories)))
  with
  | [ext] => scope_of_extension ext
  | _ => None
  end.

(** ** Inputs used in examples *)

(** The defaults of [get_config]. *)
Definition default_config : Config :=
  {| prefix := ""; prefixes := []; max_length := 72; use_ai := false;
     openai_api_key := ""; openai_model := "gpt-3.5-turbo";
     conventional_commits := false |}.

Definition with_max_length (L : Z) (c : Config) : Config :=
  {| prefix := prefix c; prefixes := prefixes c; max_length := L;
     use_ai := use_ai c; openai_api_key := openai_api_key c;
     openai_model := openai_model c;
     conventional_commits := conventional_commits c |}.

(** A configuration that asks for the remote synthesizer. *)
Definition ai_config (key pre : string) : Config :=
  {| prefix := pre; prefixes := []; max_length := 72; use_ai := true;
     openai_api_key := key; openai_model := "gpt-3.5-turbo";
     conventional_commits := false |}.

(** A world without the remote library. *)
Definition offline_world : World :=
  {| OPENAI_AVAILABLE := false; get_full_diff := "";
     chat_completions_create := fun _ _ _ => inr None |}.

(** A world with the library, a staged diff and a fixed remote behaviour. *)
Definition online_world (diff : string) (response : Py.exn + option string)
  : World :=
  {| OPENAI_AVAILABLE := true; get_full_diff := diff;
     chat_completions_create := fun _ _ _ => response |}.

Definition tab : string := String "009" "".

(** ** The rest of the program *)

(** ** More string methods *)

Module PyText.

(** [c.lower()] on code points below 256: the ASCII capitals and the
    Latin-1 capitals, the multiplication sign apart, move up by 32. *)
Definition lower_char (c : ascii) : ascii :=
  let n := nat_of_ascii c in
  if (((65 <=? n) && (n <=? 90))
      || ((192 <=? n) && (n <=? 222) && negb (n =? 215)))%nat
  then ascii_of_nat (n + 32)
  else c.

(** [s.lower()] *)
Fixpoint lower (s : string) : string :=
  match s with
  | "" => ""
  | String c r => String (lower_char c) (lower r)
  end.

(** [s.startswith(p)] *)
Definition startswith (s p : string) : bool := String.prefix p s.

(** [posixpath.join(a, b)] *)
Definition join (a b : string) : string :=
  if startswith b "/" then b
  else if negb (PyStr.truthy a) || PyStr.endswith a "/" then a ++ b
  else a ++ "/" ++ b.

End PyText.

(** ** [get_file_changes] *)

(** What [get_file_changes] returns: one of its two fixed texts, or the
    dict of added and removed lines. *)
Inductive file_changes : Type :=
| Text (text : string)
| Lines (added removed : list string).

(** One turn of the loop over the lines of the diff. *)
Definition scan_diff_line (acc : list string * list string) (line : string)
  : list string * list string :=
  let '(added_lines, removed_lines) := acc in
  if PyText.startswith line "+" && negb (PyText.startswith line "+++")
  then ((added_lines ++ [PyStr.strip (PyStr.slice_from 1 line)])%list,
        removed_lines)
  else if PyText.startswith line "-" && negb (PyText.startswith line "---")
  then (added_lines,
        (removed_lines ++ [PyStr.strip (PyStr.slice_from 1 line)])%list)
  else (added_lines, removed_lines).

(** [get_file_changes]; [file_diff] is what
    [repo.git.diff('--cached', '--', file_path)] does.  The bare [except]
    catches whatever it raises. *)
Definition get_file_changes (file_diff : string -> Py.exn + string)
  (file_path status : string) : file_changes :=
  if status =? "D" then Text "File deleted"
  else
    match file_diff file_path with
    | inl _ => Text "Unable to get diff"
    | inr diff =>
        let '(added_lines, removed_lines) :=
          fold_left scan_diff_line (PyStr.split "010" diff) ([], []) in
        Lines added_lines removed_lines
    end.

(** ** The console: printed lines, prompts, commits and typed answers *)

Module Console.

(** What a run does that can be seen from outside, in order: a line it
    prints, a prompt it shows, a commit that git makes for it, a file it
    writes. *)
Inductive event : Type :=
| Printed (line : string)
| Asked (prompt : string)
| Committed (message : string)
| Wrote (path : string) (section : Dict.t string).

(** What stops a run: an exception of the earlier layers, a [ValueError]
    or the [EOFError] of [input] at the end of the answers.  The texts of
    the last two are not modelled. *)
Inductive error : Type :=
| Uncaught (e : Py.exn)
| ValueError
| EOFError.

(** A computation reads typed answers, leaves events, and raises or returns
    with the answers that remain. *)
Definition IO (A : Type) : Type :=
  list string -> list event * (error + A * list string).

Definition ret {A : Type} (a : A) : IO A :=
  fun answers => ([], inr (a, answers)).

Definition raise {A : Type} (e : error) : IO A :=
  fun _ => ([], inl e).

Definition bind {A B : Type} (m : IO A) (k : A -> IO B) : IO B :=
  fun answers =>
    match m answers with
    | (ev, inl e) => (ev, inl e)
    | (ev, inr (a, answers')) =>
        let '(ev', r) := k a answers' in ((ev ++ ev')%list, r)
    end.

Definition emit (e : event) : IO unit :=
  fun answers => ([e], inr (tt, answers)).

Definition print (line : string) : IO unit := emit (Printed line).

(** [input(prompt)] *)
Definition input (prompt : string) : IO string :=
  fun answers =>
    match answers with
    | [] => ([Asked prompt], inl EOFError)
    | answer :: answers' => ([Asked prompt], inr (answer, answers'))
    end.

(** A computation of the earlier layers, run on the console. *)
Definition lift {A : Type} (m : Py.Run A) : IO A :=
  fun answers =>
    match m with
    | (out, inl e) => (map Printed out, inl (Uncaught e))
    | (out, inr a) => (map Printed out, inr (a, answers))
    end.

(** A fallible pure step. *)
Definition of_result {A : Type} (r : error + A) : IO A :=
  match r with
  | inl e => raise e
  | inr a => ret a
  end.

(** The messages committed during a run. *)
Definition commits (events : list event) : list string :=
  flat_map (fun e => match e with Committed m => [m] | _ => [] end) events.

(** The prompts shown during a run. *)
Definition prompts (events : list event) : list string :=
  flat_map (fun e => match e with Asked p => [p] | _ => [] end) events.

End Console.

Declare Scope io_scope.
Delimit Scope io_scope with io.
Notation "x <- m ;; k" := (Console.bind m (fun x => k))
  (at level 61, m at next level, right associativity) : io_scope.
Notation "m ;;; k" := (Console.bind m (fun _ => k))
  (at level 61, right associativity) : io_scope.

(** ** Configuration file, prefix menu and the command line *)

(** [config[key] = value], one function per key. *)
Definition set_prefix (v : string) (c : Config) : Config :=
  {| prefix := v; prefixes := prefixes c; max_length := max_length c;
     use_ai := use_ai c; openai_api_key := openai_api_key c;
     openai_model := openai_model c;
     conventional_commits := conventional_commits c |}.

Definition set_prefixes (v : list string) (c : Config) : Config :=
  {| prefix := prefix c; prefixes := v; max_length := max_length c;
     use_ai := use_ai c; openai_api_key := openai_api_key c;
     openai_model := openai_model c;
     conventional_commits := conventional_commits c |}.

Definition set_use_ai (v : bool) (c : Config) : Config :=
  {| prefix := prefix c; prefixes := prefixes c; max_length := max_length c;
     use_ai := v; openai_api_key := openai_api_key c;
     openai_model := openai_model c;
     conventional_commits := conventional_commits c |}.

Definition set_openai_api_key (v : string) (c : Config) : Config :=
  {| prefix := prefix c; prefixes := prefixes c; max_length := max_length c;
     use_ai := use_ai c; openai_api_key := v;
     openai_model := openai_model c;
     conventional_commits := conventional_commits c |}.

Definition set_openai_model (v : string) (c : Config) : Config :=
  {| prefix := prefix c; prefixes := prefixes c; max_length := max_length c;
     use_ai := use_ai c; openai_api_key := openai_api_key c;
     openai_model := v;
     conventional_commits := conventional_commits c |}.

Definition set_conventional_commits (v : bool) (c : Config) : Config :=
  {| prefix := prefix c; prefixes := prefixes c; max_length := max_length c;
     use_ai := use_ai c; openai_api_key := openai_api_key c;
     openai_model := openai_model c;
     conventional_commits := v |}.

(** [configparser]'s table of boolean spellings. *)
Definition BOOLEAN_STATES : Dict.t bool :=
  [ ("1", true); ("yes", true); ("true", true); ("on", true);
    ("0", false); ("no", false); ("false", false); ("off", false) ].

(** What [getboolean] does with the text of an option that is present:
    the lowercased text is looked up, and an unknown spelling raises
    [ValueError]. *)
Definition convert_to_boolean (value : string) : Console.error + bool :=
  match Dict.get (PyText.lower value) BOOLEAN_STATES with
  | Some b => inr b
  | None => inl Console.ValueError
  end.

(** Sequencing of steps that may raise. *)
Definition and_then {A B : Type} (r : Console.error + A)
  (k : A -> Console.error + B) : Console.error + B :=
  match r with
  | inl e => inl e
  | inr a => k a
  end.

(** What the command line gives [main], after [argparse]. *)
Record Args : Type := {
  args_setup : bool;
  args_use_ai : bool;
  args_conventional : bool;
  args_no_prefix_selection : bool
}.

(** What [main] meets outside: the stripped output of
    [git rev-parse --show-toplevel], or [None] when it fails;
    [os.path.exists]; what [configparser] makes of the file at a path; the
    environment variable; the text of [git diff --cached --name-status];
    the world of the remote adapter; and what
    [repo.git.commit('-m', message)] does.

    Of the file: [parser.read] raises, as it does for a line before any
    section header or for a duplicate option; or there is no file or no
    [autocommit] section ([None]); or the parser presents the options of
    the section, and reading an option that is present gives its text or
    raises, as it does for a value with a stray percent sign.

    Of the commit: git makes it ([None]), or git refuses it and
    [GitCommandError] is raised, as for an empty message. *)
Record Host : Type := {
  git_root : option string;
  path_exists : string -> bool;
  autocommit_section : string -> Py.exn + option (Dict.t (Py.exn + string));
  environ_OPENAI_API_KEY : option string;
  staged_name_status : string;
  world : World;
  git_commit : string -> option Py.exn
}.

(** What [setup_config] writes. *)
Definition default_section : Dict.t string :=
  [ ("prefix", "");
    ("prefixes",
     "feat:, fix:, docs:, style:, refactor:, perf:, test:, build:, ci:, chore:");
    ("max_length", "72");
    ("use_ai", "false");
    ("openai_api_key", "");
    ("openai_model", "gpt-3.5-turbo");
    ("conventional_commits", "false") ].

(** A section every option of which reads as the text given, which is what
    [configparser] presents for values without a percent sign. *)
Definition plain_section (options : Dict.t string)
  : Dict.t (Py.exn + string) :=
  map (fun kv => (fst kv, inr (snd kv))) options.

(** [parser['autocommit'][key]] for a key that is present: the text, or
    the exception of [configparser], which nothing catches. *)
Definition read_option (value : Py.exn + string) : Console.error + string :=
  match value with
  | inl e => inl (Console.Uncaught e)
  | inr text => inr text
  end.

(** An instance of [int] for the examples: a non-empty run of ASCII
    digits, on which every [int] agrees. *)
Fixpoint digits_value (s : string) (acc : Z) : option Z :=
  match s with
  | "" => Some acc
  | String c r =>
      let n := nat_of_ascii c in
      if ((48 <=? n) && (n <=? 57))%nat
      then digits_value r (10 * acc + Z.of_nat (n - 48))
      else None
  end.

Definition decimal_int (s : string) : option Z :=
  if PyStr.truthy s then digits_value s 0 else None.

Section WithInt.

(** The builtin [int] on a [str]: the number, or [None] for the
    [ValueError] it raises. *)
Variable py_int : string -> option Z.

Local Open Scope io_scope.

(** [get_config], on what [configparser] makes of the file and on the
    environment variable.  The options are read in the order of the
    source, and the first exception ends the call. *)
Definition get_config
  (parsed : Py.exn + option (Dict.t (Py.exn + string)))
  (OPENAI_API_KEY : option string) : Console.error + Config :=
  let config := default_config in
  and_then
    (match parsed with
     | inl e => inl (Console.Uncaught e)
     | inr None => inr config
     | inr (Some autocommit) =>
         and_then
           (match Dict.get "prefix" autocommit with
            | Some value =>
                and_then (read_option value)
                  (fun text => inr (set_prefix text config))
            | None => inr config
            end)
           (fun config =>
         and_then
           (match Dict.get "prefixes" autocommit with
            | Some value =>
                and_then (read_option value)
                  (fun prefixes_str =>
                     inr (if PyStr.truthy prefixes_str
                          then set_prefixes
                                 (map PyStr.strip
                                    (PyStr.split "," prefixes_str)) config
                          else config))
            | None => inr config
            end)
           (fun config =>
         and_then
           (match Dict.get "max_length" autocommit with
            | Some value =>
                and_then (read_option value)
                  (fun text =>
                     match py_int text with
                     | Some n => inr (with_max_length n config)
                     | None => inl Console.ValueError
                     end)
            | None => inr config
            end)
           (fun config =>
         and_then
           (match Dict.get "use_ai" autocommit with
            | Some value =>
                and_then (read_option value)
                  (fun text =>
                     and_then (convert_to_boolean text)
                       (fun b => inr (set_use_ai b config)))
            | None => inr config
            end)
           (fun config =>
         and_then
           (match Dict.get "openai_api_key" autocommit with
            | Some value =>
                and_then (read_option value)
                  (fun text => inr (set_openai_api_key text config))
            | None => inr config
            end)
           (fun config =>
         and_then
           (match Dict.get "openai_model" autocommit with
            | Some value =>
                and_then (read_option value)
                  (fun text => inr (set_openai_model text config))
            | None => inr config
            end)
           (fun config =>
         match Dict.get "conventional_commits" autocommit with
         | Some value =>
             and_then (read_option value)
               (fun text =>
                  and_then (convert_to_boolean text)
                    (fun b => inr (set_conventional_commits b config)))
         | None => inr config
         end))))))
     end)
    (fun config =>
       inr (match OPENAI_API_KEY with
            | Some key => set_openai_api_key key config
            | None => config
            end)).

(** [get_git_root] *)
Definition get_git_root (host : Host) : Console.IO string :=
  match git_root host with
  | Some root => Console.ret root
  | None =>
      Console.print
        "Error: Not a git repository (or any of the parent directories)" ;;;
      Console.raise (Console.Uncaught (Py.SystemExit 1))
  end.

(** [setup_config] *)
Definition setup_config (host : Host) : Console.IO unit :=
  git_root <- get_git_root host ;;
  let config_file := PyText.join git_root ".git-autocommit" in
  if path_exists host config_file then
    Console.print ("Configuration file already exists at " ++ config_file)
  else
    Console.emit (Console.Wrote config_file default_section) ;;;
    Console.print ("Created configuration file at " ++ config_file) ;;;
    Console.print "Edit this file to customize the behavior of git-autocommit.".

(** The numbered lines of the menu: [enumerate(prefixes, 1)]. *)
Definition menu_lines (prefixes : list string) : list string :=
  map (fun ip => PyStr.str_of_nat (fst ip) ++ ". " ++ snd ip)
    (combine (seq 1 (List.length prefixes)) prefixes).

Fixpoint print_all (lines : list string) : Console.IO unit :=
  match lines with
  | [] => Console.ret tt
  | line :: lines' => Console.print line ;;; print_all lines'
  end.

(** The [while True] loop of [select_prefix]: one answer is read on each
    turn, so the loop is written by recursion on the answers. *)
Fixpoint select_loop (prefixes : list string) (answers : list string)
  : list Console.event * (Console.error + string * list string) :=
  let asked := Console.Asked "Enter your choice (number): " in
  match answers with
  | [] => ([asked], inl Console.EOFError)
  | answer :: answers' =>
      match py_int (PyStr.strip answer) with
      | None =>
          let '(ev, r) := select_loop prefixes answers' in
          (asked :: Console.Printed "Please enter a number." :: ev, r)
      | Some choice =>
          let n := Z.of_nat (List.length prefixes) in
          if ((1 <=? choice) && (choice <=? n))%Z then
            ([asked],
             inr (nth (Z.to_nat (choice - 1)) prefixes "", answers'))
          else if (choice =? n + 1)%Z then
            ([asked], inr ("", answers'))
          else if (choice =? n + 2)%Z then
            let '(ev, r) :=
              (custom <- Console.input "Enter custom prefix: " ;;
               Console.ret (PyStr.strip custom)) answers' in
            (asked :: ev, r)
          else
            let '(ev, r) := select_loop prefixes answers' in
            (asked :: Console.Printed "Invalid choice. Please try again."
               :: ev, r)
      end
  end.

(** [select_prefix] *)
Definition select_prefix (config : Config) : Console.IO string :=
  match prefixes config with
  | [] => Console.ret (prefix config)
  | _ =>
      Console.print (nl ++ "Select a prefix for your commit message:") ;;;
      print_all (menu_lines (prefixes config)) ;;;
      Console.print
        (PyStr.str_of_nat (List.length (prefixes config) + 1) ++ ". No prefix") ;;;
      Console.print
        (PyStr.str_of_nat (List.length (prefixes config) + 2)
         ++ ". Custom prefix") ;;;
      select_loop (prefixes config)
  end.

(** [repo.git.commit('-m', message)] *)
Definition commit (host : Host) (message : string) : Console.IO unit :=
  match git_commit host message with
  | None => Console.emit (Console.Committed message)
  | Some e => Console.raise (Console.Uncaught e)
  end.

(** What [main] does once the message is generated. *)
Definition confirm_and_commit (host : Host) (commit_message : string)
  : Console.IO unit :=
  Console.print (nl ++ "Generated commit message: " ++ commit_message) ;;;
  confirm <- Console.input "Proceed with this commit message? (y/n/edit): " ;;
  let confirm := PyText.lower (PyStr.strip confirm) in
  if confirm =? "y" then
    commit host commit_message ;;;
    Console.print "Changes committed successfully!"
  else if confirm =? "edit" then
    edited_message <- Console.input "Enter your commit message: " ;;
    commit host (PyStr.strip edited_message) ;;;
    Console.print "Changes committed with edited message!"
  else Console.print "Commit aborted.".

(** [main], after [parser.parse_args()].  Building the [Repo] at the root
    that git has just reported is taken not to raise. *)
Definition main (args : Args) (host : Host) : Console.IO unit :=
  if args_setup args then setup_config host
  else
    git_root <- get_git_root host ;;
    config <- Console.of_result
                (get_config
                   (autocommit_section host
                      (PyText.join git_root ".git-autocommit"))
                   (environ_OPENAI_API_KEY host)) ;;
    let config := if args_use_ai args then set_use_ai true config else config in
    let config :=
      if args_conventional args then set_conventional_commits true config
      else config in
    staged_files <- Console.lift (get_staged_files (staged_name_status host)) ;;
    config <-
      (match prefixes config with
       | [] => Console.ret config
       | _ =>
           if negb (args_no_prefix_selection args) then
             selected_prefix <- select_prefix config ;;
             Console.ret (set_prefix selected_prefix config)
           else Console.ret config
       end) ;;
    commit_message <-
      Console.lift (generate_commit_message (world host) config staged_files) ;;
    confirm_and_commit host commit_message.

End WithInt.

(** ** Vocabulary of the further properties *)

(** [s] ends with a whitespace character. *)
Fixpoint ends_with_space (s : string) : bool :=
  match s with
  | "" => false
  | String a "" => PyStr.is_space a
  | String _ r => ends_with_space r
  end.

(** [s] has whitespace at neither end. *)
Definition trimmed (s : string) : bool :=
  negb (starts_with_space s) && negb (ends_with_space s).

(** How many characters of [s] are [c]. *)
Fixpoint occurrences (c : ascii) (s : string) : nat :=
  match s with
  | "" => 0
  | String a r => (if Ascii.eqb a c then 1 else 0) + occurrences c r
  end.

(** The tests of the loop of [get_file_changes]. *)
Definition is_added_line (line : string) : bool :=
  PyText.startswith line "+" && negb (PyText.startswith line "+++").

Definition is_removed_line (line : string) : bool :=
  PyText.startswith line "-" && negb (PyText.startswith line "---").

(** What the loop records for a line: [line[1:].strip()]. *)
Definition recorded_text (line : string) : string :=
  PyStr.strip (PyStr.slice_from 1 line).

(** The marker that [generate_ai_commit_message] appends to a cut diff. *)
Definition truncation_marker : string :=
  nl ++ "..." ++ nl ++ "(diff truncated due to size)".

(** The prefixes of the file that [setup_config] writes. *)
Definition conventional_prefixes : list string :=
  ["feat:"; "fix:"; "docs:"; "style:"; "refactor:"; "perf:"; "test:";
   "build:"; "ci:"; "chore:"].

(** How many entries of a ChangeSet have the extension key [k]. *)
Definition extension_tally (k : string) (cs : list (string * string)) : nat :=
  List.length (filter (fun e => extension_of (snd e) =? k) cs).



(** An answer that reads as [word] once stripped and lowercased. *)
Definition reads_as (word answer : string) : Prop :=
  PyText.lower (PyStr.strip answer) = word.

(** The prompt of [main] that asks for consent. *)
Definition confirmation_prompt : string :=
  "Proceed with this commit message? (y/n/edit): ".

(** The line typed at the prompt that comes next after the events
    [before]: every prompt reads one line, so it is the line numbered by
    the prompts already shown. *)
Definition typed_after (before : list Console.event)
  (answers : list string) : option string :=
  nth_error answers (List.length (Console.prompts before)).

(** What [main] may commit.  Nothing; or one message, the one it has just
    shown as generated, when the line typed at the confirmation prompt
    reads y; or one message, the stripped line typed at the prompt for the
    edited message, when the line typed at the confirmation prompt reads
    edit.  The run then ends with the notice of the commit. *)
Definition committed_by_consent (answers : list string)
  (events : list Console.event) : Prop :=
  Console.commits events = []
  \/ exists shown m confirm,
       Console.commits shown = []
       /\ typed_after shown answers = Some confirm
       /\ ((reads_as "y" confirm
            /\ events
               = (shown
                  ++ [ Console.Printed (nl ++ "Generated commit message: " ++ m);
                       Console.Asked confirmation_prompt;
                       Console.Committed m;
                       Console.Printed "Changes committed successfully!" ])%list)
           \/ (exists generated edited,
                 reads_as "edit" confirm
                 /\ typed_after (shown ++ [Console.Asked confirmation_prompt])
                      answers = Some edited
                 /\ m = PyStr.strip edited
                 /\ events
                    = (shown
                       ++ [ Console.Printed
                              (nl ++ "Generated commit message: " ++ generated);
                            Console.Asked confirmation_prompt;
                            Console.Asked "Enter your commit message: ";
                            Console.Committed m;
                            Console.Printed
                              "Changes committed with edited message!" ])%list)).

(** A computation that commits nothing and, when it returns, has read one
    answer for each prompt it has shown and hands back the others. *)
Definition quiet {A : Type} (m : Console.IO A) : Prop :=
  forall answers ev r,
    m answers = (ev, r) ->
    Console.commits ev = []
    /\ forall a rest,
         r = inr (a, rest) ->
         exists used,
           answers = (used ++ rest)%list
           /\ List.length used = List.length (Console.prompts ev).

(** The options that [get_config] reads, in the order it reads them. *)
Definition option_keys : list string :=
  ["prefix"; "prefixes"; "max_length"; "use_ai"; "openai_api_key";
   "openai_model"; "conventional_commits"].

(** What is wrong with one option of a section, taken alone: nothing when
    the section lacks it; the exception of [configparser] when reading it
    raises; [ValueError] when the text of max_length is no int, or the
    text of use_ai or conventional_commits is no boolean spelling. *)
Definition option_failure (py_int : string -> option Z)
  (autocommit : Dict.t (Py.exn + string)) (key : string)
  : option Console.error :=
  match Dict.get key autocommit with
  | None => None
  | Some (inl e) => Some (Console.Uncaught e)
  | Some (inr text) =>
      if key =? "max_length" then
        match py_int text with
        | Some _ => None
        | None => Some Console.ValueError
        end
      else if PyStr.in_list key ["use_ai"; "conventional_commits"] then
        match convert_to_boolean text with
        | inl e => Some e
        | inr _ => None
        end
      else None
  end.

(** The first result that [f] gives along a list. *)
Fixpoint first_some {A B : Type} (f : A -> option B) (l : list A)
  : option B :=
  match l with
  | [] => None
  | x :: l' =>
      match f x with
      | Some b => Some b
      | None => first_some f l'
      end
  end.

(** The configuration [main] works with once the flags are applied. *)
Definition apply_flags (args : Args) (config : Config) : Config :=
  let config := if args_use_ai args then set_use_ai true config else config in
  if args_conventional args then set_conventional_commits true config
  else config.

(** What [select_prefix] prints before it asks. *)
Definition menu_events (config : Config) : list Console.event :=
  (Console.Printed (nl ++ "Select a prefix for your commit message:")
   :: map Console.Printed (menu_lines (prefixes config))
   ++ [ Console.Printed
          (PyStr.str_of_nat (List.length (prefixes config) + 1)
           ++ ". No prefix");
        Console.Printed
          (PyStr.str_of_nat (List.length (prefixes config) + 2)
           ++ ". Custom prefix") ])%list.

(** * Facts about strings *)

Section StringFacts.

Lemma length_app_str (a b : string) :
  String.length (a ++ b) = String.length a + String.length b.
Proof. induction a as [|c a IH]; cbn; [reflexivity | now rewrite IH]. Qed.

Lemma length_take (n : nat) (s : string) :
  String.length (PyStr.take n s) = Nat.min n (String.length s).
Proof.
  revert s. induction n as [|n IH]; intros [|c s]; cbn; try reflexivity.
  now rewrite IH.
Qed.

Lemma take_drop (n : nat) (s : string) :
  PyStr.take n s ++ PyStr.drop n s = s.
Proof.
  revert s. induction n as [|n IH]; intros [|c s]; cbn; try reflexivity.
  now rewrite IH.
Qed.

Lemma take_app_length (a b : string) :
  PyStr.take (String.length a) (a ++ b) = a.
Proof. induction a as [|c a IH]; cbn; [now destruct b | now rewrite IH]. Qed.

Lemma drop_app_length (a b : string) :
  PyStr.drop (String.length a) (a ++ b) = b.
Proof. induction a as [|c a IH]; cbn; [reflexivity | exact IH]. Qed.

Lemma endswith_app (a b : string) : PyStr.endswith (a ++ b) b = true.
Proof.
  unfold PyStr.endswith. rewrite length_app_str.
  replace (String.length a + String.length b - String.length b)
    with (String.length a) by lia.
  rewrite drop_app_length, String.eqb_refl.
  rewrite andb_true_r. apply Nat.leb_le. lia.
Qed.

Lemma free_of_app (c : ascii) (a b : string) :
  free_of c (a ++ b) = free_of c a && free_of c b.
Proof.
  induction a as [|x a IH]; cbn; [reflexivity |].
  now rewrite IH, andb_assoc.
Qed.

(** [rfind] on a string without the character. *)
Lemma rfind_from_free (c : ascii) (s : string) (i : Z) :
  free_of c s = true -> PyStr.rfind_from c s i = (-1)%Z.
Proof.
  revert i. induction s as [|a s IH]; intros i H; cbn in *; [reflexivity |].
  apply andb_true_iff in H. destruct H as [Ha Hs].
  rewrite (IH _ Hs). cbn. apply negb_true_iff in Ha. now rewrite Ha.
Qed.

(** [rfind] finds the last occurrence. *)
Lemma rfind_from_last (c : ascii) (pre post : string) (i : Z) :
  (0 <= i)%Z -> free_of c post = true ->
  PyStr.rfind_from c (pre ++ String c post) i
  = (i + Z.of_nat (String.length pre))%Z.
Proof.
  revert i. induction pre as [|a pre IH]; intros i Hi Hpost; cbn [append PyStr.rfind_from].
  - rewrite (rfind_from_free _ _ _ Hpost). cbn.
    rewrite Ascii.eqb_refl. lia.
  - rewrite IH by (lia || assumption).
    replace (0 <=? i + 1 + Z.of_nat (String.length pre))%Z with true
      by (symmetry; apply Z.leb_le; lia).
    cbn [String.length]. lia.
Qed.

(** Every string either lacks [c] or splits at its last occurrence. *)
Lemma last_occurrence (c : ascii) (s : string) :
  free_of c s = true \/
  exists pre post, s = pre ++ String c post /\ free_of c post = true.
Proof.
  induction s as [|a s [IH | [pre [post [-> Hp]]]]].
  - now left.
  - cbn. destruct (Ascii.eqb a c) eqn:E.
    + right. apply Ascii.eqb_eq in E. subst. now exists "", s.
    + left. now rewrite IH.
  - right. now exists (String a pre), post.
Qed.

Lemma rfind_lower (c : ascii) (s : string) : (-1 <= PyStr.rfind c s)%Z.
Proof.
  unfold PyStr.rfind.
  destruct (last_occurrence c s) as [H | [pre [post [-> H]]]].
  - rewrite rfind_from_free by assumption. lia.
  - rewrite rfind_from_last by (lia || assumption). lia.
Qed.

Lemma lstrip_char_free (c : ascii) (s : string) :
  free_of c s = true -> PyStr.lstrip_char c s = s.
Proof.
  destruct s as [|a s]; cbn; [reflexivity |]. intros H.
  apply andb_true_iff in H. destruct H as [Ha _].
  apply negb_true_iff in Ha. now rewrite Ha.
Qed.

Lemma slice_from_nat (n : nat) (s : string) :
  PyStr.slice_from (Z.of_nat n) s = PyStr.drop n s.
Proof.
  unfold PyStr.slice_from.
  replace (0 <=? Z.of_nat n)%Z with true by (symmetry; apply Z.leb_le; lia).
  now rewrite Nat2Z.id.
Qed.

Lemma slice_to_nat (n : nat) (s : string) :
  PyStr.slice_to (Z.of_nat n) s = PyStr.take n s.
Proof.
  unfold PyStr.slice_to.
  replace (0 <=? Z.of_nat n)%Z with true by (symmetry; apply Z.leb_le; lia).
  now rewrite Nat2Z.id.
Qed.

End StringFacts.

(** * Facts about paths *)

Section PathFacts.

(** [basename] is the final component: what follows the last slash. *)
Lemma basename_final_component (dir name : string) :
  free_of "/" name = true ->
  PosixPath.basename (dir ++ "/" ++ name) = name.
Proof.
  intros H. unfold PosixPath.basename, PyStr.rfind. cbn [append].
  rewrite rfind_from_last by (lia || assumption).
  replace (0 + Z.of_nat (String.length dir) + 1)%Z
    with (Z.of_nat (S (String.length dir))) by lia.
  rewrite slice_from_nat.
  change (S (String.length dir)) with (String.length (String "/" dir)).
  clear H. induction dir as [|a dir IH]; [reflexivity | exact IH].
Qed.

Lemma basename_no_slash (p : string) :
  free_of "/" p = true -> PosixPath.basename p = p.
Proof.
  intros H. unfold PosixPath.basename, PyStr.rfind.
  now rewrite rfind_from_free.
Qed.

Lemma rfind_last (c : ascii) (pre post : string) :
  free_of c post = true ->
  PyStr.rfind c (pre ++ String c post) = Z.of_nat (String.length pre).
Proof.
  intros H. unfold PyStr.rfind.
  rewrite rfind_from_last by (lia || assumption). lia.
Qed.

Lemma rfind_free (c : ascii) (s : string) :
  free_of c s = true -> PyStr.rfind c s = (-1)%Z.
Proof. intros H. unfold PyStr.rfind. now apply rfind_from_free. Qed.

(** [splitext] gives no extension, or the text from the last dot on. *)
Lemma splitext_snd_cases (path : string) :
  snd (PosixPath.splitext path) = "" \/
  exists pre post,
    path = pre ++ String "." post /\ free_of "." post = true
    /\ snd (PosixPath.splitext path) = String "." post.
Proof.
  unfold PosixPath.splitext.
  destruct (last_occurrence "." path) as [H | [pre [post [-> H]]]].
  - left. rewrite (rfind_free "." path H).
    replace (PyStr.rfind "/" path <? -1)%Z with false
      by (symmetry; apply Z.ltb_ge; apply rfind_lower).
    reflexivity.
  - rewrite (rfind_last "." pre post H).
    match goal with |- context [if ?b then _ else _] => destruct b end.
    + right. exists pre, post. cbn [snd].
      rewrite slice_from_nat, drop_app_length. auto.
    + now left.
Qed.

(** The extension key is the text after the last dot, as it stands. *)
Lemma extension_of_suffix (path : string) :
  extension_of path <> "" ->
  exists stem, path = stem ++ "." ++ extension_of path
               /\ free_of "." (extension_of path) = true.
Proof.
  unfold extension_of.
  destruct (splitext_snd_cases path) as [-> | [pre [post [-> [H ->]]]]].
  - cbn. congruence.
  - cbn [PyStr.lstrip_char PyStr.lstrip_by]. rewrite Ascii.eqb_refl.
    fold (PyStr.lstrip_char "." post). rewrite lstrip_char_free by assumption.
    intros _. exists pre. split; [reflexivity | assumption].
Qed.

Lemma extension_of_no_dot (path : string) :
  free_of "." path = true -> extension_of path = "".
Proof.
  intros H. unfold extension_of, PosixPath.splitext.
  rewrite (rfind_free "." path H).
  replace (PyStr.rfind "/" path <? -1)%Z with false
    by (symmetry; apply Z.ltb_ge; apply rfind_lower).
  reflexivity.
Qed.

Lemma append_assoc_str (a b c : string) : (a ++ b) ++ c = a ++ b ++ c.
Proof. induction a as [|x a IH]; cbn; [reflexivity | now rewrite IH]. Qed.

Lemma has_non_dot_name (dir name rest : string) :
  PosixPath.has_non_dot (dir ++ name ++ rest)
    (Z.of_nat (String.length dir)) (String.length name)
  = negb (all_dots name).
Proof.
  revert dir. induction name as [|a name IH]; intros dir; [reflexivity |].
  cbn [String.length PosixPath.has_non_dot all_dots].
  rewrite slice_from_nat, drop_app_length. cbn [append PyStr.take].
  replace (String a "" =? ".") with (Ascii.eqb a ".")
    by (cbn; now destruct (Ascii.eqb a ".")).
  destruct (Ascii.eqb a "."); cbn [negb andb]; [| reflexivity].
  specialize (IH (dir ++ String a "")).
  rewrite append_assoc_str in IH. cbn [append] in IH.
  rewrite length_app_str in IH. cbn [String.length] in IH.
  replace (Z.of_nat (String.length dir) + 1)%Z
    with (Z.of_nat (String.length dir + 1)) by lia.
  exact IH.
Qed.

Lemma rfind_slash_named (dir rest : string) :
  (dir = "" \/ exists d, dir = d ++ "/") -> free_of "/" rest = true ->
  PyStr.rfind "/" (dir ++ rest) = (Z.of_nat (String.length dir) - 1)%Z.
Proof.
  intros [-> | [d ->]] H.
  - cbn [append String.length]. now rewrite rfind_free.
  - rewrite append_assoc_str. cbn [append].
    rewrite rfind_last by assumption.
    rewrite length_app_str. cbn [String.length]. lia.
Qed.

(** [splitext] on a path given by its directory, the name before the last
    dot and the text after it: the text is the extension unless the name
    is made of dots only. *)
Lemma splitext_named (dir name ext : string) :
  (dir = "" \/ exists d, dir = d ++ "/") ->
  free_of "/" name = true ->
  free_of "." ext = true -> free_of "/" ext = true ->
  PosixPath.splitext (dir ++ name ++ "." ++ ext)
  = if all_dots name then (dir ++ name ++ "." ++ ext, "")
    else (dir ++ name, "." ++ ext).
Proof.
  intros Hd Hn He Hs. unfold PosixPath.splitext.
  rewrite (rfind_slash_named dir (name ++ "." ++ ext) Hd)
    by (rewrite free_of_app, Hn; cbn; exact Hs).
  assert (Hdot : PyStr.rfind "." (dir ++ name ++ "." ++ ext)
                 = Z.of_nat (String.length (dir ++ name))).
  { rewrite <- append_assoc_str. cbn [append]. now apply rfind_last. }
  rewrite Hdot, length_app_str.
  replace (Z.of_nat (String.length dir) - 1 + 1)%Z
    with (Z.of_nat (String.length dir)) by lia.
  replace (Z.to_nat (Z.of_nat (String.length dir + String.length name)
                     - Z.of_nat (String.length dir)))
    with (String.length name) by lia.
  rewrite has_non_dot_name.
  replace (Z.of_nat (String.length dir) - 1
           <? Z.of_nat (String.length dir + String.length name))%Z
    with true by (symmetry; apply Z.ltb_lt; lia).
  cbn [andb]. destruct (all_dots name); cbn [negb]; [reflexivity |].
  rewrite <- length_app_str, slice_to_nat, slice_from_nat.
  rewrite <- append_assoc_str.
  now rewrite take_app_length, drop_app_length.
Qed.

Lemma extension_of_named (dir name ext : string) :
  (dir = "" \/ exists d, dir = d ++ "/") ->
  free_of "/" name = true ->
  free_of "." ext = true -> free_of "/" ext = true ->
  extension_of (dir ++ name ++ "." ++ ext)
  = if all_dots name then "" else ext.
Proof.
  intros Hd Hn He Hs. unfold extension_of.
  rewrite splitext_named by assumption.
  destruct (all_dots name); [reflexivity |]. cbn [snd append].
  cbn [PyStr.lstrip_char PyStr.lstrip_by]. rewrite Ascii.eqb_refl.
  fold (PyStr.lstrip_char "." ext). now apply lstrip_char_free.
Qed.

Lemma rfind_from_app_free (c : ascii) (a b : string) (i : Z) :
  free_of c b = true ->
  PyStr.rfind_from c (a ++ b) i = PyStr.rfind_from c a i.
Proof.
  intros H. revert i. induction a as [|x a IH]; intros i.
  - cbn [append]. now rewrite rfind_from_free.
  - cbn [append PyStr.rfind_from]. now rewrite IH.
Qed.

Lemma rfind_from_upper (c : ascii) (s : string) (i : Z) :
  (0 <= i)%Z -> (PyStr.rfind_from c s i < i + Z.of_nat (String.length s))%Z
                \/ s = "".
Proof.
  revert i. induction s as [|a s IH]; intros i Hi; [now right |]. left.
  cbn [PyStr.rfind_from String.length].
  destruct (IH (i + 1)%Z ltac:(lia)) as [H | ->].
  - destruct (0 <=? PyStr.rfind_from c s (i + 1))%Z; [lia |].
    destruct (Ascii.eqb a c); lia.
  - cbn. destruct (Ascii.eqb a c); lia.
Qed.

(** A file name without a dot has no extension, whatever dots the
    directory holds. *)
Lemma extension_of_dotless_name (dir name : string) :
  (dir = "" \/ exists d, dir = d ++ "/") ->
  free_of "/" name = true -> free_of "." name = true ->
  extension_of (dir ++ name) = "".
Proof.
  intros Hd Hs Hn. unfold extension_of, PosixPath.splitext.
  rewrite (rfind_slash_named dir name Hd Hs).
  unfold PyStr.rfind at 1. rewrite (rfind_from_app_free "." dir name 0 Hn).
  replace (Z.of_nat (String.length dir) - 1 <? PyStr.rfind_from "." dir 0)%Z
    with false; [reflexivity |].
  symmetry. apply Z.ltb_ge.
  destruct (rfind_from_upper "." dir 0 ltac:(lia)) as [H | ->]; [lia |].
  cbn. lia.
Qed.

End PathFacts.

(** * Facts about the collector *)

Section CollectorFacts.

Lemma split_nonempty (sep : ascii) (s : string) : PyStr.split sep s <> [].
Proof.
  induction s as [|a s IH]; cbn; [discriminate |].
  destruct (Ascii.eqb a sep); [discriminate |].
  destruct (PyStr.split sep s); [contradiction | discriminate].
Qed.

(** No piece of a split holds the separator. *)
Lemma split_free (sep : ascii) (s line : string) :
  In line (PyStr.split sep s) -> free_of sep line = true.
Proof.
  revert line. induction s as [|a s IH]; intros line; cbn.
  - intros [<- | []]. reflexivity.
  - destruct (Ascii.eqb a sep) eqn:E.
    + intros [<- | H]; [reflexivity | now apply IH].
    + destruct (PyStr.split sep s) as [|h t] eqn:Es.
      * now destruct (split_nonempty sep s).
      * intros [<- | H].
        -- cbn. rewrite E. cbn. apply IH. now left.
        -- apply IH. now right.
Qed.

Lemma dot_star_free (s : string) :
  free_of "010" s = true -> Re.dot_star s = s.
Proof.
  induction s as [|a s IH]; cbn; [reflexivity |]. intros H.
  apply andb_true_iff in H. destruct H as [Ha Hs].
  apply negb_true_iff in Ha. rewrite Ha. now rewrite IH.
Qed.

(** [lstrip] removes a run of whitespace and stops at the first character
    that is not whitespace. *)
Lemma lstrip_space_split (s : string) :
  exists ws, s = ws ++ PyStr.lstrip_by PyStr.is_space s
             /\ all_space ws = true
             /\ starts_with_space (PyStr.lstrip_by PyStr.is_space s) = false.
Proof.
  induction s as [|a s [ws [Hs [Hws Hst]]]].
  - now exists "".
  - cbn [PyStr.lstrip_by]. destruct (PyStr.is_space a) eqn:E.
    + exists (String a ws). cbn. rewrite E, Hws. repeat split; [| assumption].
      now rewrite <- Hs.
    + exists "". cbn. now rewrite E.
Qed.

Lemma lstrip_all_space (ws rest : string) :
  all_space ws = true ->
  PyStr.lstrip_by PyStr.is_space (ws ++ rest)
  = PyStr.lstrip_by PyStr.is_space rest.
Proof.
  induction ws as [|a ws IH]; cbn; [reflexivity |]. intros H.
  apply andb_true_iff in H. destruct H as [Ha Hws]. rewrite Ha. now apply IH.
Qed.

Lemma lstrip_not_space (s : string) :
  starts_with_space s = false -> PyStr.lstrip_by PyStr.is_space s = s.
Proof. destruct s as [|a s]; cbn; [reflexivity |]. now intros ->. Qed.

(** A line of the expected shape matches, and gives the letter and the text
    after the whitespace as it stands. *)
Lemma match_status_line_complete (c : ascii) (ws path : string) :
  PyStr.is_word c = true -> ws <> "" -> all_space ws = true ->
  starts_with_space path = false -> free_of "010" path = true ->
  Re.match_status_line (String c (ws ++ path)) = Some (String c "", path).
Proof.
  intros Hc Hne Hws Hp Hnl. unfold Re.match_status_line. rewrite Hc.
  destruct ws as [|w ws]; [contradiction |].
  cbn [append]. pose proof Hws as Hws'. cbn in Hws'.
  apply andb_true_iff in Hws'. destruct Hws' as [Hw _]. rewrite Hw.
  change (String w (ws ++ path)) with (String w ws ++ path).
  rewrite lstrip_all_space, lstrip_not_space, dot_star_free by assumption.
  reflexivity.
Qed.

(** A line that matches has the expected shape. *)
Lemma match_status_line_sound (line status path : string) :
  free_of "010" line = true ->
  Re.match_status_line line = Some (status, path) ->
  exists c ws,
    line = String c (ws ++ path) /\ status = String c ""
    /\ PyStr.is_word c = true /\ ws <> "" /\ all_space ws = true
    /\ starts_with_space path = false.
Proof.
  intros Hnl. unfold Re.match_status_line.
  destruct line as [|c rest]; [discriminate |].
  destruct (PyStr.is_word c) eqn:Hc; [| discriminate].
  destruct rest as [|w rest']; [discriminate |].
  destruct (PyStr.is_space w) eqn:Hw; [| discriminate].
  destruct (lstrip_space_split (String w rest')) as [ws [Hs [Hws Hst]]].
  set (t := PyStr.lstrip_by PyStr.is_space (String w rest')) in *.
  clearbody t. intros H. injection H as <- <-.
  assert (Ht : free_of "010" t = true).
  { assert (Hr : free_of "010" (String w rest') = true)
      by (cbn in Hnl |- *; apply andb_true_iff in Hnl; tauto).
    rewrite Hs, free_of_app in Hr. apply andb_true_iff in Hr. tauto. }
  rewrite (dot_star_free t Ht).
  exists c, ws. repeat split; try assumption.
  - now rewrite <- Hs.
  - intros ->. cbn in Hs. rewrite <- Hs in Hst. cbn in Hst. congruence.
Qed.

Lemma bind_ret (A B : Type) (a : A) (k : A -> Py.Run B) :
  Py.bind (Py.ret a) k = k a.
Proof. unfold Py.bind, Py.ret. now destruct (k a). Qed.

(** The loop stops at the first line that does not match. *)
Lemma collect_lines_malformed (lines : list string)
  (acc : list (string * string)) (line : string) :
  In line lines -> PyStr.truthy line = true ->
  Re.match_status_line line = None ->
  collect_lines lines acc = ([], inl MalformedStatusLine).
Proof.
  intros Hin Hne Hbad. revert acc.
  induction lines as [|l lines IH]; intros acc; [destruct Hin |].
  cbn [collect_lines]. destruct (PyStr.truthy l) eqn:El; cbn [negb].
  - destruct (Re.match_status_line l) as [[status path]|] eqn:Em.
    + cbn [Py.attribute_of]. rewrite bind_ret.
      destruct Hin as [-> | Hin]; [congruence | now apply IH].
    + reflexivity.
  - destruct Hin as [-> | Hin]; [congruence | now apply IH].
Qed.

(** With every line matching, the loop returns the pairs in order. *)
Lemma collect_lines_wellformed (lines : list string)
  (acc pairs : list (string * string)) :
  map Re.match_status_line (filter PyStr.truthy lines) = map Some pairs ->
  collect_lines lines acc = ([], inr (acc ++ pairs)%list).
Proof.
  revert acc pairs. induction lines as [|l lines IH]; intros acc pairs H.
  - cbn in H. destruct pairs; [| discriminate]. cbn. now rewrite app_nil_r.
  - cbn [collect_lines]. cbn [filter] in H.
    destruct (PyStr.truthy l) eqn:El; cbn [negb].
    + destruct pairs as [|[status path] pairs]; [discriminate |].
      cbn [map] in H. injection H as Hm H. rewrite Hm.
      cbn [Py.attribute_of]. rewrite bind_ret.
      rewrite (IH _ pairs H). now rewrite <- app_assoc.
    + now apply IH.
Qed.

End CollectorFacts.

(** * Facts about the classifier *)

Section ClassifierFacts.

Lemma entries_with_app (s : string) (xs ys : list (string * string)) :
  entries_with s (xs ++ ys) = (entries_with s xs ++ entries_with s ys)%list.
Proof. unfold entries_with. apply filter_app. Qed.

Lemma bucket_snoc_same (s p : string) (cs : list (string * string)) :
  bucket s (cs ++ [(s, p)]) =
  {| count := count (bucket s cs) + 1;
     files := (files (bucket s cs) ++ [p])%list |}.
Proof.
  unfold bucket, tally. rewrite entries_with_app.
  unfold entries_with at 2 4. simpl. rewrite String.eqb_refl.
  rewrite length_app, map_app. reflexivity.
Qed.

Lemma bucket_snoc_other (k s p : string) (cs : list (string * string)) :
  (s =? k) = false -> bucket k (cs ++ [(s, p)]) = bucket k cs.
Proof.
  intros Hk. unfold bucket, tally. rewrite entries_with_app.
  unfold entries_with at 2 4. simpl. rewrite Hk.
  now rewrite app_nil_r.
Qed.

(** One turn of the loop keeps the buckets in step with the entries read. *)
Lemma categorize_entry_buckets (pre : list (string * string))
  (exts : Dict.t nat) (e : string * string) :
  fst (categorize_entry (buckets pre, exts) e) = buckets (pre ++ [e]).
Proof.
  destruct e as [s p]. unfold categorize_entry, buckets.
  cbn [fst Dict.get Dict.set].
  destruct (s =? "A") eqn:EA.
  { apply String.eqb_eq in EA. subst s. cbn.
    rewrite bucket_snoc_same, !bucket_snoc_other by reflexivity.
    reflexivity. }
  destruct (s =? "M") eqn:EM.
  { apply String.eqb_eq in EM. subst s. cbn.
    rewrite bucket_snoc_same, !bucket_snoc_other by reflexivity.
    reflexivity. }
  destruct (s =? "D") eqn:ED.
  { apply String.eqb_eq in ED. subst s. cbn.
    rewrite bucket_snoc_same, !bucket_snoc_other by reflexivity.
    reflexivity. }
  destruct (s =? "R") eqn:ER.
  { apply String.eqb_eq in ER. subst s. cbn.
    rewrite bucket_snoc_same, !bucket_snoc_other by reflexivity.
    reflexivity. }
  destruct (s =? "C") eqn:EC.
  { apply String.eqb_eq in EC. subst s. cbn.
    rewrite bucket_snoc_same, !bucket_snoc_other by reflexivity.
    reflexivity. }
  cbn. rewrite !bucket_snoc_other by assumption. reflexivity.
Qed.

Lemma categorize_fold_buckets (cs pre : list (string * string))
  (exts : Dict.t nat) :
  fst (fold_left categorize_entry cs (buckets pre, exts)) = buckets (pre ++ cs).
Proof.
  revert pre exts. induction cs as [|e cs IH]; intros pre exts.
  - now rewrite app_nil_r.
  - cbn [fold_left].
    destruct (categorize_entry (buckets pre, exts) e) as [cats exts'] eqn:E.
    pose proof (categorize_entry_buckets pre exts e) as H.
    rewrite E in H. cbn in H. subst cats.
    rewrite IH. now rewrite <- app_assoc.
Qed.

(** The categories the classifier returns, in closed form. *)
Lemma categorize_changes_buckets (cs : list (string * string)) :
  fst (categorize_changes cs) = buckets cs.
Proof.
  unfold categorize_changes.
  change (initial_categories, @nil (string * nat))
    with (buckets [], @nil (string * nat)).
  apply categorize_fold_buckets.
Qed.

End ClassifierFacts.

(** * Facts about dictionaries *)

Section DictFacts.

Context {V : Type}.

Lemma get_In_keys (k : string) (d : Dict.t V) :
  In k (Dict.keys d) <-> Dict.mem k d = true.
Proof.
  unfold Dict.mem, Dict.keys. induction d as [|[k' v] d IH]; cbn.
  - split; [tauto | discriminate].
  - destruct (k =? k') eqn:E.
    + apply String.eqb_eq in E. subst. tauto.
    + apply String.eqb_neq in E. rewrite <- IH. split.
      * intros [H | H]; [congruence | assumption].
      * tauto.
Qed.

Lemma keys_set (k : string) (v : V) (d : Dict.t V) :
  Dict.keys (Dict.set k v d) =
  if Dict.mem k d then Dict.keys d else (Dict.keys d ++ [k])%list.
Proof.
  unfold Dict.mem, Dict.keys. induction d as [|[k' v'] d IH]; cbn.
  - reflexivity.
  - destruct (k =? k') eqn:E; cbn.
    + reflexivity.
    + rewrite IH. now destruct (Dict.get k d).
Qed.

Lemma NoDup_snoc (A : Type) (l : list A) (x : A) :
  NoDup l -> ~ In x l -> NoDup (l ++ [x]).
Proof.
  intros Hl Hx. induction Hl as [|y l Hy Hl IH]; cbn.
  - constructor; [tauto | constructor].
  - constructor.
    + rewrite in_app_iff. cbn. intros [H | [H | []]]; [tauto |].
      subst. apply Hx. now left.
    + apply IH. intros H. apply Hx. now right.
Qed.

Lemma keys_set_NoDup (k : string) (v : V) (d : Dict.t V) :
  NoDup (Dict.keys d) -> NoDup (Dict.keys (Dict.set k v d)).
Proof.
  intros H. rewrite keys_set. destruct (Dict.mem k d) eqn:E.
  - assumption.
  - apply NoDup_snoc; [assumption |].
    rewrite get_In_keys. congruence.
Qed.

Lemma keys_set_In (k k' : string) (v : V) (d : Dict.t V) :
  In k' (Dict.keys (Dict.set k v d)) <-> k' = k \/ In k' (Dict.keys d).
Proof.
  rewrite keys_set. destruct (Dict.mem k d) eqn:E.
  - split; [tauto |]. intros [-> | H]; [| assumption].
    now apply get_In_keys.
  - rewrite in_app_iff. cbn. intuition congruence.
Qed.

End DictFacts.

Lemma NoDup_all_equal (A : Type) (l : list A) (x : A) :
  NoDup l -> In x l -> (forall y, In y l -> y = x) -> l = [x].
Proof.
  intros Hnd Hx Hall. destruct l as [|a l]; [destruct Hx |].
  assert (a = x) by (apply Hall; now left). subst a.
  destruct l as [|b l]; [reflexivity |].
  assert (b = x) by (apply Hall; right; now left). subst b.
  inversion Hnd as [|? ? Hn _]. exfalso. apply Hn. now left.
Qed.

(** * Facts about the extension counts *)

Section ExtensionFacts.

Lemma categorize_entry_snd (cats : Dict.t category) (exts : Dict.t nat)
  (e : string * string) :
  snd (categorize_entry (cats, exts) e) = record_extension exts e.
Proof.
  destruct e as [s p]. unfold categorize_entry, record_extension. cbn [snd].
  now destruct (PyStr.truthy (extension_of p)).
Qed.

Lemma truthy_true (s : string) : PyStr.truthy s = true <-> s <> "".
Proof.
  unfold PyStr.truthy. rewrite negb_true_iff. apply String.eqb_neq.
Qed.

Lemma truthy_false (s : string) : PyStr.truthy s = false <-> s = "".
Proof.
  unfold PyStr.truthy. rewrite negb_false_iff. apply String.eqb_eq.
Qed.

Lemma record_extension_keys (pre : list (string * string))
  (exts : Dict.t nat) (e : string * string) :
  extension_keys_of pre exts ->
  extension_keys_of (pre ++ [e]) (record_extension exts e).
Proof.
  intros [Hnd Hin]. unfold record_extension.
  destruct (PyStr.truthy (extension_of (snd e))) eqn:E.
  - apply truthy_true in E. split.
    + now apply keys_set_NoDup.
    + intros k. rewrite keys_set_In, Hin. split.
      * intros [-> | [Hk [e' [He' Hx]]]].
        -- split; [assumption |]. exists e. split; [| reflexivity].
           apply in_or_app. right. now left.
        -- split; [assumption |]. exists e'. split; [| assumption].
           apply in_or_app. now left.
      * intros [Hk [e' [He' Hx]]]. apply in_app_or in He'.
        destruct He' as [He' | [<- | []]].
        -- right. split; [assumption |]. now exists e'.
        -- left. now symmetry.
  - apply truthy_false in E. split; [assumption |].
    intros k. rewrite Hin. split.
    + intros [Hk [e' [He' Hx]]]. split; [assumption |].
      exists e'. split; [| assumption]. apply in_or_app. now left.
    + intros [Hk [e' [He' Hx]]]. split; [assumption |].
      apply in_app_or in He'. destruct He' as [He' | [<- | []]].
      * now exists e'.
      * congruence.
Qed.

Lemma categorize_fold_keys (cs pre : list (string * string))
  (cats : Dict.t category) (exts : Dict.t nat) :
  extension_keys_of pre exts ->
  extension_keys_of (pre ++ cs)
    (snd (fold_left categorize_entry cs (cats, exts))).
Proof.
  revert pre cats exts. induction cs as [|e cs IH]; intros pre cats exts H.
  - now rewrite app_nil_r.
  - cbn [fold_left].
    destruct (categorize_entry (cats, exts) e) as [cats' exts'] eqn:E.
    pose proof (categorize_entry_snd cats exts e) as Hs.
    rewrite E in Hs. cbn in Hs. subst exts'.
    replace (pre ++ e :: cs)%list with ((pre ++ [e]) ++ cs)%list
      by now rewrite <- app_assoc.
    apply IH. now apply record_extension_keys.
Qed.

(** The keys of the extension counts the classifier returns. *)
Lemma categorize_changes_extension_keys (cs : list (string * string)) :
  extension_keys_of cs (snd (categorize_changes cs)).
Proof.
  unfold categorize_changes.
  apply (categorize_fold_keys cs [] initial_categories []).
  split; [constructor |]. intros k. cbn. split; [tauto |].
  intros [_ [e [[] _]]].
Qed.

End ExtensionFacts.

(** * Truncation *)

Section TruncationFacts.

Variable config : Config.
Hypothesis room_for_dots : (3 <= max_length config)%Z.

Lemma truncate_cut (message : string) :
  (max_length config < PyStr.len message)%Z ->
  truncate config message
  = PyStr.take (Z.to_nat (max_length config - 3)) message ++ "...".
Proof.
  intros H. unfold truncate, PyStr.slice_to.
  replace (max_length config <? PyStr.len message)%Z with true
    by (symmetry; now apply Z.ltb_lt).
  replace (0 <=? max_length config - 3)%Z with true
    by (symmetry; apply Z.leb_le; lia).
  reflexivity.
Qed.

Lemma truncate_keep (message : string) :
  (PyStr.len message <= max_length config)%Z ->
  truncate config message = message.
Proof.
  intros H. unfold truncate.
  replace (max_length config <? PyStr.len message)%Z with false
    by (symmetry; now apply Z.ltb_ge).
  reflexivity.
Qed.

(** With room for the three dots, truncation honours the limit, and a cut
    message has exactly the limit's length and ends with the dots. *)
Lemma truncate_bound (message : string) :
  (PyStr.len (truncate config message) <= max_length config)%Z
  /\ ((max_length config < PyStr.len message)%Z ->
      PyStr.len (truncate config message) = max_length config
      /\ PyStr.endswith (truncate config message) "..." = true).
Proof.
  destruct (Z.ltb_spec (max_length config) (PyStr.len message)) as [H | H].
  - assert (E : PyStr.len (truncate config message) = max_length config).
    { rewrite truncate_cut by assumption. unfold PyStr.len in *.
      rewrite length_app_str, length_take. cbn [String.length]. lia. }
    split; [lia |]. intros _. split; [assumption |].
    rewrite truncate_cut by assumption. apply endswith_app.
  - rewrite truncate_keep by assumption. split; [assumption | lia].
Qed.

End TruncationFacts.

(** * The remote adapter and the policy layer *)

Section PolicyFacts.

Variables (world : World) (config : Config).

(** What the adapter returns as a message is the stripped answer of the
    service, prefixed under the plain style, and then truncated. *)
Lemma generate_ai_commit_message_answer (out : list string) (m : string) :
  generate_ai_commit_message world config = (out, inr (Some m)) ->
  exists content,
    remote_response world config (bound_diff (get_full_diff world))
    = inr (Some content)
    /\ m = truncate config
             (apply_prefix config (negb (conventional_commits config))
                (PyStr.strip content)).
Proof.
  unfold generate_ai_commit_message.
  destruct (OPENAI_AVAILABLE world); cbn [negb]; [| discriminate].
  destruct (PyStr.truthy (openai_api_key config)); cbn [negb]; [| discriminate].
  destruct (PyStr.truthy (get_full_diff world)); cbn [negb]; [| discriminate].
  unfold remote_call.
  destruct (remote_response world config (bound_diff (get_full_diff world)))
    as [[code | msg] | [content |]]; cbn; try discriminate.
  intros H. injection H as _ <-. exists content. split; reflexivity.
Qed.

(** What [generate_commit_message] returns: the adapter's message when
    the remote synthesizer is asked and answers with one that is not
    empty, and the truncated heuristic message otherwise. *)
Lemma generate_commit_message_source
  (staged_files : list (string * string)) (out : list string) (m : string) :
  generate_commit_message world config staged_files = (out, inr m) ->
  (m = truncate config (apply_prefix config true (analyze_changes staged_files)))
  \/ (use_ai config = true /\ m <> ""
      /\ exists content,
           remote_response world config (bound_diff (get_full_diff world))
           = inr (Some content)
           /\ m = truncate config
                    (apply_prefix config (negb (conventional_commits config))
                       (PyStr.strip content))).
Proof.
  unfold generate_commit_message, rule_based_message.
  destruct (use_ai config).
  - destruct (generate_ai_commit_message world config) as [out' [e | [a |]]] eqn:E;
      cbn.
    + discriminate.
    + destruct (PyStr.truthy a) eqn:T; cbn; intros H; injection H as _ <-.
      * right. split; [reflexivity |]. split; [now apply truthy_true |].
        eapply generate_ai_commit_message_answer. exact E.
      * now left.
    + intros H. injection H as _ <-. now left.
  - cbn. intros H. injection H as _ <-. now left.
Qed.

End PolicyFacts.

(** * The heuristic synthesizer *)

Section SynthesizerFacts.

Lemma recognized_false (s : string) :
  recognized s = false ->
  (s =? "A") = false /\ (s =? "M") = false /\ (s =? "D") = false
  /\ (s =? "R") = false /\ (s =? "C") = false.
Proof.
  unfold recognized, PyStr.in_list. cbn [existsb]. intros H.
  repeat (apply orb_false_iff in H; destruct H as [? H]). tauto.
Qed.

Lemma entries_with_unrecognized (k : string) (cs : list (string * string)) :
  forallb (fun e => negb (recognized (fst e))) cs = true ->
  recognized k = true -> entries_with k cs = [].
Proof.
  intros Hcs Hk. induction cs as [|[s p] cs IH]; [reflexivity |].
  cbn [forallb fst] in Hcs. apply andb_true_iff in Hcs.
  destruct Hcs as [Hs Hcs].
  unfold entries_with. cbn [filter fst]. fold (entries_with k cs).
  destruct (s =? k) eqn:E.
  - apply String.eqb_eq in E. subst. rewrite Hk in Hs. discriminate.
  - now apply IH.
Qed.

Lemma buckets_unrecognized (cs : list (string * string)) :
  forallb (fun e => negb (recognized (fst e))) cs = true ->
  buckets cs = initial_categories.
Proof.
  intros H. unfold buckets, bucket, tally.
  rewrite !(entries_with_unrecognized _ cs H) by reflexivity. reflexivity.
Qed.

Lemma single_file_message_positive (cs : list (string * string)) (m : string) :
  single_file_message cs = Some m -> 0 < String.length m.
Proof.
  destruct cs as [|[s p] [|]]; cbn; try discriminate.
  repeat match goal with
         | |- context [if ?b then _ else _] => destruct b
         end;
    intros H; inversion H; cbn; lia.
Qed.

Lemma compose_message_positive (a sc : option string) (cats : Dict.t category) :
  0 < String.length (compose_message a sc cats).
Proof.
  unfold compose_message.
  destruct a as [a|]; [destruct sc as [sc|] |];
    rewrite ?length_app_str; cbn; lia.
Qed.

Lemma analyze_changes_positive (cs : list (string * string)) :
  0 < String.length (analyze_changes cs).
Proof.
  unfold analyze_changes.
  destruct (categorize_changes cs) as [cats exts].
  destruct (single_file_message cs) as [m|] eqn:E.
  - now apply single_file_message_positive with (cs := cs).
  - apply compose_message_positive.
Qed.

Lemma apply_prefix_positive (config : Config) (enabled : bool) (m : string) :
  0 < String.length m -> 0 < String.length (apply_prefix config enabled m).
Proof.
  intros H. unfold apply_prefix.
  destruct (PyStr.truthy (prefix config) && enabled); [| assumption].
  rewrite length_app_str. cbn. lia.
Qed.

End SynthesizerFacts.

(** * Tallies *)

Section TallyFacts.

Lemma count_of_buckets (cs : list (string * string)) :
  count_of "A" (buckets cs) = tally "A" cs
  /\ count_of "M" (buckets cs) = tally "M" cs
  /\ count_of "D" (buckets cs) = tally "D" cs.
Proof. repeat split; reflexivity. Qed.

Lemma others_count_buckets (cs : list (string * string)) :
  others_count "A" (buckets cs)
  = tally "M" cs + tally "D" cs + tally "R" cs + tally "C" cs
  /\ others_count "M" (buckets cs)
     = tally "A" cs + tally "D" cs + tally "R" cs + tally "C" cs
  /\ others_count "D" (buckets cs)
     = tally "A" cs + tally "M" cs + tally "R" cs + tally "C" cs.
Proof. unfold others_count, buckets. cbn. lia. Qed.

Lemma file_count_buckets (cs : list (string * string)) :
  file_count (buckets cs)
  = tally "A" cs + tally "M" cs + tally "D" cs + tally "R" cs + tally "C" cs.
Proof. unfold file_count, buckets. cbn. lia. Qed.

Lemma tally_cons (k s p : string) (cs : list (string * string)) :
  tally k ((s, p) :: cs) = (if s =? k then 1 else 0) + tally k cs.
Proof.
  unfold tally, entries_with. cbn [filter fst].
  now destruct (s =? k).
Qed.

(** The total of the categories counts the entries with a recognized
    status, and no other entry. *)
Lemma file_count_recognized (cs : list (string * string)) :
  file_count (buckets cs)
  = List.length (filter (fun e => recognized (fst e)) cs).
Proof.
  rewrite file_count_buckets.
  induction cs as [|[s p] cs IH]; [reflexivity |].
  rewrite !tally_cons. cbn [filter fst].
  destruct (recognized s) eqn:R.
  - cbn [List.length]. rewrite <- IH.
    unfold recognized, PyStr.in_list in R. cbn [existsb] in R.
    destruct (s =? "A") eqn:EA;
      [apply String.eqb_eq in EA; subst s; cbn; lia |].
    destruct (s =? "M") eqn:EM;
      [apply String.eqb_eq in EM; subst s; cbn; lia |].
    destruct (s =? "D") eqn:ED;
      [apply String.eqb_eq in ED; subst s; cbn; lia |].
    destruct (s =? "R") eqn:ER;
      [apply String.eqb_eq in ER; subst s; cbn; lia |].
    destruct (s =? "C") eqn:EC;
      [apply String.eqb_eq in EC; subst s; cbn; lia |].
    discriminate.
  - rewrite <- IH. apply recognized_false in R.
    destruct R as (-> & -> & -> & -> & ->). lia.
Qed.

Lemma entries_with_skip (k s p : string) (pre post : list (string * string)) :
  (s =? k) = false ->
  entries_with k (pre ++ (s, p) :: post) = entries_with k (pre ++ post).
Proof.
  intros H. rewrite !entries_with_app. f_equal.
  unfold entries_with. cbn [filter fst]. now rewrite H.
Qed.

End TallyFacts.

(** Every entry carries the status or another one. *)
Lemma tally_other_entries (k : string) (cs : list (string * string)) :
  tally k cs + other_entries k cs = List.length cs.
Proof.
  unfold tally, entries_with, other_entries.
  induction cs as [|[s p] cs IH]; [reflexivity |].
  cbn [filter fst]. destruct (s =? k); cbn [negb List.length]; lia.
Qed.

(** C3: on a ChangeSet that is not empty and holds recognized statuses
    only, the rule of the specification and the code agree. *)
Lemma primary_action_spec_agrees (cs : list (string * string)) :
  cs <> [] ->
  forallb (fun e => recognized (fst e)) cs = true ->
  primary_action (fst (categorize_changes cs)) = primary_action_spec cs.
Proof.
  intros Hne Hall.
  assert (Hlen : tally "A" cs + tally "M" cs + tally "D" cs + tally "R" cs
                 + tally "C" cs = List.length cs).
  { rewrite <- file_count_buckets, file_count_recognized.
    f_equal. clear Hne. induction cs as [|e cs IH]; [reflexivity |].
    cbn [forallb] in Hall. apply andb_true_iff in Hall.
    destruct Hall as [He Hall]. cbn [filter]. rewrite He, (IH Hall).
    reflexivity. }
  assert (Hpos : 0 < List.length cs) by (destruct cs; [contradiction | cbn; lia]).
  pose proof (tally_other_entries "A" cs) as HA.
  pose proof (tally_other_entries "M" cs) as HM.
  pose proof (tally_other_entries "D" cs) as HD.
  rewrite categorize_changes_buckets.
  unfold primary_action, primary_action_spec.
  destruct (count_of_buckets cs) as (-> & -> & ->).
  destruct (others_count_buckets cs) as (-> & -> & ->).
  repeat match goal with
         | |- context [(?a <=? ?b)%nat] =>
             destruct (Nat.leb_spec a b)
         | |- context [(?a <? ?b)%nat] =>
             destruct (Nat.ltb_spec a b)
         end; cbn; try reflexivity; lia.
Qed.

(** * The scope *)

Section ScopeFacts.

Lemma in_list_In (x : string) (l : list string) :
  PyStr.in_list x l = true <-> In x l.
Proof.
  unfold PyStr.in_list. rewrite existsb_exists. split.
  - intros [y [Hy E]]. apply String.eqb_eq in E. now subst.
  - intros H. exists x. split; [assumption | apply String.eqb_refl].
Qed.

(** The extension-to-scope chain is the table of the specification, keyed
    by the exact text of the extension. *)
Lemma scope_of_extension_table (ext sc : string) :
  scope_of_extension ext = Some sc <->
  (In ext ["js"; "ts"] /\ sc = "JavaScript")
  \/ (In ext ["py"] /\ sc = "Python")
  \/ (In ext ["css"; "scss"] /\ sc = "styles")
  \/ (In ext ["html"] /\ sc = "HTML")
  \/ (In ext ["md"; "txt"] /\ sc = "documentation")
  \/ (In ext ["json"; "yaml"; "yml"; "toml"] /\ sc = "configuration").
Proof.
  split.
  - unfold scope_of_extension.
    repeat match goal with
           | |- context [PyStr.in_list ext ?l] =>
               destruct (PyStr.in_list ext l) eqn:?
           end;
      intros H; inversion H; subst;
      repeat match goal with
             | E : PyStr.in_list _ _ = true |- _ => apply in_list_In in E
             end; tauto.
  - intros H.
    repeat match goal with
           | H : _ \/ _ |- _ => destruct H as [H | H]
           end;
      destruct H as [Hin ->]; cbn in Hin;
      repeat match goal with
             | H : _ \/ _ |- _ => destruct H as [H | H]
             end;
      try contradiction; subst; reflexivity.
Qed.

(** The scope is present exactly when the paths that have an extension
    key all have the same one and the table lists it. *)
Lemma scope_characterized (cs : list (string * string)) (sc : string) :
  scope (snd (categorize_changes cs)) = Some sc <->
  exists ext,
    ext <> ""
    /\ (exists e, In e cs /\ extension_of (snd e) = ext)
    /\ (forall e, In e cs ->
                  extension_of (snd e) = "" \/ extension_of (snd e) = ext)
    /\ scope_of_extension ext = Some sc.
Proof.
  destruct (categorize_changes_extension_keys cs) as [Hnd Hin].
  unfold scope. split.
  - destruct (Dict.keys (snd (categorize_changes cs))) as [|ext [|]] eqn:K;
      try discriminate.
    intros H. exists ext.
    assert (Hext : In ext [ext]) by now left.
    apply Hin in Hext. destruct Hext as [Hne Hex].
    split; [assumption |]. split; [assumption |]. split; [| assumption].
    intros e He. destruct (string_dec (extension_of (snd e)) "") as [E | E].
    + now left.
    + right. assert (Hk : In (extension_of (snd e)) [ext]).
      { apply Hin. split; [assumption |]. now exists e. }
      destruct Hk as [Hk | []]. now symmetry.
  - intros [ext [Hne [Hex [Hall Hsc]]]].
    assert (K : Dict.keys (snd (categorize_changes cs)) = [ext]).
    { apply NoDup_all_equal; [assumption | now apply Hin |].
      intros k Hk. apply Hin in Hk. destruct Hk as [Hk [e [He Ee]]].
      destruct (Hall e He) as [E | E]; congruence. }
    now rewrite K.
Qed.

End ScopeFacts.

(** * The embedding on known values *)

Example slice_to_counts_from_the_end : PyStr.slice_to (-2) "abcdef" = "abcd".
Proof. reflexivity. Qed.

Example slice_to_clamps : PyStr.slice_to (-9) "abcdef" = "".
Proof. reflexivity. Qed.

Example split_keeps_empty_pieces :
  PyStr.split "010" ("M" ++ tab ++ "a b" ++ nl ++ nl ++ "A" ++ tab ++ "c" ++ nl)
  = ["M" ++ tab ++ "a b"; ""; "A" ++ tab ++ "c"; ""].
Proof. reflexivity. Qed.

Example strip_both_ends : PyStr.strip ("  fix: typo " ++ nl) = "fix: typo".
Proof. reflexivity. Qed.

Example str_of_nat_decimal :
  PyStr.str_of_nat 0 = "0" /\ PyStr.str_of_nat 105 = "105".
Proof. split; reflexivity. Qed.

Example splitext_known_values :
  PosixPath.splitext "a/b.c/d" = ("a/b.c/d", "")
  /\ PosixPath.splitext "x/.bashrc" = ("x/.bashrc", "")
  /\ PosixPath.splitext "a.tar.gz" = ("a.tar", ".gz")
  /\ PosixPath.splitext "a/b.c/.d.e" = ("a/b.c/.d", ".e")
  /\ PosixPath.splitext "foo." = ("foo", ".").
Proof. vm_compute. repeat split. Qed.

Example basename_known_values :
  PosixPath.basename "a/b/foo.py" = "foo.py"
  /\ PosixPath.basename "foo.py" = "foo.py"
  /\ PosixPath.basename "a/b/" = "".
Proof. vm_compute. repeat split. Qed.

Example match_status_line_known_values :
  Re.match_status_line ("M" ++ tab ++ "my file.txt") = Some ("M", "my file.txt")
  /\ Re.match_status_line ("R100" ++ tab ++ "a" ++ tab ++ "b") = None
  /\ Re.match_status_line "Mfile" = None
  /\ Re.match_status_line (tab ++ "M x") = None.
Proof. vm_compute. repeat split. Qed.

Example categorize_changes_known_value :
  categorize_changes [("M", "a.py"); ("A", "b.py"); ("M", "Makefile"); ("T", "c.js")]
  = ([ ("A", {| count := 1; files := ["b.py"] |});
       ("M", {| count := 2; files := ["a.py"; "Makefile"] |});
       ("D", {| count := 0; files := [] |});
       ("R", {| count := 0; files := [] |});
       ("C", {| count := 0; files := [] |}) ],
     [("py", 2); ("js", 1)]).
Proof. reflexivity. Qed.

Example prefix_is_applied_before_truncation :
  generate_commit_message offline_world
    {| prefix := "feat:"; prefixes := []; max_length := 72; use_ai := false;
       openai_api_key := ""; openai_model := "gpt-3.5-turbo";
       conventional_commits := false |}
    [("A", "a/b/foo.py")]
  = ([], inr "feat: Add foo.py").
Proof. reflexivity. Qed.

Example remote_answer_is_stripped_and_prefixed :
  generate_commit_message
    (online_world "diff --git a/x b/x" (inr (Some "  Tighten the parser  ")))
    (ai_config "sk-test" "fix:") [("M", "parser.py")]
  = ([], inr "fix: Tighten the parser").
Proof. reflexivity. Qed.

Example system_exit_is_not_caught :
  generate_commit_message
    (online_world "diff --git a/x b/x" (inl (Py.SystemExit 3)))
    (ai_config "sk-test" "") [("M", "parser.py")]
  = ([], inl (Py.SystemExit 3)).
Proof. reflexivity. Qed.

Example no_staged_changes :
  get_staged_files ""
  = (["No changes staged for commit."], inl NoStagedChanges).
Proof. reflexivity. Qed.

(** * The claims of the specification *)

(** C1. The claim: for every positive [max_length] the final message is no
    longer than the limit.  The code cuts at [max_length - 3], which is
    negative below three and then counts from the end of the message: with
    the limit 2 the heuristic message of one added file comes out twelve
    characters long, and with the limit 1 a remote answer of six characters
    comes out seven long. *)
Theorem small_max_length_is_exceeded :
  generate_commit_message offline_world (with_max_length 2 default_config)
    [("A", "a/b/foo.py")]
  = ([], inr "Add foo.p...")
  /\ PyStr.len "Add foo.p..." = 12%Z
  /\ generate_commit_message
       (online_world "diff --git a/x b/x" (inr (Some "abcdef")))
       (with_max_length 1 (ai_config "sk-test" "")) [("A", "a/b/foo.py")]
     = ([], inr "abcd...")
  /\ PyStr.len "abcd..." = 7%Z.
Proof. vm_compute. repeat split. Qed.

(** X1.  From the limit three on the guarantee holds on both paths.  The
    message before the cut is the heuristic message with the prefix, or,
    where the remote synthesizer is asked and answers, its stripped answer
    with the prefix of the plain style.  The final message is that message
    when it fits; otherwise it is its first limit-minus-three characters
    and three dots, exactly as long as the limit.  It is never empty and
    never longer than the limit. *)
Theorem final_message_within_limit (world : World) (config : Config)
  (staged_files : list (string * string)) (out : list string) (m : string) :
  (3 <= max_length config)%Z ->
  generate_commit_message world config staged_files = (out, inr m) ->
  exists pre,
    (pre = apply_prefix config true (analyze_changes staged_files)
     \/ (use_ai config = true
         /\ exists content,
              remote_response world config (bound_diff (get_full_diff world))
              = inr (Some content)
              /\ pre = apply_prefix config (negb (conventional_commits config))
                         (PyStr.strip content)))
    /\ (use_ai config = false ->
        pre = apply_prefix config true (analyze_changes staged_files))
    /\ ((PyStr.len pre <= max_length config)%Z -> m = pre)
    /\ ((max_length config < PyStr.len pre)%Z ->
        m = PyStr.take (Z.to_nat (max_length config - 3)) pre ++ "..."
        /\ PyStr.len m = max_length config
        /\ PyStr.endswith m "..." = true)
    /\ (0 < PyStr.len m <= max_length config)%Z.
Proof.
  intros HL H.
  assert (Hpos : forall pre, m = truncate config pre ->
                 (0 < PyStr.len pre)%Z \/ m <> "" -> (0 < PyStr.len m)%Z).
  { intros pre -> [Hp | Hm].
    - destruct (Z.ltb_spec (max_length config) (PyStr.len pre)) as [Hc | Hk].
      + destruct (truncate_bound config HL pre) as [_ Hb].
        destruct (Hb Hc) as [-> _]. lia.
      + now rewrite truncate_keep.
    - unfold PyStr.len. destruct (truncate config pre); [contradiction | cbn; lia]. }
  assert (Hshape : forall pre, m = truncate config pre ->
            ((PyStr.len pre <= max_length config)%Z -> m = pre)
            /\ ((max_length config < PyStr.len pre)%Z ->
                m = PyStr.take (Z.to_nat (max_length config - 3)) pre ++ "..."
                /\ PyStr.len m = max_length config
                /\ PyStr.endswith m "..." = true)
            /\ (PyStr.len m <= max_length config)%Z).
  { intros pre ->. destruct (truncate_bound config HL pre) as [Hb Hc].
    split; [apply truncate_keep |]. split; [| exact Hb].
    intros Hlt. split; [now apply truncate_cut | now apply Hc]. }
  destruct (generate_commit_message_source world config staged_files out m H)
    as [E | (Hu & Hne & content & Hr & E)].
  - exists (apply_prefix config true (analyze_changes staged_files)).
    split; [now left |]. split; [reflexivity |].
    destruct (Hshape _ E) as (H1 & H2 & H3).
    split; [exact H1 |]. split; [exact H2 |]. split; [| exact H3].
    apply (Hpos _ E). left. unfold PyStr.len.
    pose proof (apply_prefix_positive config true _
                  (analyze_changes_positive staged_files)). lia.
  - exists (apply_prefix config (negb (conventional_commits config))
              (PyStr.strip content)).
    split; [right; split; [assumption |]; now exists content |].
    split; [congruence |].
    destruct (Hshape _ E) as (H1 & H2 & H3).
    split; [exact H1 |]. split; [exact H2 |]. split; [| exact H3].
    apply (Hpos _ E). now right.
Qed.

Lemma final_message_within_limit_witness :
  "Add a_very_long_file_name_that_goes_past_the_default_limit_of_seventy..."
  = PyStr.take 69
      "Add a_very_long_file_name_that_goes_past_the_default_limit_of_seventy_two.py"
    ++ "..."
  /\ PyStr.len
       "Add a_very_long_file_name_that_goes_past_the_default_limit_of_seventy..."
     = 72%Z
  /\ PyStr.endswith
       "Add a_very_long_file_name_that_goes_past_the_default_limit_of_seventy..."
       "..." = true.
Proof.
  destruct (final_message_within_limit offline_world default_config
              [("A", "src/a_very_long_file_name_that_goes_past_the_default_limit_of_seventy_two.py")]
              []
              "Add a_very_long_file_name_that_goes_past_the_default_limit_of_seventy..."
              ltac:(cbn; lia) eq_refl)
    as (pre & _ & Hpre & _ & Hcut & _).
  specialize (Hpre eq_refl). subst pre. apply Hcut. vm_compute. reflexivity.
Defined.

(** C2. With exactly one entry the synthesizer answers from a fixed
    template keyed by the status: Add, Update, Delete and Rename file to,
    each followed by the basename of the path, the text after its last
    slash; any other status, Copied included, goes to the multi-file path.
    One added file a/b/foo.py gives Add foo.py. *)
Theorem single_file_shortcut_templates (status file_path : string) :
  let cs := [(status, file_path)] in
  let name := PosixPath.basename file_path in
  (status = "A" -> analyze_changes cs = "Add " ++ name)
  /\ (status = "M" -> analyze_changes cs = "Update " ++ name)
  /\ (status = "D" -> analyze_changes cs = "Delete " ++ name)
  /\ (status = "R" -> analyze_changes cs = "Rename file to " ++ name)
  /\ (status <> "A" -> status <> "M" -> status <> "D" -> status <> "R" ->
      analyze_changes cs
      = multi_file_message (fst (categorize_changes cs))
          (snd (categorize_changes cs)))
  /\ (forall dir base, free_of "/" base = true ->
      file_path = dir ++ "/" ++ base -> name = base)
  /\ (free_of "/" file_path = true -> name = file_path)
  /\ analyze_changes [("A", "a/b/foo.py")] = "Add foo.py".
Proof.
  intros cs name. unfold analyze_changes.
  destruct (categorize_changes cs) as [cats exts] eqn:E. subst cs. cbn.
  split; [| split; [| split; [| split; [| split; [| split; [| split]]]]]].
  - intros ->. reflexivity.
  - intros ->. reflexivity.
  - intros ->. reflexivity.
  - intros ->. reflexivity.
  - intros HA HM HD HR.
    apply String.eqb_neq in HA, HM, HD, HR. now rewrite HA, HM, HD, HR.
  - intros dir base Hb ->. now apply basename_final_component.
  - apply basename_no_slash.
  - reflexivity.
Qed.

Lemma single_file_shortcut_templates_witness :
  analyze_changes [("M", "src/lib/parser.js")] = "Update parser.js"
  /\ analyze_changes [("D", "notes.txt")] = "Delete notes.txt"
  /\ analyze_changes [("R", "docs/new name.md")] = "Rename file to new name.md"
  /\ analyze_changes [("C", "src/copy.py")] = "Update 1 files".
Proof.
  split; [| split; [| split]].
  - exact (proj1 (proj2 (single_file_shortcut_templates "M" "src/lib/parser.js"))
             eq_refl).
  - exact (proj1 (proj2 (proj2 (single_file_shortcut_templates "D" "notes.txt")))
             eq_refl).
  - exact (proj1 (proj2 (proj2 (proj2
             (single_file_shortcut_templates "R" "docs/new name.md"))))
             eq_refl).
  - refine (proj1 (proj2 (proj2 (proj2 (proj2
             (single_file_shortcut_templates "C" "src/copy.py"))))) _ _ _ _);
      discriminate.
Defined.

(** C3, as amended.  The primary action is the first of Add, Update and
    Remove whose count is positive and at least the combined count of the
    other four recognized statuses; entries with other statuses are not
    counted.  Four Modified files and one Added file across mixed
    extensions give Update 5 files. *)
Theorem primary_action_rule (cs : list (string * string)) :
  let n := fun status => tally status cs in
  primary_action (fst (categorize_changes cs))
  = (if (0 <? n "A") && (n "M" + n "D" + n "R" + n "C" <=? n "A")
     then Some "Add"
     else if (0 <? n "M") && (n "A" + n "D" + n "R" + n "C" <=? n "M")
     then Some "Update"
     else if (0 <? n "D") && (n "A" + n "M" + n "R" + n "C" <=? n "D")
     then Some "Remove"
     else None)%nat
  /\ analyze_changes
       [("M", "src/app.py"); ("M", "web/index.html"); ("M", "README.md");
        ("M", "web/style.css"); ("A", "config.yaml")]
     = "Update 5 files".
Proof.
  intros n. split; [| reflexivity].
  rewrite categorize_changes_buckets. unfold primary_action.
  destruct (count_of_buckets cs) as (-> & -> & ->).
  destruct (others_count_buckets cs) as (-> & -> & ->).
  reflexivity.
Qed.

(** C3, the claim as stated fails: with one added file and two type-change
    entries the added file is one change of three, so the rule of the
    specification elects nothing; the code leaves the type changes out of
    the count, finds one of one, and elects Add. *)
Lemma added_file_among_type_changes_elects_add :
  tally "A" [("A", "a.c"); ("T", "b.h"); ("T", "c.mk")] = 1
  /\ other_entries "A" [("A", "a.c"); ("T", "b.h"); ("T", "c.mk")] = 2
  /\ primary_action_spec [("A", "a.c"); ("T", "b.h"); ("T", "c.mk")] = None
  /\ primary_action
       (fst (categorize_changes [("A", "a.c"); ("T", "b.h"); ("T", "c.mk")]))
     = Some "Add"
  /\ analyze_changes [("A", "a.c"); ("T", "b.h"); ("T", "c.mk")]
     = "Add 1 files".
Proof. vm_compute. repeat split. Qed.

(** C4. The synthesizer is a total function of the ChangeSet: the three
    keys it reads are always present in the categories, so no lookup can
    fail, and its result is never the empty string, for every ChangeSet
    and so for every non-empty one. *)
Theorem analyze_changes_total_nonempty (cs : list (string * string)) :
  Dict.mem "A" (fst (categorize_changes cs)) = true
  /\ Dict.mem "M" (fst (categorize_changes cs)) = true
  /\ Dict.mem "D" (fst (categorize_changes cs)) = true
  /\ 0 < String.length (analyze_changes cs)
  /\ PyStr.truthy (analyze_changes cs) = true.
Proof.
  rewrite categorize_changes_buckets.
  split; [reflexivity |]. split; [reflexivity |]. split; [reflexivity |].
  assert (H : 0 < String.length (analyze_changes cs)).
  { unfold analyze_changes.
    destruct (categorize_changes cs) as [cats exts].
    destruct (single_file_message cs) as [m|] eqn:E.
    - now apply single_file_message_positive with (cs := cs).
    - apply compose_message_positive. }
  split; [assumption |].
  destruct (analyze_changes cs); [cbn in H; lia | reflexivity].
Qed.

(** C5, as amended.  A missing library, a missing key, and an exception
    raised by the remote call or by reading an answer without content each
    give the absent result and one printed notice; an empty diff gives the
    absent result and no notice of the adapter's own.  None of them raises.
    With [use_ai] set and the result absent, [generate_commit_message]
    prints the fallback notice and returns the heuristic message with the
    prefix applied and then truncated. *)
Theorem remote_failures_fall_back (world : World) (config : Config)
  (staged_files : list (string * string)) :
  (OPENAI_AVAILABLE world = false ->
   generate_ai_commit_message world config
   = (["OpenAI package not installed. Run 'pip install openai' to use AI-powered commit messages."],
      inr None))
  /\ (OPENAI_AVAILABLE world = true -> openai_api_key config = "" ->
      generate_ai_commit_message world config
      = (["OpenAI API key not configured. Set it in .git-autocommit file or OPENAI_API_KEY environment variable."],
         inr None))
  /\ (OPENAI_AVAILABLE world = true -> openai_api_key config <> "" ->
      get_full_diff world = "" ->
      generate_ai_commit_message world config = ([], inr None))
  /\ (forall message,
        OPENAI_AVAILABLE world = true -> openai_api_key config <> "" ->
        get_full_diff world <> "" ->
        remote_response world config (bound_diff (get_full_diff world))
        = inl (Py.Exception message) ->
        generate_ai_commit_message world config
        = (["Error generating AI commit message: " ++ message], inr None))
  /\ (OPENAI_AVAILABLE world = true -> openai_api_key config <> "" ->
      get_full_diff world <> "" ->
      remote_response world config (bound_diff (get_full_diff world))
      = inr None ->
      generate_ai_commit_message world config
      = (["Error generating AI commit message: 'NoneType' object has no attribute 'strip'"],
         inr None))
  /\ (forall out,
        use_ai config = true ->
        generate_ai_commit_message world config = (out, inr None) ->
        generate_commit_message world config staged_files
        = ((out ++ ["Falling back to rule-based commit message generation..."])%list,
           inr (truncate config
                  (apply_prefix config true (analyze_changes staged_files))))).
Proof.
  split; [| split; [| split; [| split; [| split]]]];
    [unfold generate_ai_commit_message .. |].
  - intros ->. reflexivity.
  - intros -> ->. reflexivity.
  - intros -> Hk ->. apply truthy_true in Hk. now rewrite Hk.
  - intros message -> Hk Hd Hr. apply truthy_true in Hk, Hd.
    rewrite Hk, Hd. cbn [negb]. unfold remote_call. rewrite Hr. reflexivity.
  - intros -> Hk Hd Hr. apply truthy_true in Hk, Hd.
    rewrite Hk, Hd. cbn [negb]. unfold remote_call. rewrite Hr. reflexivity.
  - intros out Hu H. unfold generate_commit_message. rewrite Hu.
    rewrite H. reflexivity.
Qed.

Lemma remote_failures_fall_back_witness :
  generate_commit_message
    (online_world "diff --git a/x b/x" (inl (Py.Exception "Connection error.")))
    (ai_config "sk-test" "feat:") [("A", "a/b/foo.py")]
  = (["Error generating AI commit message: Connection error.";
      "Falling back to rule-based commit message generation..."],
     inr "feat: Add foo.py").
Proof.
  refine (proj2 (proj2 (proj2 (proj2 (proj2
    (remote_failures_fall_back
       (online_world "diff --git a/x b/x" (inl (Py.Exception "Connection error.")))
       (ai_config "sk-test" "feat:") [("A", "a/b/foo.py")])))))
    ["Error generating AI commit message: Connection error."] eq_refl _).
  refine (proj1 (proj2 (proj2 (proj2
    (remote_failures_fall_back
       (online_world "diff --git a/x b/x" (inl (Py.Exception "Connection error.")))
       (ai_config "sk-test" "feat:") [("A", "a/b/foo.py")]))))
    "Connection error." eq_refl _ _ eq_refl); discriminate.
Defined.

(** C5, the claim as stated fails: on an empty diff the adapter returns the
    absent result and prints nothing. *)
Lemma empty_diff_prints_no_notice :
  generate_ai_commit_message (online_world "" (inr (Some "fix: typo")))
    (ai_config "sk-test" "")
  = ([], inr None)
  /\ Py.printed
       (generate_ai_commit_message (online_world "" (inr (Some "fix: typo")))
          (ai_config "sk-test" ""))
     = [].
Proof. vm_compute. repeat split. Qed.

(** C6.  On a non-empty input, a non-empty line that does not match stops
    collection with the error and nothing else; a line matches exactly when
    it is one word character, a non-empty run of whitespace and the rest,
    and the pair is then the letter and the rest as it stands; when every
    line matches, the pairs come out in order. *)
Theorem get_staged_files_contract (staged_diff : string) :
  staged_diff <> "" ->
  let lines := filter PyStr.truthy (PyStr.split "010" staged_diff) in
  (forall line, In line lines -> Re.match_status_line line = None ->
     get_staged_files staged_diff = ([], inl MalformedStatusLine))
  /\ (forall line status path, In line lines ->
        Re.match_status_line line = Some (status, path) ->
        exists c ws,
          line = String c (ws ++ path) /\ status = String c ""
          /\ PyStr.is_word c = true /\ ws <> "" /\ all_space ws = true
          /\ starts_with_space path = false)
  /\ (forall c ws path,
        PyStr.is_word c = true -> ws <> "" -> all_space ws = true ->
        starts_with_space path = false -> free_of "010" path = true ->
        Re.match_status_line (String c (ws ++ path)) = Some (String c "", path))
  /\ (forall pairs, map Re.match_status_line lines = map Some pairs ->
        get_staged_files staged_diff = ([], inr pairs)).
Proof.
  intros Hne lines. apply truthy_true in Hne.
  unfold get_staged_files. rewrite Hne. cbn [negb].
  split; [| split; [| split]].
  - intros line Hin Hbad. apply filter_In in Hin. destruct Hin as [Hin Ht].
    now apply collect_lines_malformed with (line := line).
  - intros line status path Hin. apply filter_In in Hin.
    destruct Hin as [Hin _]. apply match_status_line_sound.
    now apply split_free with (s := staged_diff).
  - apply match_status_line_complete.
  - intros pairs H.
    exact (collect_lines_wellformed (PyStr.split "010" staged_diff) [] pairs H).
Qed.

Lemma get_staged_files_contract_witness :
  get_staged_files ("M" ++ tab ++ "a.py" ++ nl ++ "R100" ++ tab ++ "old" ++ tab ++ "new")
  = ([], inl MalformedStatusLine)
  /\ get_staged_files ("M" ++ tab ++ "my notes.md" ++ nl ++ "A  src/x.py" ++ nl)
     = ([], inr [("M", "my notes.md"); ("A", "src/x.py")]).
Proof.
  split.
  - refine (proj1 (get_staged_files_contract
                     ("M" ++ tab ++ "a.py" ++ nl ++ "R100" ++ tab ++ "old" ++ tab ++ "new") _)
              ("R100" ++ tab ++ "old" ++ tab ++ "new") _ _).
    + discriminate.
    + cbn. right. left. reflexivity.
    + reflexivity.
  - refine (proj2 (proj2 (proj2 (get_staged_files_contract
              ("M" ++ tab ++ "my notes.md" ++ nl ++ "A  src/x.py" ++ nl) _))) _ _).
    + discriminate.
    + reflexivity.
Defined.

(** C7, as amended.  An entry whose status is outside the five-letter set
    changes nothing in the categories: it is neither counted nor listed,
    and the total used downstream counts the recognized entries only. *)
Theorem unrecognized_entry_is_ignored (pre post : list (string * string))
  (status file_path : string) :
  recognized status = false ->
  fst (categorize_changes (pre ++ (status, file_path) :: post))
  = fst (categorize_changes (pre ++ post))
  /\ file_count (fst (categorize_changes (pre ++ (status, file_path) :: post)))
     = List.length (filter (fun e => recognized (fst e)) (pre ++ post)).
Proof.
  intros H. apply recognized_false in H.
  destruct H as (HA & HM & HD & HR & HC).
  assert (E : buckets (pre ++ (status, file_path) :: post) = buckets (pre ++ post)).
  { unfold buckets, bucket, tally.
    now rewrite !entries_with_skip by assumption. }
  rewrite !categorize_changes_buckets, E. split; [reflexivity |].
  apply file_count_recognized.
Qed.

Lemma unrecognized_entry_is_ignored_witness :
  fst (categorize_changes [("M", "a.py"); ("T", "b.py"); ("A", "c.py")])
  = fst (categorize_changes [("M", "a.py"); ("A", "c.py")])
  /\ file_count
       (fst (categorize_changes [("M", "a.py"); ("T", "b.py"); ("A", "c.py")]))
     = 2.
Proof.
  exact (unrecognized_entry_is_ignored [("M", "a.py")] [("A", "c.py")]
           "T" "b.py" eq_refl).
Defined.

(** C7, the claim as stated fails: a type-change entry is not tallied.  The
    ChangeSet has one entry, the categories have no key for its status, and
    every count, and so the total, stays zero. *)
Lemma type_change_entry_is_not_tallied :
  List.length [("T", "a.py")] = 1
  /\ Dict.get "T" (fst (categorize_changes [("T", "a.py")])) = None
  /\ map (fun kv => count (snd kv)) (fst (categorize_changes [("T", "a.py")]))
     = [0; 0; 0; 0; 0]
  /\ file_count (fst (categorize_changes [("T", "a.py")])) = 0.
Proof. vm_compute. repeat split. Qed.

(** C8, as amended.  The key recorded for a path is the text after the last
    dot of its file name as it stands, case included, without the dot.  A
    path gets no key when its file name has no dot, when only dots come
    before the last dot, as in a hidden file, or when nothing follows the
    last dot; every other path gets its key recorded.  The table is
    matched on the exact text, so only the lowercase spellings have a
    scope. *)
Theorem extension_key_is_raw_suffix (cs : list (string * string))
  (k : string) :
  (In k (Dict.keys (snd (categorize_changes cs))) <->
   k <> "" /\ exists e, In e cs /\ extension_of (snd e) = k)
  /\ (forall path, extension_of path <> "" ->
        exists stem, path = stem ++ "." ++ extension_of path
                     /\ free_of "." (extension_of path) = true)
  /\ (forall path, free_of "." path = true -> extension_of path = "")
  /\ (forall sc, scope_of_extension k = Some sc ->
        In k ["js"; "ts"; "py"; "css"; "scss"; "html"; "md"; "txt";
              "json"; "yaml"; "yml"; "toml"])
  /\ scope_of_extension "PY" = None
  /\ (forall dir name ext,
        (dir = "" \/ exists d, dir = d ++ "/") ->
        free_of "/" name = true ->
        free_of "." ext = true -> free_of "/" ext = true ->
        extension_of (dir ++ name ++ "." ++ ext)
        = (if all_dots name then "" else ext)
        /\ (all_dots name = false -> ext <> "" ->
            forall status,
              In (status, dir ++ name ++ "." ++ ext) cs ->
              In ext (Dict.keys (snd (categorize_changes cs)))))
  /\ (forall dir name,
        (dir = "" \/ exists d, dir = d ++ "/") ->
        free_of "/" name = true -> free_of "." name = true ->
        extension_of (dir ++ name) = "").
Proof.
  split; [apply categorize_changes_extension_keys |].
  split; [apply extension_of_suffix |].
  split; [apply extension_of_no_dot |].
  split; [| split; [reflexivity | split]].
  - intros sc H. apply scope_of_extension_table in H. cbn in *.
    intuition (subst; auto 20).
  - intros dir name ext Hd Hn He Hs.
    pose proof (extension_of_named dir name ext Hd Hn He Hs) as E.
    split; [exact E |]. intros Ha Hne status Hin.
    apply (proj2 (categorize_changes_extension_keys cs)).
    split; [assumption |]. exists (status, dir ++ name ++ "." ++ ext).
    split; [assumption |]. cbn [snd]. now rewrite E, Ha.
  - apply extension_of_dotless_name.
Qed.

Lemma extension_key_is_raw_suffix_witness :
  In "PY" (Dict.keys (snd (categorize_changes [("A", "src/Main.PY")])))
  /\ (exists stem, "src/Main.PY" = stem ++ "." ++ "PY"
                   /\ free_of "." "PY" = true)
  /\ extension_of "dist/pkg-1.0.tar.Gz" = "Gz"
  /\ In "Gz"
       (Dict.keys
          (snd (categorize_changes
                  [("M", "a.py"); ("T", "dist/pkg-1.0.tar.Gz")])))
  /\ extension_of "home/.gitignore" = ""
  /\ extension_of "v1.2/Makefile" = "".
Proof.
  split; [| split; [| split; [| split; [| split]]]].
  - apply (proj2 (proj1 (extension_key_is_raw_suffix
                           [("A", "src/Main.PY")] "PY"))).
    split; [discriminate |].
    exists ("A", "src/Main.PY"). split; [now left | reflexivity].
  - apply (proj1 (proj2 (extension_key_is_raw_suffix
                           [("A", "src/Main.PY")] "PY")) "src/Main.PY").
    discriminate.
  - refine (proj1 (proj1 (proj2 (proj2 (proj2 (proj2 (proj2
      (extension_key_is_raw_suffix [] ""))))))
      "dist/" "pkg-1.0.tar" "Gz" _ eq_refl eq_refl eq_refl)).
    right. now exists "dist".
  - refine (proj2 (proj1 (proj2 (proj2 (proj2 (proj2 (proj2
      (extension_key_is_raw_suffix
         [("M", "a.py"); ("T", "dist/pkg-1.0.tar.Gz")] ""))))))
      "dist/" "pkg-1.0.tar" "Gz" _ eq_refl eq_refl eq_refl)
      eq_refl _ "T" _).
    + right. now exists "dist".
    + discriminate.
    + right. now left.
  - refine (proj1 (proj1 (proj2 (proj2 (proj2 (proj2 (proj2
      (extension_key_is_raw_suffix [] ""))))))
      "home/" "" "gitignore" _ eq_refl eq_refl eq_refl)).
    right. now exists "home".
  - refine (proj2 (proj2 (proj2 (proj2 (proj2 (proj2
      (extension_key_is_raw_suffix [] ""))))))
      "v1.2/" "Makefile" _ eq_refl eq_refl).
    right. now exists "v1.2".
Defined.

(** C8, the claim as stated fails: the extension is not lowercased and the
    table is case-sensitive.  Files whose only extension is .PY are keyed
    PY and get no scope, where the same files in .py get Python. *)
Lemma uppercase_extension_gets_no_scope :
  extension_of "a.PY" = "PY"
  /\ Dict.keys (snd (categorize_changes [("A", "a.PY"); ("A", "b.PY")]))
     = ["PY"]
  /\ scope (snd (categorize_changes [("A", "a.PY"); ("A", "b.PY")])) = None
  /\ scope (snd (categorize_changes [("A", "a.py"); ("A", "b.py")]))
     = Some "Python"
  /\ analyze_changes [("A", "a.PY"); ("A", "b.PY")] = "Add 2 files"
  /\ analyze_changes [("A", "a.py"); ("A", "b.py")] = "Add Python files".
Proof. vm_compute. repeat split. Qed.

(** C9, as amended.  On the multi-file path the scope is present exactly
    when the staged paths that have an extension, whatever the status of
    their entries, all have the same one and the table lists it; it is then
    the table's entry, js and ts giving JavaScript, py Python, css and scss
    styles, html HTML, md and txt documentation, json, yaml, yml and toml
    configuration.  Three added .py files give Add Python files. *)
Theorem scope_rule (cs : list (string * string)) (sc : string) :
  (scope (snd (categorize_changes cs)) = Some sc <->
   exists ext,
     ext <> ""
     /\ (exists e, In e cs /\ extension_of (snd e) = ext)
     /\ (forall e, In e cs ->
                   extension_of (snd e) = "" \/ extension_of (snd e) = ext)
     /\ ((In ext ["js"; "ts"] /\ sc = "JavaScript")
         \/ (In ext ["py"] /\ sc = "Python")
         \/ (In ext ["css"; "scss"] /\ sc = "styles")
         \/ (In ext ["html"] /\ sc = "HTML")
         \/ (In ext ["md"; "txt"] /\ sc = "documentation")
         \/ (In ext ["json"; "yaml"; "yml"; "toml"] /\ sc = "configuration")))
  /\ analyze_changes [("A", "a.py"); ("A", "pkg/b.py"); ("A", "pkg/c.py")]
     = "Add Python files".
Proof.
  split; [| reflexivity].
  rewrite scope_characterized.
  split; intros [ext H]; exists ext;
    [rewrite <- scope_of_extension_table | rewrite scope_of_extension_table];
    exact H.
Qed.

Lemma scope_rule_witness :
  scope (snd (categorize_changes
                [("M", "README.md"); ("T", "Makefile"); ("A", "docs/guide.md")]))
  = Some "documentation".
Proof.
  apply (proj2 (proj1 (scope_rule
    [("M", "README.md"); ("T", "Makefile"); ("A", "docs/guide.md")]
    "documentation"))).
  exists "md". split; [discriminate |]. split.
  - exists ("M", "README.md"). split; [now left | reflexivity].
  - split.
    + intros e [<- | [<- | [<- | []]]]; vm_compute; auto.
    + right. right. right. right. left. split; [| reflexivity].
      cbn. auto.
Defined.

(** C9, the claim as stated fails: the extension of an entry with an
    unrecognized status counts too.  The classified files are a.py alone,
    so the rule of the specification gives Python, yet the code sees two
    extensions and gives no scope. *)
Lemma unrecognized_entry_extension_blocks_scope :
  classified_files (fst (categorize_changes [("A", "a.py"); ("T", "b.js")]))
  = ["a.py"]
  /\ scope_spec (fst (categorize_changes [("A", "a.py"); ("T", "b.js")]))
     = Some "Python"
  /\ Dict.keys (snd (categorize_changes [("A", "a.py"); ("T", "b.js")]))
     = ["py"; "js"]
  /\ scope (snd (categorize_changes [("A", "a.py"); ("T", "b.js")])) = None
  /\ analyze_changes [("A", "a.py"); ("T", "b.js")] = "Add 1 files".
Proof. vm_compute. repeat split. Qed.

(** C9: a single extension that the table does not list gives no scope. *)
Lemma unlisted_extension_gives_no_scope :
  Dict.keys (snd (categorize_changes [("A", "a.rs"); ("A", "b.rs")])) = ["rs"]
  /\ scope (snd (categorize_changes [("A", "a.rs"); ("A", "b.rs")])) = None
  /\ analyze_changes [("A", "a.rs"); ("A", "b.rs")] = "Add 2 files".
Proof. vm_compute. repeat split. Qed.

(** C10. A ChangeSet in which no entry carries one of the five recognized
    letters leaves every category at zero, misses the single-file
    shortcut, and is described as Update 0 files. *)
Theorem unrecognized_only_gives_update_zero (cs : list (string * string)) :
  forallb (fun e => negb (recognized (fst e))) cs = true ->
  fst (categorize_changes cs) = initial_categories
  /\ single_file_message cs = None
  /\ file_count (fst (categorize_changes cs)) = 0
  /\ analyze_changes cs = "Update 0 files".
Proof.
  intros H.
  assert (Hc : fst (categorize_changes cs) = initial_categories)
    by (rewrite categorize_changes_buckets; now apply buckets_unrecognized).
  assert (Hs : single_file_message cs = None).
  { destruct cs as [|[s p] [|]]; try reflexivity.
    cbn [forallb fst] in H. rewrite andb_true_r in H.
    apply negb_true_iff in H.
    apply recognized_false in H. destruct H as (HA & HM & HD & HR & _).
    cbn. now rewrite HA, HM, HD, HR. }
  repeat split; try assumption.
  - now rewrite Hc.
  - unfold analyze_changes. rewrite Hs.
    destruct (categorize_changes cs) as [cats exts]. cbn in Hc. subst cats.
    reflexivity.
Qed.

Lemma unrecognized_only_gives_update_zero_witness :
  analyze_changes [("T", "bin/tool.py")] = "Update 0 files"
  /\ analyze_changes [("T", "a.py"); ("U", "b.py")] = "Update 0 files".
Proof.
  split.
  - exact (proj2 (proj2 (proj2
      (unrecognized_only_gives_update_zero [("T", "bin/tool.py")] eq_refl)))).
  - exact (proj2 (proj2 (proj2
      (unrecognized_only_gives_update_zero [("T", "a.py"); ("U", "b.py")]
         eq_refl)))).
Defined.

(** * Further properties of the code *)

(** ** Stripping *)

Section StripFacts.

Lemma rstrip_empty_iff (s : string) :
  PyStr.rstrip_by PyStr.is_space s = "" <-> all_space s = true.
Proof.
  induction s as [|a s IH]; cbn; [tauto |].
  destruct (PyStr.rstrip_by PyStr.is_space s =? "") eqn:E.
  - apply String.eqb_eq in E. destruct (PyStr.is_space a); cbn.
    + split; [intros _; now apply IH | reflexivity].
    + split; discriminate.
  - apply String.eqb_neq in E. cbn. split; [discriminate |].
    intros H. apply andb_true_iff in H. destruct H as [_ H].
    apply IH in H. contradiction.
Qed.

Lemma rstrip_no_trailing_space (s : string) :
  ends_with_space (PyStr.rstrip_by PyStr.is_space s) = false.
Proof.
  induction s as [|a s IH]; [reflexivity |].
  cbn [PyStr.rstrip_by].
  destruct (PyStr.rstrip_by PyStr.is_space s) as [|b r] eqn:E; cbn.
  - destruct (PyStr.is_space a) eqn:Ea; cbn; [reflexivity | exact Ea].
  - exact IH.
Qed.

Lemma rstrip_keeps_head (s : string) :
  starts_with_space s = false ->
  starts_with_space (PyStr.rstrip_by PyStr.is_space s) = false.
Proof.
  destruct s as [|a s]; [reflexivity |]. cbn. intros Ha. rewrite Ha.
  now rewrite andb_false_r.
Qed.

Lemma rstrip_cons (p : ascii -> bool) (a : ascii) (r : string) :
  PyStr.rstrip_by p (String a r)
  = if (PyStr.rstrip_by p r =? "") && p a then ""
    else String a (PyStr.rstrip_by p r).
Proof. reflexivity. Qed.

Lemma rstrip_fixed (s : string) :
  ends_with_space s = false -> PyStr.rstrip_by PyStr.is_space s = s.
Proof.
  induction s as [|a s IH]; [reflexivity |].
  destruct s as [|b r].
  - cbn. now intros ->.
  - intros H. rewrite rstrip_cons, IH by exact H. reflexivity.
Qed.

(** [strip] leaves whitespace at neither end, changes nothing in a string
    that has none there, and empties a string of whitespace only. *)
Lemma strip_trimmed (s : string) : trimmed (PyStr.strip s) = true.
Proof.
  unfold trimmed, PyStr.strip.
  destruct (lstrip_space_split s) as [ws [_ [_ H]]].
  rewrite rstrip_keeps_head by assumption.
  now rewrite rstrip_no_trailing_space.
Qed.

Lemma strip_fixed (s : string) : trimmed s = true -> PyStr.strip s = s.
Proof.
  unfold trimmed, PyStr.strip. intros H. apply andb_true_iff in H.
  destruct H as [H1 H2]. apply negb_true_iff in H1, H2.
  rewrite lstrip_not_space by assumption. now apply rstrip_fixed.
Qed.

Lemma strip_all_space (s : string) : all_space s = true -> PyStr.strip s = "".
Proof.
  intros H. unfold PyStr.strip.
  replace s with (s ++ "") by (clear; induction s; cbn; congruence).
  now rewrite lstrip_all_space.
Qed.

End StripFacts.

(** ** The collector *)

Section CollectorMore.

(** What the loop returned, read backwards. *)
Lemma collect_lines_returned (lines : list string)
  (acc r : list (string * string)) (out : list string) :
  collect_lines lines acc = (out, inr r) ->
  out = [] /\
  exists pairs,
    r = (acc ++ pairs)%list
    /\ map Re.match_status_line (filter PyStr.truthy lines) = map Some pairs.
Proof.
  revert acc. induction lines as [|l lines IH]; intros acc.
  - cbn. intros H. injection H as <- <-. split; [reflexivity |].
    exists []. now rewrite app_nil_r.
  - cbn [collect_lines filter]. destruct (PyStr.truthy l); cbn [negb].
    + destruct (Re.match_status_line l) as [[status path]|] eqn:E.
      * cbn [Py.attribute_of]. rewrite bind_ret. intros H.
        apply IH in H. destruct H as [-> [pairs [-> Hm]]].
        split; [reflexivity |]. exists ((status, path) :: pairs).
        split; [now rewrite <- app_assoc |]. cbn. now rewrite E, Hm.
      * cbn. discriminate.
    + apply IH.
Qed.

Lemma free_of_tail (c : ascii) (a b : string) :
  free_of c (a ++ b) = true -> free_of c b = true.
Proof. rewrite free_of_app. intros H. apply andb_true_iff in H. tauto. Qed.

Lemma matched_pairs_shape (lines : list string)
  (pairs : list (string * string)) :
  (forall l, In l lines -> free_of "010" l = true) ->
  map Re.match_status_line lines = map Some pairs ->
  Forall (fun sp =>
            exists c, fst sp = String c "" /\ PyStr.is_word c = true
                      /\ starts_with_space (snd sp) = false
                      /\ free_of "010" (snd sp) = true) pairs.
Proof.
  revert pairs. induction lines as [|l lines IH]; intros pairs Hfree H.
  - destruct pairs; [constructor | discriminate].
  - destruct pairs as [|[status path] pairs]; [discriminate |].
    cbn in H. injection H as Hl H. constructor.
    + assert (Hf : free_of "010" l = true) by (apply Hfree; now left).
      destruct (match_status_line_sound l status path Hf Hl)
        as (c & ws & -> & -> & Hc & _ & _ & Hp).
      exists c. cbn [fst snd]. repeat split; try assumption.
      cbn [free_of] in Hf. apply andb_true_iff in Hf.
      destruct Hf as [_ Hf]. now apply free_of_tail in Hf.
    + apply IH; [| assumption]. intros l' Hl'. apply Hfree. now right.
Qed.

Lemma word_is_not_space (c : ascii) :
  PyStr.is_word c = true -> PyStr.is_space c = false.
Proof.
  destruct c as [[] [] [] [] [] [] [] []]; vm_compute; congruence.
Qed.

End CollectorMore.

(** X2.  When [get_staged_files] returns, it has printed nothing and returns one
    pair for each non-empty line of the input, in order; each status is a
    single word character and each path is free of newlines and does not
    start with whitespace. *)
Theorem get_staged_files_returns (staged_diff : string) (out : list string)
  (pairs : list (string * string)) :
  get_staged_files staged_diff = (out, inr pairs) ->
  let lines := filter PyStr.truthy (PyStr.split "010" staged_diff) in
  out = []
  /\ map Some pairs = map Re.match_status_line lines
  /\ List.length pairs = List.length lines
  /\ Forall (fun sp =>
               exists c, fst sp = String c "" /\ PyStr.is_word c = true
                         /\ starts_with_space (snd sp) = false
                         /\ free_of "010" (snd sp) = true) pairs.
Proof.
  intros H lines. unfold get_staged_files in H.
  destruct (PyStr.truthy staged_diff); cbn [negb] in H; [| discriminate].
  apply collect_lines_returned in H.
  destruct H as [-> [pairs' [-> Hm]]]. cbn [app].
  split; [reflexivity |]. split; [now symmetry |]. split.
  - rewrite <- (length_map Some pairs'), <- Hm. apply length_map.
  - apply matched_pairs_shape with (lines := lines); [| assumption].
    intros l Hl. apply filter_In in Hl. destruct Hl as [Hl _].
    now apply split_free with (s := staged_diff).
Qed.

Lemma get_staged_files_returns_witness :
  [] = @nil string
  /\ map Some [("M", "my notes.md"); ("A", "src/x.py")]
     = map Re.match_status_line
         (filter PyStr.truthy
            (PyStr.split "010"
               ("M" ++ tab ++ "my notes.md" ++ nl ++ nl ++ "A  src/x.py" ++ nl)))
  /\ 2 = List.length
           (filter PyStr.truthy
              (PyStr.split "010"
                 ("M" ++ tab ++ "my notes.md" ++ nl ++ nl ++ "A  src/x.py" ++ nl)))
  /\ Forall (fun sp =>
               exists c, fst sp = String c "" /\ PyStr.is_word c = true
                         /\ starts_with_space (snd sp) = false
                         /\ free_of "010" (snd sp) = true)
       [("M", "my notes.md"); ("A", "src/x.py")].
Proof.
  exact (get_staged_files_returns
           ("M" ++ tab ++ "my notes.md" ++ nl ++ nl ++ "A  src/x.py" ++ nl)
           [] [("M", "my notes.md"); ("A", "src/x.py")] eq_refl).
Defined.

(** X3.  A line whose status letter is followed at once by another word
    character, as git prints renames and copies with their similarity score
    (R100, C75), does not match, and an input that holds such a line stops
    collection with the error, whatever else it holds. *)
Theorem scored_status_line_aborts (staged_diff : string) (c d : ascii)
  (rest : string) :
  PyStr.is_word d = true ->
  In (String c (String d rest)) (PyStr.split "010" staged_diff) ->
  Re.match_status_line (String c (String d rest)) = None
  /\ get_staged_files staged_diff = ([], inl MalformedStatusLine).
Proof.
  intros Hd Hin. apply word_is_not_space in Hd.
  assert (Hm : Re.match_status_line (String c (String d rest)) = None).
  { cbn. rewrite Hd. now destruct (PyStr.is_word c). }
  split; [assumption |]. unfold get_staged_files.
  destruct staged_diff as [|a s]; [destruct Hin as [H | []]; discriminate |].
  cbn [PyStr.truthy String.eqb negb].
  now apply collect_lines_malformed with (line := String c (String d rest)).
Qed.

Lemma scored_status_line_aborts_witness :
  Re.match_status_line ("R100" ++ tab ++ "old.py" ++ tab ++ "new.py") = None
  /\ get_staged_files
       ("M" ++ tab ++ "a.py" ++ nl ++ "R100" ++ tab ++ "old.py" ++ tab ++ "new.py")
     = ([], inl MalformedStatusLine).
Proof.
  refine (scored_status_line_aborts
            ("M" ++ tab ++ "a.py" ++ nl ++ "R100" ++ tab ++ "old.py" ++ tab ++ "new.py")
            "R" "1" ("00" ++ tab ++ "old.py" ++ tab ++ "new.py") eq_refl _).
  cbn. right. left. reflexivity.
Defined.

(** ** The classifier *)

Section ClassifierMore.

Lemma dict_get_set_same (V : Type) (k : string) (v : V) (d : Dict.t V) :
  Dict.get k (Dict.set k v d) = Some v.
Proof.
  induction d as [|[k' v'] d IH]; cbn.
  - now rewrite String.eqb_refl.
  - destruct (k =? k') eqn:E; cbn; rewrite E; [reflexivity | exact IH].
Qed.

Lemma dict_get_set_other (V : Type) (k k' : string) (v : V) (d : Dict.t V) :
  k' <> k -> Dict.get k' (Dict.set k v d) = Dict.get k' d.
Proof.
  intros Hne. induction d as [|[k0 v0] d IH]; cbn.
  - apply String.eqb_neq in Hne. now rewrite Hne.
  - destruct (k =? k0) eqn:E; cbn.
    + apply String.eqb_eq in E. subst k0.
      apply String.eqb_neq in Hne. now rewrite Hne.
    + now rewrite IH.
Qed.

Lemma extension_tally_snoc (k : string) (pre : list (string * string))
  (e : string * string) :
  extension_tally k (pre ++ [e])
  = extension_tally k pre + (if extension_of (snd e) =? k then 1 else 0).
Proof.
  unfold extension_tally. rewrite filter_app, length_app. cbn.
  now destruct (extension_of (snd e) =? k).
Qed.

(** One turn of the loop keeps every count in step with the entries read. *)
Lemma record_extension_counts (pre : list (string * string))
  (exts : Dict.t nat) (e : string * string) :
  (forall k, Dict.get_default k 0 exts
             = if k =? "" then 0 else extension_tally k pre) ->
  forall k, Dict.get_default k 0 (record_extension exts e)
            = if k =? "" then 0 else extension_tally k (pre ++ [e]).
Proof.
  intros Inv k. rewrite extension_tally_snoc. unfold record_extension.
  destruct (PyStr.truthy (extension_of (snd e))) eqn:T.
  - apply truthy_true in T.
    destruct (string_dec k (extension_of (snd e))) as [-> | Hk].
    + unfold Dict.get_default at 1. rewrite dict_get_set_same.
      rewrite Inv. rewrite String.eqb_refl.
      apply String.eqb_neq in T. now rewrite T.
    + unfold Dict.get_default at 1.
      rewrite dict_get_set_other by assumption.
      fold (Dict.get_default k 0 exts). rewrite Inv.
      assert (E : (extension_of (snd e) =? k) = false)
        by (apply String.eqb_neq; congruence).
      rewrite E. destruct (k =? ""); lia.
  - apply truthy_false in T. rewrite Inv, T.
    destruct (k =? "") eqn:E; [reflexivity |].
    rewrite String.eqb_sym, E. lia.
Qed.

Lemma categorize_fold_counts (cs pre : list (string * string))
  (cats : Dict.t category) (exts : Dict.t nat) :
  (forall k, Dict.get_default k 0 exts
             = if k =? "" then 0 else extension_tally k pre) ->
  forall k,
    Dict.get_default k 0 (snd (fold_left categorize_entry cs (cats, exts)))
    = if k =? "" then 0 else extension_tally k (pre ++ cs).
Proof.
  revert pre cats exts. induction cs as [|e cs IH]; intros pre cats exts Inv k.
  - rewrite app_nil_r. apply Inv.
  - cbn [fold_left].
    destruct (categorize_entry (cats, exts) e) as [cats' exts'] eqn:E.
    pose proof (categorize_entry_snd cats exts e) as Hs.
    rewrite E in Hs. cbn in Hs. subst exts'.
    replace (pre ++ e :: cs)%list with ((pre ++ [e]) ++ cs)%list
      by now rewrite <- app_assoc.
    apply IH. now apply record_extension_counts.
Qed.

Lemma tally_perm (k : string) (cs cs' : list (string * string)) :
  Permutation cs cs' -> tally k cs = tally k cs'.
Proof.
  induction 1 as [| [s p] l l' _ IH | [s p] [s' p'] l | l l' l'' _ IH1 _ IH2].
  - reflexivity.
  - rewrite !tally_cons. now rewrite IH.
  - rewrite !tally_cons. lia.
  - congruence.
Qed.

Lemma option_ext (A : Type) (o o' : option A) :
  (forall a, o = Some a <-> o' = Some a) -> o = o'.
Proof.
  intros H. destruct o as [a|].
  - symmetry. now apply H.
  - destruct o' as [a'|]; [| reflexivity]. now apply H.
Qed.

Lemma scope_perm (cs cs' : list (string * string)) :
  Permutation cs cs' ->
  scope (snd (categorize_changes cs)) = scope (snd (categorize_changes cs')).
Proof.
  intros HP. apply option_ext. intros sc. rewrite !scope_characterized.
  split; intros (ext & Hne & (e & He & Ee) & Hall & Hsc); exists ext;
    (split; [assumption |]); (split; [| split; [| assumption]]).
  - exists e. split; [| assumption]. now apply (Permutation_in _ HP).
  - intros e' He'. apply Hall. apply Permutation_sym in HP.
    now apply (Permutation_in _ HP).
  - exists e. split; [| assumption]. apply Permutation_sym in HP.
    now apply (Permutation_in _ HP).
  - intros e' He'. apply Hall. now apply (Permutation_in _ HP).
Qed.

Lemma primary_action_buckets_perm (cs cs' : list (string * string)) :
  Permutation cs cs' ->
  primary_action (buckets cs) = primary_action (buckets cs').
Proof.
  intros HP. unfold primary_action.
  destruct (count_of_buckets cs) as (-> & -> & ->).
  destruct (count_of_buckets cs') as (-> & -> & ->).
  destruct (others_count_buckets cs) as (-> & -> & ->).
  destruct (others_count_buckets cs') as (-> & -> & ->).
  now rewrite !(tally_perm _ cs cs' HP).
Qed.

Lemma single_file_message_perm (cs cs' : list (string * string)) :
  Permutation cs cs' -> single_file_message cs = single_file_message cs'.
Proof.
  intros HP. pose proof (Permutation_length HP) as HL.
  destruct cs as [|e [|e2 cs]].
  - apply Permutation_nil in HP. now subst.
  - apply Permutation_length_1_inv in HP. now subst.
  - destruct cs' as [|e' [|e2' cs']]; try discriminate.
    now destruct e, e'.
Qed.

End ClassifierMore.

(** X4.  The classifier keeps exactly the five keys in their order, and for each
    the count is the length of the file list, which holds the paths of the
    entries with that status in the order they were staged. *)
Theorem categories_count_their_files (cs : list (string * string)) :
  Dict.keys (fst (categorize_changes cs)) = ["A"; "M"; "D"; "R"; "C"]
  /\ forall k c,
       Dict.get k (fst (categorize_changes cs)) = Some c ->
       count c = List.length (files c)
       /\ files c = map snd (filter (fun e => fst e =? k) cs).
Proof.
  rewrite categorize_changes_buckets. split; [reflexivity |].
  intros k c. unfold buckets. cbn [Dict.get].
  repeat match goal with
         | |- context [k =? ?x] =>
             let E := fresh "E" in
             destruct (k =? x) eqn:E;
             [apply String.eqb_eq in E; subst k; intros H; injection H as <-;
              cbn [count files bucket]; unfold tally, entries_with;
              now rewrite length_map |]
         end.
  discriminate.
Qed.

Lemma categories_count_their_files_witness :
  count {| count := 2; files := ["a.py"; "c/d.py"] |} = 2
  /\ files {| count := 2; files := ["a.py"; "c/d.py"] |}
     = map snd (filter (fun e => fst e =? "M")
                  [("M", "a.py"); ("A", "b.py"); ("M", "c/d.py")]).
Proof.
  exact (proj2 (categories_count_their_files
                  [("M", "a.py"); ("A", "b.py"); ("M", "c/d.py")])
           "M" {| count := 2; files := ["a.py"; "c/d.py"] |} eq_refl).
Defined.

(** X5.  The extension counts hold, for each non-empty extension key, the number
    of staged entries with that key, whatever their status; a key that no
    entry has, and the empty key, read as zero. *)
Theorem extension_counts_tally (cs : list (string * string)) (k : string) :
  Dict.get_default k 0 (snd (categorize_changes cs))
  = if k =? "" then 0 else extension_tally k cs.
Proof.
  unfold categorize_changes.
  apply (categorize_fold_counts cs [] initial_categories []).
  intros k'. cbn. now destruct (k' =? "").
Qed.

(** X6.  The heuristic message does not depend on the order of the staged
    entries. *)
Theorem analyze_changes_order_independent (cs cs' : list (string * string)) :
  Permutation cs cs' -> analyze_changes cs = analyze_changes cs'.
Proof.
  intros HP. unfold analyze_changes.
  rewrite (surjective_pairing (categorize_changes cs)).
  rewrite (surjective_pairing (categorize_changes cs')).
  rewrite (single_file_message_perm cs cs' HP).
  destruct (single_file_message cs'); [reflexivity |].
  unfold multi_file_message, compose_message.
  rewrite (scope_perm cs cs' HP), !categorize_changes_buckets.
  rewrite (primary_action_buckets_perm cs cs' HP).
  rewrite !file_count_buckets, !(tally_perm _ cs cs' HP). reflexivity.
Qed.

Lemma analyze_changes_order_independent_witness :
  analyze_changes [("M", "a.py"); ("A", "b.py"); ("M", "c.py")]
  = analyze_changes [("A", "b.py"); ("M", "c.py"); ("M", "a.py")].
Proof.
  apply analyze_changes_order_independent.
  apply Permutation_cons_append with (l := [("A", "b.py"); ("M", "c.py")]).
Defined.

(** ** The synthesizer and the adapter *)

Section MessageShape.


End MessageShape.


Section AdapterMore.

Lemma bound_diff_cases (diff : string) :
  ((PyStr.len diff <= 4000)%Z /\ bound_diff diff = diff)
  \/ ((4000 < PyStr.len diff)%Z
      /\ bound_diff diff
         = PyStr.take (Z.to_nat 4000) diff ++ truncation_marker).
Proof.
  unfold bound_diff.
  destruct (Z.ltb_spec 4000 (PyStr.len diff)) as [H | H].
  - right. split; [assumption |]. reflexivity.
  - left. now split.
Qed.

Lemma bound_diff_length (diff : string) :
  (PyStr.len (bound_diff diff) <= 4033)%Z.
Proof.
  destruct (bound_diff_cases diff) as [[H ->] | [H ->]]; [lia |].
  unfold PyStr.len in *. rewrite length_app_str, length_take.
  change (String.length truncation_marker) with 33. lia.
Qed.

End AdapterMore.

(** X8.  The diff handed to the remote service is the staged diff when that has
    at most 4000 characters, and otherwise its first 4000 characters and
    the marker; it never has more than 4033 characters.  The adapter asks
    the service one question only: the configured model, the system prompt
    of the configured style, and the user prompt made of the fixed heading
    and that diff, which has at most 4055 characters.  Two worlds that
    give the same answer to this one question give the same result,
    whatever they answer to any other. *)
Theorem remote_prompt_is_bounded (world world' : World) (config : Config) :
  let diff := bound_diff (get_full_diff world) in
  let user := "Here's the git diff:" ++ nl ++ nl ++ diff in
  (PyStr.len diff <= 4033)%Z
  /\ ((PyStr.len (get_full_diff world) <= 4000)%Z ->
      diff = get_full_diff world)
  /\ ((4000 < PyStr.len (get_full_diff world))%Z ->
      diff
      = PyStr.take (Z.to_nat 4000) (get_full_diff world)
        ++ nl ++ "..." ++ nl ++ "(diff truncated due to size)")
  /\ (PyStr.len user <= 4055)%Z
  /\ (OPENAI_AVAILABLE world = OPENAI_AVAILABLE world' ->
      get_full_diff world = get_full_diff world' ->
      chat_completions_create world (openai_model config)
        (system_prompt config) user
      = chat_completions_create world' (openai_model config)
          (system_prompt config) user ->
      generate_ai_commit_message world config
      = generate_ai_commit_message world' config).
Proof.
  cbv zeta.
  split; [apply bound_diff_length |].
  split; [| split; [| split]].
  - intros H. destruct (bound_diff_cases (get_full_diff world))
      as [[_ E] | [H' _]]; [assumption | lia].
  - intros H. destruct (bound_diff_cases (get_full_diff world))
      as [[H' _] | [_ E]]; [lia | assumption].
  - pose proof (bound_diff_length (get_full_diff world)) as Hb.
    unfold PyStr.len in *. rewrite !length_app_str.
    change (String.length "Here's the git diff:") with 20.
    change (String.length nl) with 1. lia.
  - intros Ha Hd Hc. unfold generate_ai_commit_message.
    rewrite <- Ha, <- Hd. unfold remote_call, remote_response.
    now rewrite <- Hc.
Qed.

Lemma remote_prompt_is_bounded_witness :
  generate_ai_commit_message
    (online_world "diff --git a/x b/x" (inr (Some "Tidy x")))
    (ai_config "sk-test" "")
  = generate_ai_commit_message
      {| OPENAI_AVAILABLE := true; get_full_diff := "diff --git a/x b/x";
         chat_completions_create :=
           fun _ _ user =>
             if user =? "Here's the git diff:" ++ nl ++ nl ++ "diff --git a/x b/x"
             then inr (Some "Tidy x")
             else inl (Py.Exception "another question") |}
      (ai_config "sk-test" "").
Proof.
  exact (proj2 (proj2 (proj2 (proj2 (remote_prompt_is_bounded
            (online_world "diff --git a/x b/x" (inr (Some "Tidy x")))
            {| OPENAI_AVAILABLE := true; get_full_diff := "diff --git a/x b/x";
               chat_completions_create :=
                 fun _ _ user =>
                   if user =? "Here's the git diff:" ++ nl ++ nl
                              ++ "diff --git a/x b/x"
                   then inr (Some "Tidy x")
                   else inl (Py.Exception "another question") |}
            (ai_config "sk-test" ""))))) eq_refl eq_refl eq_refl).
Defined.

(** X9.  With the conventional-commits style the adapter never applies the
    prefix: its result is the same under every prefix.  The rule-based
    message is prefixed under either style. *)
Theorem conventional_remote_ignores_prefix (world : World) (config : Config)
  (p : string) (staged_files : list (string * string)) :
  (conventional_commits config = true ->
   generate_ai_commit_message world (set_prefix p config)
   = generate_ai_commit_message world config)
  /\ (p <> "" ->
      rule_based_message (set_prefix p config) staged_files
      = truncate config (p ++ " " ++ analyze_changes staged_files)).
Proof.
  split.
  - intros Hc.
    unfold generate_ai_commit_message, remote_call, remote_response,
      system_prompt, apply_prefix, truncate.
    cbn [set_prefix prefix openai_api_key openai_model conventional_commits
         max_length].
    rewrite Hc. cbn [negb]. now rewrite !andb_false_r.
  - intros Hp. apply truthy_true in Hp.
    unfold rule_based_message, apply_prefix, truncate.
    cbn [set_prefix prefix max_length]. now rewrite Hp.
Qed.

Lemma conventional_remote_ignores_prefix_witness :
  generate_commit_message
    (online_world "diff --git a/x b/x" (inr (Some "feat(x): add x")))
    (set_prefix "chore:"
       (set_conventional_commits true (ai_config "sk-test" "")))
    [("A", "x")]
  = ([], inr "feat(x): add x")
  /\ rule_based_message (set_prefix "chore:" (ai_config "sk-test" ""))
       [("A", "x")]
     = "chore: Add x"
  /\ rule_based_message
       (set_prefix "chore:"
          (set_conventional_commits true (ai_config "sk-test" "")))
       [("A", "x")]
     = "chore: Add x".
Proof.
  split; [| split].
  - pose proof (proj1 (conventional_remote_ignores_prefix
      (online_world "diff --git a/x b/x" (inr (Some "feat(x): add x")))
      (set_conventional_commits true (ai_config "sk-test" "")) "chore:"
      [("A", "x")]) eq_refl) as H.
    unfold generate_commit_message.
    cbn [use_ai set_prefix set_conventional_commits ai_config].
    change (generate_ai_commit_message _ _) with
      (generate_ai_commit_message
         (online_world "diff --git a/x b/x" (inr (Some "feat(x): add x")))
         (set_prefix "chore:"
            (set_conventional_commits true (ai_config "sk-test" "")))).
    rewrite H. reflexivity.
  - refine (proj2 (conventional_remote_ignores_prefix offline_world
              (ai_config "sk-test" "") "chore:" [("A", "x")]) _).
    discriminate.
  - refine (proj2 (conventional_remote_ignores_prefix offline_world
              (set_conventional_commits true (ai_config "sk-test" ""))
              "chore:" [("A", "x")]) _).
    discriminate.
Defined.

Lemma try_except_ret (A : Type) (a : A) (handler : string -> Py.Run A) :
  Py.try_except (Py.ret a) handler = Py.ret a.
Proof. reflexivity. Qed.

(** X10.  A remote answer of whitespace only is stripped to nothing.  Where no
    prefix applies the empty message counts as absent and the heuristic
    message is returned after the fallback notice; where a prefix applies,
    the message returned is the prefix and a space, and nothing is said. *)
Theorem blank_remote_answer (world : World) (config : Config)
  (staged_files : list (string * string)) (content : string) :
  use_ai config = true -> OPENAI_AVAILABLE world = true ->
  openai_api_key config <> "" -> get_full_diff world <> "" ->
  remote_response world config (bound_diff (get_full_diff world))
  = inr (Some content) ->
  all_space content = true ->
  (0 <= max_length config)%Z ->
  ((prefix config = "" \/ conventional_commits config = true) ->
   generate_commit_message world config staged_files
   = (["Falling back to rule-based commit message generation..."],
      inr (rule_based_message config staged_files)))
  /\ (prefix config <> "" -> conventional_commits config = false ->
      (PyStr.len (prefix config ++ " ") <= max_length config)%Z ->
      generate_commit_message world config staged_files
      = ([], inr (prefix config ++ " "))).
Proof.
  intros Hu Ha Hk Hd Hr Hs HL.
  apply truthy_true in Hk, Hd.
  unfold generate_commit_message, generate_ai_commit_message, remote_call.
  rewrite Hu, Ha, Hk, Hd, Hr. cbn [negb].
  rewrite bind_ret. cbn [Py.attribute_of]. rewrite bind_ret.
  rewrite (strip_all_space content Hs), try_except_ret, bind_ret. split.
  - intros Hp.
    assert (E : apply_prefix config (negb (conventional_commits config)) "" = "").
    { unfold apply_prefix. destruct Hp as [-> | ->]; [reflexivity |].
      cbn. now rewrite andb_false_r. }
    rewrite E.
    assert (T : truncate config "" = "").
    { unfold truncate. cbn [PyStr.len String.length Z.of_nat].
      destruct (Z.ltb_spec (max_length config) 0); [lia | reflexivity]. }
    rewrite T. reflexivity.
  - intros Hp Hc Hfit. apply truthy_true in Hp.
    unfold apply_prefix. rewrite Hp, Hc. cbn [negb andb].
    rewrite (truncate_keep config (prefix config ++ " " ++ "") Hfit).
    assert (Hne : PyStr.truthy (prefix config ++ " " ++ "") = true).
    { apply truthy_true. destruct (prefix config); discriminate. }
    cbn. cbn in Hne. rewrite Hne. reflexivity.
Qed.

Lemma blank_remote_answer_witness :
  generate_commit_message
    (online_world "diff --git a/x b/x" (inr (Some (" " ++ nl))))
    (ai_config "sk-test" "feat:") [("A", "x.py")]
  = ([], inr "feat: ")
  /\ generate_commit_message
       (online_world "diff --git a/x b/x" (inr (Some (" " ++ nl))))
       (ai_config "sk-test" "") [("A", "x.py")]
     = (["Falling back to rule-based commit message generation..."],
        inr "Add x.py").
Proof.
  split.
  - refine (proj2 (blank_remote_answer
      (online_world "diff --git a/x b/x" (inr (Some (" " ++ nl))))
      (ai_config "sk-test" "feat:") [("A", "x.py")] (" " ++ nl)
      eq_refl eq_refl _ _ eq_refl eq_refl _) _ eq_refl _).
    all: try discriminate; cbn; lia.
  - refine (proj1 (blank_remote_answer
      (online_world "diff --git a/x b/x" (inr (Some (" " ++ nl))))
      (ai_config "sk-test" "") [("A", "x.py")] (" " ++ nl)
      eq_refl eq_refl _ _ eq_refl eq_refl _) _).
    all: try discriminate; try (cbn; lia). now left.
Defined.

(** ** [get_file_changes] *)

Section FileChangesFacts.

Lemma startswith_char (d c : ascii) (r : string) :
  PyText.startswith (String c r) (String d "") = Ascii.eqb d c.
Proof.
  unfold PyText.startswith. cbn [String.prefix].
  destruct (ascii_dec d c) as [-> | H].
  - rewrite Ascii.eqb_refl. now destruct r.
  - symmetry. now apply Ascii.eqb_neq.
Qed.

Lemma added_is_not_removed (line : string) :
  is_added_line line = true -> is_removed_line line = false.
Proof.
  unfold is_added_line, is_removed_line.
  destruct line as [|c r]; [discriminate |].
  rewrite !startswith_char. intros H. apply andb_true_iff in H.
  destruct H as [H _]. apply Ascii.eqb_eq in H. subst c. reflexivity.
Qed.

Lemma scan_diff_fold (lines : list string) (added removed : list string) :
  fold_left scan_diff_line lines (added, removed)
  = ((added ++ map recorded_text (filter is_added_line lines))%list,
     (removed ++ map recorded_text (filter is_removed_line lines))%list).
Proof.
  revert added removed. induction lines as [|l lines IH]; intros added removed.
  - cbn. now rewrite !app_nil_r.
  - cbn [fold_left filter]. unfold scan_diff_line at 2.
    fold (is_added_line l). fold (is_removed_line l).
    destruct (is_added_line l) eqn:Ea.
    + rewrite (added_is_not_removed l Ea), IH. cbn [map].
      now rewrite <- app_assoc.
    + destruct (is_removed_line l); rewrite IH; cbn [map];
        now rewrite <- ?app_assoc.
Qed.

Lemma disjoint_filters_length (A : Type) (f g : A -> bool) (l : list A) :
  (forall x, f x = true -> g x = false) ->
  List.length (filter f l) + List.length (filter g l) <= List.length l.
Proof.
  intros H. induction l as [|x l IH]; cbn; [lia |].
  destruct (f x) eqn:E.
  - rewrite (H x E). cbn. lia.
  - destruct (g x); cbn; lia.
Qed.

End FileChangesFacts.

(** X11.  [get_file_changes] answers File deleted for a deleted file without
    reading its diff, and Unable to get diff when reading raises anything.
    Otherwise it lists, in order, the stripped text of the lines that start
    with one plus or one minus sign but not with three: each line goes to
    at most one list, the headers go to neither, no entry keeps whitespace
    at its ends, and a changed line whose own text starts with two more
    signs is left out. *)
Theorem get_file_changes_result (file_diff : string -> Py.exn + string)
  (file_path status : string) :
  (status = "D" ->
   get_file_changes file_diff file_path status = Text "File deleted")
  /\ (forall e, status <> "D" -> file_diff file_path = inl e ->
        get_file_changes file_diff file_path status
        = Text "Unable to get diff")
  /\ (forall diff, status <> "D" -> file_diff file_path = inr diff ->
        let lines := PyStr.split "010" diff in
        let added := map recorded_text (filter is_added_line lines) in
        let removed := map recorded_text (filter is_removed_line lines) in
        get_file_changes file_diff file_path status = Lines added removed
        /\ List.length added + List.length removed <= List.length lines
        /\ Forall (fun s => trimmed s = true) (added ++ removed))
  /\ (forall text, is_added_line ("+++" ++ text) = false
                   /\ is_removed_line ("---" ++ text) = false).
Proof.
  unfold get_file_changes. split; [| split; [| split]].
  - intros ->. reflexivity.
  - intros e Hs He. apply String.eqb_neq in Hs. now rewrite Hs, He.
  - intros diff Hs Hd. cbv zeta.
    apply String.eqb_neq in Hs. rewrite Hs, Hd, scan_diff_fold. cbn [app].
    split; [reflexivity |]. split.
    + rewrite !length_map.
      apply disjoint_filters_length. apply added_is_not_removed.
    + apply Forall_app. split; apply Forall_map, Forall_forall;
        intros l _; apply strip_trimmed.
  - intros text. split; now destruct text.
Qed.

Lemma get_file_changes_result_witness :
  get_file_changes
    (fun _ => inr ("--- a/x.c" ++ nl ++ "+++ b/x.c" ++ nl ++ "+  int i; "
                   ++ nl ++ "-int j;" ++ nl ++ " return 0;" ++ nl ++ "+++i;"))
    "x.c" "M"
  = Lines ["int i;"] ["int j;"].
Proof.
  refine (proj1 (proj1 (proj2 (proj2 (get_file_changes_result
    (fun _ => inr ("--- a/x.c" ++ nl ++ "+++ b/x.c" ++ nl ++ "+  int i; "
                   ++ nl ++ "-int j;" ++ nl ++ " return 0;" ++ nl ++ "+++i;"))
    "x.c" "M"))) _ _ eq_refl)).
  discriminate.
Defined.

(** ** The configuration file *)

Section ConfigFacts.

Variable py_int : string -> option Z.

Lemma split_length (c : ascii) (s : string) :
  List.length (PyStr.split c s) = S (occurrences c s).
Proof.
  induction s as [|a s IH]; [reflexivity |].
  cbn [PyStr.split occurrences]. destruct (Ascii.eqb a c).
  - cbn. now rewrite IH.
  - destruct (PyStr.split c s) as [|h t]; [discriminate |].
    cbn in *. lia.
Qed.

Lemma lower_char_idempotent (c : ascii) :
  PyText.lower_char (PyText.lower_char c) = PyText.lower_char c.
Proof. destruct c as [[] [] [] [] [] [] [] []]; reflexivity. Qed.

Lemma lower_idempotent (s : string) :
  PyText.lower (PyText.lower s) = PyText.lower s.
Proof.
  induction s as [|c s IH]; cbn; [reflexivity |].
  now rewrite lower_char_idempotent, IH.
Qed.

Lemma first_some_spec (A B : Type) (f : A -> option B) (l : list A) (b : B) :
  first_some f l = Some b <->
  exists before x after,
    l = (before ++ x :: after)%list
    /\ Forall (fun y => f y = None) before /\ f x = Some b.
Proof.
  induction l as [|x l IH]; cbn [first_some].
  - split; [discriminate |].
    intros (before & y & after & E & _). destruct before; discriminate.
  - destruct (f x) as [b'|] eqn:Ex.
    + split.
      * intros H. injection H as <-. exists [], x, l. auto.
      * intros (before & y & after & E & Hb & Hy).
        destruct before as [|z before]; cbn in E.
        -- injection E as <- <-. congruence.
        -- injection E as <- _. inversion Hb; subst. congruence.
    + rewrite IH. split.
      * intros (before & y & after & -> & Hb & Hy).
        exists (x :: before), y, after. repeat split; auto.
      * intros (before & y & after & E & Hb & Hy).
        destruct before as [|z before]; cbn in E.
        -- injection E as <- <-. congruence.
        -- injection E as <- ->. inversion Hb; subst.
           exists before, y, after. auto.
Qed.

Lemma convert_to_boolean_error (v : string) (x : Console.error) :
  convert_to_boolean v = inl x -> x = Console.ValueError.
Proof.
  unfold convert_to_boolean.
  destruct (Dict.get (PyText.lower v) BOOLEAN_STATES); congruence.
Qed.

Ltac read_plain key :=
  destruct (Dict.get key _) as [[? | ?] |];
  cbn [and_then read_option];
  [split; intros H; inversion H; reflexivity | |].

(** [get_config] fails with what is wrong with the first option at fault,
    in the order of reading. *)
Lemma get_config_raises (autocommit : Dict.t (Py.exn + string))
  (env : option string) (e : Console.error) :
  get_config py_int (inr (Some autocommit)) env = inl e <->
  first_some (option_failure py_int autocommit) option_keys = Some e.
Proof.
  unfold get_config, option_keys. cbn [first_some]. unfold option_failure.
  cbn [String.eqb Ascii.eqb Bool.eqb PyStr.in_list existsb orb andb].
  read_plain "prefix"; 
  (read_plain "prefixes";
   (destruct (Dict.get "max_length" _) as [[? | ml] |];
    cbn [and_then read_option];
    [split; intros H; inversion H; reflexivity
    | destruct (py_int ml); cbn [and_then];
      [| split; intros H; inversion H; reflexivity]
    | ];
    (destruct (Dict.get "use_ai" _) as [[? | ua] |];
     cbn [and_then read_option];
     [split; intros H; inversion H; reflexivity
     | destruct (convert_to_boolean ua) eqn:?; cbn [and_then];
       [split; intros H; inversion H; reflexivity |]
     | ];
     (read_plain "openai_api_key";
      (read_plain "openai_model";
       (destruct (Dict.get "conventional_commits" _) as [[? | cc] |];
        cbn [and_then read_option];
        [split; intros H; inversion H; reflexivity
        | destruct (convert_to_boolean cc) eqn:?; cbn [and_then];
          [split; intros H; inversion H; reflexivity |]
        | ];
        split; intros H; discriminate H)))))).
Qed.

Ltac field_plain key :=
  destruct (Dict.get key _) as [[? | ?] |];
  cbn [and_then read_option];
  [intros H; discriminate H | |].

(** What [get_config] returns when it returns, field by field. *)
Lemma get_config_fields (autocommit : Dict.t (Py.exn + string))
  (env : option string) (c : Config) :
  get_config py_int (inr (Some autocommit)) env = inr c ->
  match Dict.get "prefix" autocommit with
  | Some (inr v) => prefix c = v
  | Some (inl _) => False
  | None => prefix c = ""
  end
  /\ match Dict.get "prefixes" autocommit with
     | Some (inr v) =>
         prefixes c
         = if PyStr.truthy v then map PyStr.strip (PyStr.split "," v) else []
     | Some (inl _) => False
     | None => prefixes c = []
     end
  /\ match Dict.get "max_length" autocommit with
     | Some (inr v) => py_int v = Some (max_length c)
     | Some (inl _) => False
     | None => max_length c = 72%Z
     end
  /\ match Dict.get "use_ai" autocommit with
     | Some (inr v) => convert_to_boolean v = inr (use_ai c)
     | Some (inl _) => False
     | None => use_ai c = false
     end
  /\ match env with
     | Some key => openai_api_key c = key
     | None =>
         match Dict.get "openai_api_key" autocommit with
         | Some (inr v) => openai_api_key c = v
         | Some (inl _) => False
         | None => openai_api_key c = ""
         end
     end
  /\ match Dict.get "openai_model" autocommit with
     | Some (inr v) => openai_model c = v
     | Some (inl _) => False
     | None => openai_model c = "gpt-3.5-turbo"
     end
  /\ match Dict.get "conventional_commits" autocommit with
     | Some (inr v) => convert_to_boolean v = inr (conventional_commits c)
     | Some (inl _) => False
     | None => conventional_commits c = false
     end.
Proof.
  unfold get_config.
  field_plain "prefix";
  (destruct (Dict.get "prefixes" _) as [[? | ps] |];
   cbn [and_then read_option];
   [intros H; discriminate H | destruct (PyStr.truthy ps) |];
   (destruct (Dict.get "max_length" _) as [[? | ml] |];
    cbn [and_then read_option];
    [intros H; discriminate H
    | destruct (py_int ml); cbn [and_then]; [| intros H; discriminate H]
    | ];
    (destruct (Dict.get "use_ai" _) as [[? | ua] |];
     cbn [and_then read_option];
     [intros H; discriminate H
     | destruct (convert_to_boolean ua); cbn [and_then];
       [intros H; discriminate H |]
     | ];
     (field_plain "openai_api_key";
      (field_plain "openai_model";
       (destruct (Dict.get "conventional_commits" _) as [[? | cc] |];
        cbn [and_then read_option];
        [intros H; discriminate H
        | destruct (convert_to_boolean cc); cbn [and_then];
          [intros H; discriminate H |]
        | ];
        destruct env; intros H; injection H as <-; cbn;
        repeat split)))))).
Qed.

Lemma first_some_none (A B : Type) (f : A -> option B) (l : list A) :
  first_some f l = None <-> Forall (fun x => f x = None) l.
Proof.
  induction l as [|x l IH]; cbn [first_some].
  - split; [constructor | reflexivity].
  - destruct (f x) eqn:E.
    + split; [discriminate |]. intros H. inversion H; subst. congruence.
    + rewrite IH. split.
      * intros H. now constructor.
      * intros H. now inversion H.
Qed.

(** Where the error of an option comes from. *)
Lemma option_failure_cases (autocommit : Dict.t (Py.exn + string))
  (key : string) (e : Console.error) :
  In key option_keys ->
  option_failure py_int autocommit key = Some e ->
  (exists x, Dict.get key autocommit = Some (inl x) /\ e = Console.Uncaught x)
  \/ (e = Console.ValueError
      /\ exists v,
           Dict.get key autocommit = Some (inr v)
           /\ ((key = "max_length" /\ py_int v = None)
               \/ ((key = "use_ai" \/ key = "conventional_commits")
                   /\ convert_to_boolean v = inl Console.ValueError))).
Proof.
  intros Hk. unfold option_failure.
  destruct (Dict.get key autocommit) as [[x | v] |]; [| | discriminate].
  - intros H. injection H as <-. left. now exists x.
  - cbn in Hk.
    repeat (destruct Hk as [<- | Hk]); try contradiction;
      cbn [String.eqb Ascii.eqb Bool.eqb PyStr.in_list existsb orb andb];
      try discriminate.
    + destruct (py_int v) eqn:E; [discriminate |].
      intros H. injection H as <-. right. split; [reflexivity |].
      exists v. split; [reflexivity |]. now left.
    + destruct (convert_to_boolean v) as [x |] eqn:E; [| discriminate].
      intros H. injection H as <-.
      pose proof (convert_to_boolean_error _ _ E). subst x.
      right. split; [reflexivity |]. exists v. split; [reflexivity |].
      right. split; [now left | assumption].
    + destruct (convert_to_boolean v) as [x |] eqn:E; [| discriminate].
      intros H. injection H as <-.
      pose proof (convert_to_boolean_error _ _ E). subst x.
      right. split; [reflexivity |]. exists v. split; [reflexivity |].
      right. split; [now right | assumption].
Qed.

End ConfigFacts.

(** X12.  The environment variable takes precedence over the file: with it set,
    [get_config] fails exactly when it fails without it, and otherwise
    returns the same configuration with the key replaced by the variable's
    value. *)
Theorem environment_key_overrides_file (py_int : string -> option Z)
  (parsed : Py.exn + option (Dict.t (Py.exn + string))) (key : string) :
  get_config py_int parsed (Some key)
  = and_then (get_config py_int parsed None)
      (fun c => inr (set_openai_api_key key c))
  /\ forall c, get_config py_int parsed (Some key) = inr c ->
               openai_api_key c = key.
Proof.
  assert (E : get_config py_int parsed (Some key)
              = and_then (get_config py_int parsed None)
                  (fun c => inr (set_openai_api_key key c))).
  { unfold get_config.
    match goal with
    | |- and_then ?x _ = _ => destruct x as [e | c]; reflexivity
    end. }
  split; [exact E |]. intros c. rewrite E.
  destruct (get_config py_int parsed None) as [e | c0]; cbn; [discriminate |].
  intros H. injection H as <-. reflexivity.
Qed.

Lemma environment_key_overrides_file_witness :
  openai_api_key
    {| prefix := ""; prefixes := []; max_length := 72; use_ai := true;
       openai_api_key := "sk-env"; openai_model := "gpt-3.5-turbo";
       conventional_commits := false |}
  = "sk-env".
Proof.
  exact (proj2 (environment_key_overrides_file decimal_int
                  (inr (Some (plain_section
                                [("openai_api_key", "sk-file");
                                 ("use_ai", "On")])))
                  "sk-env") _ eq_refl).
Defined.

(** X13.  The prefixes option is split at its commas and each piece is stripped:
    a non-empty value with n commas gives n + 1 prefixes, none with
    whitespace at its ends, so that a doubled or trailing comma gives an
    empty prefix; an empty value leaves the list empty. *)
Theorem configured_prefixes (py_int : string -> option Z)
  (autocommit : Dict.t (Py.exn + string)) (env : option string) (c : Config)
  (value : string) :
  Dict.get "prefixes" autocommit = Some (inr value) ->
  get_config py_int (inr (Some autocommit)) env = inr c ->
  (value = "" -> prefixes c = [])
  /\ (value <> "" ->
      prefixes c = map PyStr.strip (PyStr.split "," value)
      /\ List.length (prefixes c) = S (occurrences "," value)
      /\ Forall (fun p => trimmed p = true) (prefixes c)).
Proof.
  intros Hv Hc. apply get_config_fields in Hc.
  destruct Hc as (_ & Hp & _). rewrite Hv in Hp. split.
  - intros ->. exact Hp.
  - intros Hne. apply truthy_true in Hne. rewrite Hne in Hp.
    split; [exact Hp |]. rewrite Hp. split.
    + now rewrite length_map, split_length.
    + apply Forall_map, Forall_forall. intros p _. apply strip_trimmed.
Qed.

Lemma configured_prefixes_witness :
  prefixes
    {| prefix := ""; prefixes := ["feat:"; "fix:"; ""]; max_length := 72;
       use_ai := false; openai_api_key := "";
       openai_model := "gpt-3.5-turbo"; conventional_commits := false |}
  = map PyStr.strip (PyStr.split "," "feat: ,  fix:,")
  /\ List.length ["feat:"; "fix:"; ""] = 3.
Proof.
  split; [| reflexivity].
  refine (proj1 (proj2 (configured_prefixes decimal_int
                          [("prefixes", inr "feat: ,  fix:,")] None _
                          "feat: ,  fix:," eq_refl eq_refl) _)).
  discriminate.
Defined.

(** X14.  Reading the configuration fails exactly when [configparser] raises
    on the file; or, an [autocommit] section being there, when something
    is wrong with one of the seven options: [configparser] raises on
    reading it, or the text of max_length is one that [int] rejects, or
    the text of use_ai or conventional_commits is none of the eight
    boolean spellings, which are read without regard to case.  The error
    is that of the first option at fault in the order of reading, so it is
    an exception of [configparser] or [ValueError]; where every option
    reads, it is [ValueError].  Nothing of this is caught.  Without file
    or section the call cannot fail. *)
Theorem get_config_fails_on_bad_values (py_int : string -> option Z)
  (autocommit : Dict.t (Py.exn + string)) (env : option string) :
  (forall x, get_config py_int (inl x) env = inl (Console.Uncaught x))
  /\ (forall e, get_config py_int (inr (Some autocommit)) env = inl e <->
        exists before key after,
          option_keys = (before ++ key :: after)%list
          /\ Forall (fun k => option_failure py_int autocommit k = None) before
          /\ option_failure py_int autocommit key = Some e)
  /\ (forall e, get_config py_int (inr (Some autocommit)) env = inl e ->
        e = Console.ValueError
        \/ exists key x,
             In key option_keys
             /\ Dict.get key autocommit = Some (inl x)
             /\ e = Console.Uncaught x)
  /\ ((forall key x, In key option_keys ->
                     Dict.get key autocommit <> Some (inl x)) ->
      forall e, get_config py_int (inr (Some autocommit)) env = inl e <->
        e = Console.ValueError
        /\ ((exists v, Dict.get "max_length" autocommit = Some (inr v)
                       /\ py_int v = None)
            \/ (exists v, Dict.get "use_ai" autocommit = Some (inr v)
                          /\ convert_to_boolean v = inl Console.ValueError)
            \/ (exists v, Dict.get "conventional_commits" autocommit
                          = Some (inr v)
                          /\ convert_to_boolean v = inl Console.ValueError)))
  /\ (forall v,
        convert_to_boolean v
        = if PyStr.in_list (PyText.lower v) ["1"; "yes"; "true"; "on"]
          then inr true
          else if PyStr.in_list (PyText.lower v) ["0"; "no"; "false"; "off"]
          then inr false
          else inl Console.ValueError)
  /\ (forall v, convert_to_boolean (PyText.lower v) = convert_to_boolean v)
  /\ (exists c, get_config py_int (inr None) env = inr c).
Proof.
  assert (Hfirst : forall e,
    get_config py_int (inr (Some autocommit)) env = inl e <->
    exists before key after,
      option_keys = (before ++ key :: after)%list
      /\ Forall (fun k => option_failure py_int autocommit k = None) before
      /\ option_failure py_int autocommit key = Some e).
  { intros e. rewrite get_config_raises. apply first_some_spec. }
  assert (Hfrom : forall e,
    get_config py_int (inr (Some autocommit)) env = inl e ->
    exists key, In key option_keys
                /\ option_failure py_int autocommit key = Some e).
  { intros e H. apply Hfirst in H.
    destruct H as (before & key & after & E & _ & Hk).
    exists key. split; [| assumption]. rewrite E.
    apply in_or_app. right. now left. }
  split; [reflexivity |]. split; [exact Hfirst |].
  split; [| split; [| split; [| split]]].
  - intros e H. destruct (Hfrom e H) as (key & Hin & Hk).
    destruct (option_failure_cases py_int autocommit key e Hin Hk)
      as [(x & Hx & ->) | [-> _]]; [right | now left].
    now exists key, x.
  - intros Hread e. split.
    + intros H. destruct (Hfrom e H) as (key & Hin & Hk).
      destruct (option_failure_cases py_int autocommit key e Hin Hk)
        as [(x & Hx & ->) | [-> (v & Hv & Hbad)]].
      * exfalso. exact (Hread key x Hin Hx).
      * split; [reflexivity |].
        destruct Hbad as [[-> Hi] | [[-> | ->] Hb]]; eauto 6.
    + intros [-> Hbad].
      assert (Hsome : exists key,
                 In key option_keys
                 /\ option_failure py_int autocommit key
                    = Some Console.ValueError).
      { unfold option_failure.
        destruct Hbad as [(v & Hv & Hx) | [(v & Hv & Hx) | (v & Hv & Hx)]].
        - exists "max_length". rewrite Hv, Hx. cbn. auto 10.
        - exists "use_ai". rewrite Hv, Hx. cbn. auto 10.
        - exists "conventional_commits". rewrite Hv, Hx. cbn. auto 10. }
      destruct Hsome as (key & Hin & Hk).
      destruct (get_config py_int (inr (Some autocommit)) env)
        as [e | c] eqn:E.
      * destruct (Hfrom e eq_refl) as (key' & Hin' & Hk').
        destruct (option_failure_cases py_int autocommit key' e Hin' Hk')
          as [(x & Hx & ->) | [-> _]]; [| reflexivity].
        exfalso. exact (Hread key' x Hin' Hx).
      * exfalso.
        assert (N : first_some (option_failure py_int autocommit) option_keys
                    = None).
        { destruct (first_some (option_failure py_int autocommit) option_keys)
            as [e |] eqn:F; [| reflexivity].
          apply get_config_raises with (env := env) in F. congruence. }
        apply first_some_none in N. rewrite Forall_forall in N.
        rewrite (N key Hin) in Hk. discriminate.
  - intros v. unfold convert_to_boolean, BOOLEAN_STATES, PyStr.in_list.
    cbn [Dict.get existsb].
    repeat match goal with
           | |- context [PyText.lower v =? ?x] =>
               destruct (PyText.lower v =? x)
           end; reflexivity.
  - intros v. unfold convert_to_boolean. now rewrite lower_idempotent.
  - unfold get_config. cbn. destruct env; eexists; reflexivity.
Qed.

Lemma get_config_fails_on_bad_values_witness :
  get_config decimal_int
    (inr (Some [("prefix", inl (Py.Exception "'%' must be followed by '%' or '('"));
                ("max_length", inr "seventy")])) None
  = inl (Console.Uncaught (Py.Exception "'%' must be followed by '%' or '('"))
  /\ get_config decimal_int (inr (Some [("max_length", inr "seventy")])) None
     = inl Console.ValueError
  /\ get_config decimal_int (inr (Some [("use_ai", inr "maybe")]))
       (Some "sk-env")
     = inl Console.ValueError
  /\ convert_to_boolean "YES" = inr true.
Proof.
  split; [| split; [| split]].
  - apply (proj2 (proj1 (proj2 (get_config_fails_on_bad_values decimal_int
      [("prefix", inl (Py.Exception "'%' must be followed by '%' or '('"));
       ("max_length", inr "seventy")] None)) _)).
    exists [], "prefix",
      ["prefixes"; "max_length"; "use_ai"; "openai_api_key"; "openai_model";
       "conventional_commits"].
    split; [reflexivity |]. split; [constructor | reflexivity].
  - refine (proj2 (proj1 (proj2 (proj2 (proj2
      (get_config_fails_on_bad_values decimal_int
         [("max_length", inr "seventy")] None)))) _ Console.ValueError) _).
    + intros key x _. cbn.
      destruct (key =? "max_length"); discriminate.
    + split; [reflexivity |]. left. now exists "seventy".
  - refine (proj2 (proj1 (proj2 (proj2 (proj2
      (get_config_fails_on_bad_values decimal_int
         [("use_ai", inr "maybe")] (Some "sk-env"))))) _ Console.ValueError) _).
    + intros key x _. cbn.
      destruct (key =? "use_ai"); discriminate.
    + split; [reflexivity |]. right. left. now exists "maybe".
  - exact (proj1 (proj2 (proj2 (proj2 (proj2
      (get_config_fails_on_bad_values decimal_int [] None))))) "YES").
Defined.

(** X15.  [max_length] is taken from the file as [int] reads it, with no check
    of its range: whatever number [int] gives is the limit of the
    configuration returned, and where nothing is wrong with any option the
    configuration is returned, so that zero and negative limits are
    accepted. *)
Theorem max_length_is_not_validated (py_int : string -> option Z)
  (autocommit : Dict.t (Py.exn + string)) (env : option string)
  (v : string) (n : Z) :
  Dict.get "max_length" autocommit = Some (inr v) -> py_int v = Some n ->
  (forall c, get_config py_int (inr (Some autocommit)) env = inr c ->
             max_length c = n)
  /\ ((forall key, In key option_keys ->
                   option_failure py_int autocommit key = None) ->
      exists c, get_config py_int (inr (Some autocommit)) env = inr c
                /\ max_length c = n).
Proof.
  intros Hv Hn.
  assert (Hmax : forall c,
            get_config py_int (inr (Some autocommit)) env = inr c ->
            max_length c = n).
  { intros c E. apply get_config_fields in E. destruct E as (_ & _ & Hm & _).
    rewrite Hv in Hm. congruence. }
  split; [exact Hmax |]. intros Hok.
  destruct (get_config py_int (inr (Some autocommit)) env) as [e | c] eqn:E.
  - exfalso. apply get_config_raises in E. apply first_some_spec in E.
    destruct E as (before & key & after & Ek & _ & Hk).
    rewrite Hok in Hk; [discriminate |].
    rewrite Ek. apply in_or_app. right. now left.
  - exists c. split; [reflexivity |]. now apply Hmax.
Qed.

Lemma max_length_is_not_validated_witness :
  exists c,
    get_config decimal_int
      (inr (Some [("max_length", inr "0"); ("use_ai", inr "no")])) None
    = inr c
    /\ max_length c = 0%Z.
Proof.
  refine (proj2 (max_length_is_not_validated decimal_int
                   [("max_length", inr "0"); ("use_ai", inr "no")] None
                   "0" 0 eq_refl eq_refl) _).
  intros key Hin. cbn in Hin.
  repeat (destruct Hin as [<- | Hin]); try contradiction; reflexivity.
Defined.

(** ** The set-up and the prefix menu *)

(** X16.  [setup_config] stops with status 1 outside a repository, leaves an
    existing file alone, and otherwise writes one file, the default
    section, at the root of the repository.  The section it writes, handed
    to [get_config] with every option reading as written, gives the
    built-in defaults with the ten conventional prefixes and the key of
    the environment. *)
Theorem setup_config_writes_defaults (py_int : string -> option Z)
  (host : Host) (answers : list string) :
  (git_root host = None ->
   setup_config host answers
   = ([Console.Printed
         "Error: Not a git repository (or any of the parent directories)"],
      inl (Console.Uncaught (Py.SystemExit 1))))
  /\ (forall root, git_root host = Some root ->
      let path := PyText.join root ".git-autocommit" in
      (path_exists host path = true ->
       setup_config host answers
       = ([Console.Printed ("Configuration file already exists at " ++ path)],
          inr (tt, answers)))
      /\ (path_exists host path = false ->
          setup_config host answers
          = ([Console.Wrote path default_section;
              Console.Printed ("Created configuration file at " ++ path);
              Console.Printed
                "Edit this file to customize the behavior of git-autocommit."],
             inr (tt, answers))))
  /\ (forall path section env,
        In (Console.Wrote path section) (fst (setup_config host answers)) ->
        py_int "72" = Some 72%Z ->
        path_exists host path = false
        /\ get_config py_int (inr (Some (plain_section section))) env
           = inr (set_prefixes conventional_prefixes
                    (match env with
                     | Some key => set_openai_api_key key default_config
                     | None => default_config
                     end))).
Proof.
  unfold setup_config, get_git_root. split; [| split].
  - intros ->. reflexivity.
  - intros root ->. cbv zeta. split; intros E; unfold Console.bind;
      cbn [Console.ret]; rewrite E; reflexivity.
  - intros path section env.
    destruct (git_root host) as [root|]; unfold Console.bind; cbn [Console.ret].
    + destruct (path_exists host (PyText.join root ".git-autocommit")) eqn:E;
        cbn.
      * intros [H | []]. discriminate.
      * intros [H | [H | [H | []]]]; try discriminate.
        injection H as <- <-. intros H72. split; [assumption |].
        unfold get_config. cbn. rewrite H72. cbn. now destruct env.
    + cbn. intros [H | []]. discriminate.
Qed.

Lemma setup_config_writes_defaults_witness :
  get_config decimal_int (inr (Some (plain_section default_section)))
    (Some "sk-env")
  = inr {| prefix := ""; prefixes := conventional_prefixes; max_length := 72;
           use_ai := false; openai_api_key := "sk-env";
           openai_model := "gpt-3.5-turbo"; conventional_commits := false |}.
Proof.
  refine (proj2 (proj2 (proj2 (setup_config_writes_defaults decimal_int
    {| git_root := Some "/repo"; path_exists := fun _ => false;
       autocommit_section := fun _ => inr None;
       environ_OPENAI_API_KEY := None; staged_name_status := "";
       world := offline_world; git_commit := fun _ => None |} []))
    "/repo/.git-autocommit" default_section (Some "sk-env") _ eq_refl)).
  cbn. left. reflexivity.
Defined.

Section MenuFacts.

Variable py_int : string -> option Z.



End MenuFacts.



(** ** The console *)

Section ConsoleFacts.

Lemma io_bind_inv (A B : Type) (m : Console.IO A) (k : A -> Console.IO B)
  (answers : list string) (ev : list Console.event)
  (r : Console.error + B * list string) :
  Console.bind m k answers = (ev, r) ->
  (exists e, m answers = (ev, inl e) /\ r = inl e)
  \/ exists a answers' ev1 ev2,
       m answers = (ev1, inr (a, answers'))
       /\ k a answers' = (ev2, r) /\ ev = (ev1 ++ ev2)%list.
Proof.
  unfold Console.bind. destruct (m answers) as [ev1 [e | [a answers']]].
  - intros H. injection H as <- <-. left. now exists e.
  - destruct (k a answers') as [ev2 r2] eqn:E. intros H. injection H as <- <-.
    right. now exists a, answers', ev1, ev2.
Qed.

Lemma commits_app (ev1 ev2 : list Console.event) :
  Console.commits (ev1 ++ ev2)
  = (Console.commits ev1 ++ Console.commits ev2)%list.
Proof. unfold Console.commits. apply flat_map_app. Qed.

Lemma commits_printed (out : list string) :
  Console.commits (map Console.Printed out) = [].
Proof. induction out as [|l out IH]; [reflexivity | exact IH]. Qed.

Lemma prompts_app (ev1 ev2 : list Console.event) :
  Console.prompts (ev1 ++ ev2)
  = (Console.prompts ev1 ++ Console.prompts ev2)%list.
Proof. unfold Console.prompts. apply flat_map_app. Qed.

Lemma prompts_printed (out : list string) :
  Console.prompts (map Console.Printed out) = [].
Proof. induction out as [|l out IH]; [reflexivity | exact IH]. Qed.

Lemma quiet_ret (A : Type) (a : A) : quiet (Console.ret a).
Proof.
  intros answers ev r H. injection H as <- <-. split; [reflexivity |].
  intros a' rest H. injection H as <- <-. now exists [].
Qed.

Lemma quiet_raise (A : Type) (e : Console.error) : quiet (@Console.raise A e).
Proof.
  intros answers ev r H. injection H as <- <-. split; [reflexivity |].
  discriminate.
Qed.

Lemma quiet_print (line : string) : quiet (Console.print line).
Proof.
  intros answers ev r H. injection H as <- <-. split; [reflexivity |].
  intros a' rest H. injection H as <- <-. now exists [].
Qed.

Lemma quiet_input (prompt : string) : quiet (Console.input prompt).
Proof.
  intros [|a answers] ev r H; injection H as <- <-;
    (split; [reflexivity |]); [discriminate |].
  intros a' rest H. injection H as <- <-. now exists [a].
Qed.

Lemma quiet_lift (A : Type) (m : Py.Run A) : quiet (Console.lift m).
Proof.
  intros answers ev r. unfold Console.lift. destruct m as [out [e | a]];
    intros H; injection H as <- <-; (split; [apply commits_printed |]).
  - discriminate.
  - intros a' rest H. injection H as <- <-. exists [].
    now rewrite prompts_printed.
Qed.

Lemma quiet_of_result (A : Type) (x : Console.error + A) :
  quiet (Console.of_result x).
Proof. destruct x; [apply quiet_raise | apply quiet_ret]. Qed.

Lemma quiet_bind (A B : Type) (m : Console.IO A) (k : A -> Console.IO B) :
  quiet m -> (forall a, quiet (k a)) -> quiet (Console.bind m k).
Proof.
  intros Hm Hk answers ev r H. apply io_bind_inv in H.
  destruct H as [[e [H ->]] | (a & answers' & ev1 & ev2 & H1 & H2 & ->)].
  - apply Hm in H. split; [tauto | discriminate].
  - apply Hm in H1. apply Hk in H2. destruct H1 as [C1 S1], H2 as [C2 S2].
    split; [now rewrite commits_app, C1, C2 |].
    intros b rest ->. destruct (S1 a answers' eq_refl) as (u1 & -> & L1).
    destruct (S2 b rest eq_refl) as (u2 & -> & L2).
    exists (u1 ++ u2)%list. split; [now rewrite <- app_assoc |].
    rewrite prompts_app, !length_app. lia.
Qed.

Lemma quiet_print_all (lines : list string) : quiet (print_all lines).
Proof.
  induction lines as [|l lines IH]; [apply quiet_ret |].
  cbn [print_all]. apply quiet_bind; [apply quiet_print | intros _; exact IH].
Qed.

Variable py_int : string -> option Z.

Lemma quiet_select_loop (prefixes : list string) :
  quiet (select_loop py_int prefixes).
Proof.
  intros answers. induction answers as [|a answers IH]; intros ev r.
  - cbn. intros H. injection H as <- <-. split; [reflexivity | discriminate].
  - cbn [select_loop]. destruct (py_int (PyStr.strip a)) as [z|].
    + destruct ((1 <=? z)%Z && (z <=? Z.of_nat (List.length prefixes))%Z).
      { intros H. injection H as <- <-. split; [reflexivity |].
        intros p rest H. injection H as <- <-. now exists [a]. }
      destruct (z =? Z.of_nat (List.length prefixes) + 1)%Z.
      { intros H. injection H as <- <-. split; [reflexivity |].
        intros p rest H. injection H as <- <-. now exists [a]. }
      destruct (z =? Z.of_nat (List.length prefixes) + 2)%Z.
      { destruct answers as [|c answers']; cbn; intros H;
          injection H as <- <-; (split; [reflexivity |]); [discriminate |].
        intros p rest H. injection H as <- <-. now exists [a; c]. }
      destruct (select_loop py_int prefixes answers) as [ev' r'].
      intros H. injection H as <- <-.
      destruct (IH ev' r' eq_refl) as [C S]. split; [exact C |].
      intros p rest ->. destruct (S p rest eq_refl) as (u & -> & L).
      exists (a :: u). split; [reflexivity |]. cbn. now rewrite L.
    + destruct (select_loop py_int prefixes answers) as [ev' r'].
      intros H. injection H as <- <-.
      destruct (IH ev' r' eq_refl) as [C S]. split; [exact C |].
      intros p rest ->. destruct (S p rest eq_refl) as (u & -> & L).
      exists (a :: u). split; [reflexivity |]. cbn. now rewrite L.
Qed.

Lemma quiet_select_prefix (config : Config) :
  quiet (select_prefix py_int config).
Proof.
  unfold select_prefix. destruct (prefixes config); [apply quiet_ret |].
  repeat (apply quiet_bind; [| intros _]);
    try apply quiet_print; try apply quiet_print_all.
  apply quiet_select_loop.
Qed.

Lemma quiet_get_git_root (host : Host) : quiet (get_git_root host).
Proof.
  unfold get_git_root. destruct (git_root host); [apply quiet_ret |].
  apply quiet_bind; [apply quiet_print | intros _; apply quiet_raise].
Qed.

Lemma quiet_setup_config (host : Host) : quiet (setup_config host).
Proof.
  unfold setup_config. apply quiet_bind; [apply quiet_get_git_root |].
  intros root. destruct (path_exists host _); [apply quiet_print |].
  apply quiet_bind; [| intros _; apply quiet_bind;
                       [apply quiet_print | intros _; apply quiet_print]].
  intros answers ev r H. injection H as <- <-. split; [reflexivity |].
  intros a' rest H. injection H as <- <-. now exists [].
Qed.

(** The menu, when [main] shows it, and the prefix it leaves in the
    configuration. *)
Lemma quiet_selection (args : Args) (config : Config) :
  quiet (match prefixes config with
         | [] => Console.ret config
         | _ =>
             if negb (args_no_prefix_selection args) then
               Console.bind (select_prefix py_int config)
                 (fun p => Console.ret (set_prefix p config))
             else Console.ret config
         end).
Proof.
  destruct (prefixes config); [apply quiet_ret |].
  destruct (negb (args_no_prefix_selection args)); [| apply quiet_ret].
  apply quiet_bind; [apply quiet_select_prefix |].
  intros p. apply quiet_ret.
Qed.

(** The line typed at a prompt is found past the lines that the prompts
    before it have read. *)
Lemma typed_after_app (ev shown : list Console.event)
  (used rest : list string) :
  List.length used = List.length (Console.prompts ev) ->
  typed_after (ev ++ shown) (used ++ rest) = typed_after shown rest.
Proof.
  intros L. unfold typed_after. rewrite prompts_app, length_app, <- L.
  rewrite nth_error_app2 by lia. f_equal. lia.
Qed.

Lemma consent_after_quiet (A B : Type) (m : Console.IO A)
  (k : A -> Console.IO B) :
  quiet m ->
  (forall a answers, committed_by_consent answers (fst (k a answers))) ->
  forall answers,
    committed_by_consent answers (fst (Console.bind m k answers)).
Proof.
  intros Hm Hk answers.
  destruct (Console.bind m k answers) as [ev r] eqn:E. cbn [fst].
  apply io_bind_inv in E.
  destruct E as [[e [H ->]] | (a & answers' & ev1 & ev2 & H1 & H2 & ->)].
  - left. now apply Hm in H.
  - apply Hm in H1. destruct H1 as [C1 S1].
    destruct (S1 a answers' eq_refl) as (used & -> & L).
    specialize (Hk a answers'). rewrite H2 in Hk. cbn [fst] in Hk.
    destruct Hk as [C2 | (shown & msg & confirm & C2 & T & Hc)].
    + left. now rewrite commits_app, C1, C2.
    + right. exists (ev1 ++ shown)%list, msg, confirm.
      split; [now rewrite commits_app, C1, C2 |].
      split; [now rewrite typed_after_app |].
      destruct Hc as [[Hy ->] | (generated & edited & He & T' & Hm' & ->)].
      * left. split; [assumption |]. now rewrite app_assoc.
      * right. exists generated, edited. split; [assumption |].
        split; [now rewrite <- app_assoc, typed_after_app |].
        split; [assumption |]. now rewrite app_assoc.
Qed.

Lemma confirm_and_commit_consent (host : Host) (commit_message : string)
  (answers : list string) :
  committed_by_consent answers
    (fst (confirm_and_commit host commit_message answers)).
Proof.
  unfold confirm_and_commit, commit, Console.bind, Console.print,
    Console.emit, Console.input, Console.raise.
  destruct answers as [|a answers]; [now left |].
  destruct (PyText.lower (PyStr.strip a) =? "y") eqn:Ey.
  - destruct (git_commit host commit_message); [now left |].
    right. exists [], commit_message, a.
    split; [reflexivity |]. split; [reflexivity |]. left.
    apply String.eqb_eq in Ey. split; [exact Ey | reflexivity].
  - destruct (PyText.lower (PyStr.strip a) =? "edit") eqn:Ee.
    + destruct answers as [|b answers]; [now left |].
      destruct (git_commit host (PyStr.strip b)); [now left |].
      right. exists [], (PyStr.strip b), a.
      split; [reflexivity |]. split; [reflexivity |]. right.
      exists commit_message, b. apply String.eqb_eq in Ee.
      split; [exact Ee |]. split; [reflexivity |].
      split; reflexivity.
    + now left.
Qed.

End ConsoleFacts.

(** X19.  Whatever the flags, the host and the answers, [main] commits at most
    once, and only by consent given at the confirmation prompt.  Either
    the line typed at that prompt reads y once stripped and lowercased,
    and the message committed is the one shown as generated just before
    it; or that line reads edit, and the message committed is the stripped
    line typed at the prompt for the edited message.  The commit is the
    last thing the run does but for its notice.  With the set-up flag
    nothing is committed. *)
Theorem main_commits_only_by_consent (py_int : string -> option Z)
  (args : Args) (host : Host) (answers : list string) :
  committed_by_consent answers (fst (main py_int args host answers))
  /\ (args_setup args = true ->
      Console.commits (fst (main py_int args host answers)) = []).
Proof.
  unfold main. destruct (args_setup args).
  - assert (H : Console.commits (fst (setup_config host answers)) = []).
    { destruct (setup_config host answers) as [ev r] eqn:E.
      now apply quiet_setup_config in E. }
    split; [now left | intros _; exact H].
  - split; [| discriminate].
    apply consent_after_quiet; [apply quiet_get_git_root |].
    intros root answers1.
    apply consent_after_quiet; [apply quiet_of_result |].
    intros config answers2.
    apply consent_after_quiet; [apply quiet_lift |].
    intros staged answers3.
    apply consent_after_quiet; [apply quiet_selection |].
    intros config' answers4.
    apply consent_after_quiet; [apply quiet_lift |].
    intros msg answers5. apply confirm_and_commit_consent.
Qed.

Section MainFacts.

Variable py_int : string -> option Z.

Lemma bind_print (A : Type) (line : string) (k : Console.IO A)
  (answers : list string) :
  Console.bind (Console.print line) (fun _ => k) answers
  = (Console.Printed line :: fst (k answers), snd (k answers)).
Proof.
  unfold Console.bind, Console.print, Console.emit.
  now destruct (k answers).
Qed.

Lemma print_all_run (lines : list string) (answers : list string) :
  print_all lines answers = (map Console.Printed lines, inr (tt, answers)).
Proof.
  induction lines as [|l lines IH]; [reflexivity |].
  cbn [print_all map]. rewrite bind_print, IH. reflexivity.
Qed.

Lemma bind_print_all (A : Type) (lines : list string) (k : Console.IO A)
  (answers : list string) :
  Console.bind (print_all lines) (fun _ => k) answers
  = ((map Console.Printed lines ++ fst (k answers))%list, snd (k answers)).
Proof.
  unfold Console.bind. rewrite print_all_run. now destruct (k answers).
Qed.

(** With prefixes configured, [select_prefix] prints the menu and runs the
    loop. *)
Lemma select_prefix_menu (config : Config) (answers : list string) :
  prefixes config <> [] ->
  select_prefix py_int config answers
  = ((menu_events config
      ++ fst (select_loop py_int (prefixes config) answers))%list,
     snd (select_loop py_int (prefixes config) answers)).
Proof.
  intros Hne. unfold select_prefix, menu_events.
  destruct (prefixes config) as [|p ps] eqn:E; [contradiction |].
  rewrite bind_print, bind_print_all. cbn [fst snd].
  rewrite !bind_print. cbn [fst snd app].
  rewrite <- app_assoc. reflexivity.
Qed.

Lemma select_loop_result (prefixes answers : list string)
  (ev : list Console.event) (p : string) (rest : list string) :
  select_loop py_int prefixes answers = (ev, inr (p, rest)) ->
  In p prefixes \/ p = "" \/ exists a, In a answers /\ p = PyStr.strip a.
Proof.
  revert ev. induction answers as [|a answers IH]; intros ev; [discriminate |].
  cbn [select_loop]. destruct (py_int (PyStr.strip a)) as [z|].
  - destruct ((1 <=? z)%Z && (z <=? Z.of_nat (List.length prefixes))%Z) eqn:E1.
    { intros H. injection H as _ <- _. left. apply nth_In.
      apply andb_true_iff in E1. destruct E1 as [E1 E2].
      apply Z.leb_le in E1, E2. lia. }
    destruct (z =? Z.of_nat (List.length prefixes) + 1)%Z.
    { intros H. injection H as _ <- _. tauto. }
    destruct (z =? Z.of_nat (List.length prefixes) + 2)%Z.
    { destruct answers as [|c answers']; cbn; [discriminate |].
      intros H. injection H as _ <- _. right. right. exists c.
      split; [right; now left | reflexivity]. }
    destruct (select_loop py_int prefixes answers) as [ev' r'].
    intros H. injection H as _ ->.
    destruct (IH ev' eq_refl) as [H | [H | (x & Hx & ->)]]; [tauto | tauto |].
    right. right. exists x. split; [now right | reflexivity].
  - destruct (select_loop py_int prefixes answers) as [ev' r'].
    intros H. injection H as _ ->.
    destruct (IH ev' eq_refl) as [H | [H | (x & Hx & ->)]]; [tauto | tauto |].
    right. right. exists x. split; [now right | reflexivity].
Qed.

Lemma prefixes_apply_flags (args : Args) (config : Config) :
  prefixes (apply_flags args config) = prefixes config.
Proof.
  unfold apply_flags. now destruct (args_use_ai args), (args_conventional args).
Qed.

End MainFacts.

(** X18.  Without configured prefixes [select_prefix] returns the configured
    prefix at once, printing and reading nothing.  Whenever it returns, the
    prefix is the configured one, one of the configured list, the empty
    string, or a stripped answer; it has committed nothing and hands back a
    tail of the answers. *)
Theorem select_prefix_returns (py_int : string -> option Z) (config : Config)
  (answers : list string) (ev : list Console.event) (p : string)
  (rest : list string) :
  select_prefix py_int config answers = (ev, inr (p, rest)) ->
  (prefixes config = [] -> p = prefix config /\ ev = [] /\ rest = answers)
  /\ (prefixes config <> [] ->
      In p (prefixes config) \/ p = ""
      \/ exists a, In a answers /\ p = PyStr.strip a)
  /\ (exists used, answers = (used ++ rest)%list)
  /\ Console.commits ev = [].
Proof.
  intros H. split; [| split].
  - intros E. unfold select_prefix in H. rewrite E in H.
    injection H as <- <- <-. auto.
  - intros Hne. rewrite (select_prefix_menu py_int config answers Hne) in H.
    destruct (select_loop py_int (prefixes config) answers) as [ev' r'] eqn:E.
    cbn [fst snd] in H. injection H as _ ->.
    now apply select_loop_result in E.
  - destruct (quiet_select_prefix py_int config answers ev _ H) as [C S].
    split; [| exact C].
    destruct (S p rest eq_refl) as (used & E & _). now exists used.
Qed.

Lemma select_prefix_returns_witness :
  (In "wip:" ["feat:"; "fix:"] \/ "wip:" = ""
   \/ exists a, In a ["4"; " wip: "; "y"] /\ "wip:" = PyStr.strip a)
  /\ exists used, ["4"; " wip: "; "y"] = (used ++ ["y"])%list.
Proof.
  pose proof (select_prefix_returns decimal_int
    (set_prefixes ["feat:"; "fix:"] default_config) ["4"; " wip: "; "y"]
    _ "wip:" ["y"] eq_refl) as (_ & H2 & H3 & _).
  split; [apply H2; discriminate | exact H3].
Defined.

(** X20.  [main] stops before asking or committing anything when the directory
    is no repository (notice, status 1), when the configuration cannot be
    read (the error of [get_config], nothing printed), and when collection
    fails:
    with what collection printed and raised, which for an empty staging
    area is the notice and status 1. *)
Theorem main_stops_on_fatal_errors (py_int : string -> option Z)
  (args : Args) (host : Host) (answers : list string) :
  args_setup args = false ->
  (git_root host = None ->
   main py_int args host answers
   = ([Console.Printed
         "Error: Not a git repository (or any of the parent directories)"],
      inl (Console.Uncaught (Py.SystemExit 1))))
  /\ (forall root e,
        git_root host = Some root ->
        get_config py_int
          (autocommit_section host (PyText.join root ".git-autocommit"))
          (environ_OPENAI_API_KEY host) = inl e ->
        main py_int args host answers = ([], inl e))
  /\ (forall root config out e,
        git_root host = Some root ->
        get_config py_int
          (autocommit_section host (PyText.join root ".git-autocommit"))
          (environ_OPENAI_API_KEY host) = inr config ->
        get_staged_files (staged_name_status host) = (out, inl e) ->
        main py_int args host answers
        = (map Console.Printed out, inl (Console.Uncaught e)))
  /\ (forall root config,
        git_root host = Some root ->
        get_config py_int
          (autocommit_section host (PyText.join root ".git-autocommit"))
          (environ_OPENAI_API_KEY host) = inr config ->
        staged_name_status host = "" ->
        main py_int args host answers
        = ([Console.Printed "No changes staged for commit."],
           inl (Console.Uncaught (Py.SystemExit 1)))).
Proof.
  intros Hs. unfold main, get_git_root. rewrite Hs.
  split; [| split; [| split]].
  - intros ->. reflexivity.
  - intros root e -> Hc. unfold Console.bind. cbn [Console.ret].
    rewrite Hc. reflexivity.
  - intros root config out e -> Hc Hg. unfold Console.bind. cbn [Console.ret].
    rewrite Hc. cbn [Console.of_result Console.ret app].
    unfold Console.lift. rewrite Hg. reflexivity.
  - intros root config -> Hc He. unfold Console.bind. cbn [Console.ret].
    rewrite Hc. cbn [Console.of_result Console.ret app].
    unfold Console.lift. rewrite He. reflexivity.
Qed.

Lemma main_stops_on_fatal_errors_witness :
  main decimal_int
    {| args_setup := false; args_use_ai := true; args_conventional := false;
       args_no_prefix_selection := false |}
    {| git_root := Some "/repo"; path_exists := fun _ => true;
       autocommit_section :=
         fun _ => inr (Some (plain_section default_section));
       environ_OPENAI_API_KEY := None; staged_name_status := "";
       world := offline_world; git_commit := fun _ => None |}
    ["1"; "y"]
  = ([Console.Printed "No changes staged for commit."],
     inl (Console.Uncaught (Py.SystemExit 1))).
Proof.
  refine (proj2 (proj2 (proj2 (main_stops_on_fatal_errors decimal_int
    {| args_setup := false; args_use_ai := true; args_conventional := false;
       args_no_prefix_selection := false |}
    {| git_root := Some "/repo"; path_exists := fun _ => true;
       autocommit_section :=
         fun _ => inr (Some (plain_section default_section));
       environ_OPENAI_API_KEY := None; staged_name_status := "";
       world := offline_world; git_commit := fun _ => None |}
    ["1"; "y"] eq_refl))) "/repo" _ eq_refl eq_refl eq_refl).
Defined.

Section CompositionFacts.

Variable py_int : string -> option Z.

Lemma bind_ret_l (A B : Type) (a : A) (k : A -> Console.IO B)
  (answers : list string) :
  Console.bind (Console.ret a) k answers = k a answers.
Proof.
  unfold Console.bind, Console.ret. now destruct (k a answers).
Qed.

Lemma truncate_positive (config : Config) (message : string) :
  0 < String.length message -> 0 < String.length (truncate config message).
Proof.
  intros H. unfold truncate.
  destruct (max_length config <? PyStr.len message)%Z; [| assumption].
  rewrite length_app_str. cbn. lia.
Qed.

(** Whatever [generate_commit_message] returns is not empty. *)
Lemma generate_commit_message_positive (world : World) (config : Config)
  (staged_files : list (string * string)) (out : list string) (m : string) :
  generate_commit_message world config staged_files = (out, inr m) ->
  0 < String.length m.
Proof.
  intros H. apply generate_commit_message_source in H.
  destruct H as [-> | (_ & Hne & _)].
  - apply truncate_positive, apply_prefix_positive, analyze_changes_positive.
  - destruct m; [contradiction | cbn; lia].
Qed.

(** With room for the three dots it is within the limit. *)
Lemma generate_commit_message_bounded (world : World) (config : Config)
  (staged_files : list (string * string)) (out : list string) (m : string) :
  (3 <= max_length config)%Z ->
  generate_commit_message world config staged_files = (out, inr m) ->
  (PyStr.len m <= max_length config)%Z.
Proof.
  intros HL H. apply generate_commit_message_source in H.
  destruct H as [-> | (_ & _ & content & _ & ->)];
    now apply truncate_bound.
Qed.

Lemma set_prefix_same (config : Config) :
  set_prefix (prefix config) config = config.
Proof. now destruct config. Qed.

(** What the menu step of [main] leaves as the configuration. *)
Lemma selection_result (args : Args) (config : Config)
  (answers : list string) (ev : list Console.event) (config' : Config)
  (rest : list string) :
  (match prefixes config with
   | [] => Console.ret config
   | _ =>
       if negb (args_no_prefix_selection args) then
         Console.bind (select_prefix py_int config)
           (fun p => Console.ret (set_prefix p config))
       else Console.ret config
   end) answers = (ev, inr (config', rest)) ->
  exists p,
    config' = set_prefix p config
    /\ ((prefixes config = [] \/ args_no_prefix_selection args = true) ->
        p = prefix config)
    /\ (prefixes config <> [] -> args_no_prefix_selection args = false ->
        In p (prefixes config) \/ p = ""
        \/ exists a, In a answers /\ p = PyStr.strip a).
Proof.
  destruct (prefixes config) as [|x xs] eqn:Ep.
  - intros H. injection H as _ <- _. exists (prefix config).
    split; [now rewrite set_prefix_same |]. split; [reflexivity |].
    intros Hne. contradiction.
  - destruct (args_no_prefix_selection args) eqn:En; cbn [negb].
    + intros H. injection H as _ <- _. exists (prefix config).
      split; [now rewrite set_prefix_same |]. split; [reflexivity |].
      discriminate.
    + intros H. apply io_bind_inv in H.
      destruct H as [[e [_ H]] | (p & answers' & ev1 & ev2 & H1 & H2 & _)];
        [discriminate |].
      injection H2 as _ <- _. exists p. split; [reflexivity |].
      split; [intros [H | H]; discriminate |]. intros _ _.
      assert (Hne : prefixes config <> []) by (rewrite Ep; discriminate).
      rewrite (select_prefix_menu py_int config answers Hne) in H1.
      destruct (select_loop py_int (prefixes config) answers) as [ev' r'] eqn:E.
      cbn [fst snd] in H1. injection H1 as _ ->.
      rewrite <- Ep. now apply select_loop_result in E.
Qed.

(** The last two events of a run of [confirm_and_commit] are a commit and
    the notice of the answer y only when the message committed is the one
    generated, which git has accepted. *)
Lemma confirm_and_commit_accepted (host : Host) (commit_message : string)
  (answers : list string) (pre before : list Console.event) (m : string) :
  (pre ++ fst (confirm_and_commit host commit_message answers))%list
  = (before ++ [Console.Committed m;
                Console.Printed "Changes committed successfully!"])%list ->
  m = commit_message /\ git_commit host m = None.
Proof.
  unfold confirm_and_commit, commit, Console.bind, Console.print,
    Console.emit, Console.input, Console.raise.
  intros H. apply (f_equal (@rev Console.event)) in H.
  rewrite !rev_app_distr in H. revert H.
  destruct answers as [|a answers]; [cbn; discriminate |].
  destruct (PyText.lower (PyStr.strip a) =? "y").
  - destruct (git_commit host commit_message) eqn:G; [cbn; discriminate |].
    cbn. intros H. injection H as <- _. now split.
  - destruct (PyText.lower (PyStr.strip a) =? "edit").
    + destruct answers as [|b answers]; [cbn; discriminate |].
      destruct (git_commit host (PyStr.strip b)); cbn; discriminate.
    + cbn. discriminate.
Qed.

Lemma commits_tail (before : list Console.event) (m : string)
  (last : Console.event) :
  Console.commits (before ++ [Console.Committed m; last]) <> [].
Proof.
  rewrite commits_app. cbn. intros H. apply app_eq_nil in H.
  destruct H as [_ H]. discriminate.
Qed.

End CompositionFacts.

(** X21.  What [main] commits on the answer y is the message that
    [generate_commit_message] returns for the staged files under the
    configuration of the file with two changes only: the flags can switch
    the remote synthesizer and the conventional style on, never off, and
    the prefix is the one chosen in the menu when prefixes are configured
    and selection is not skipped.  Git has accepted the message; it is
    never empty; and when the limit of the file is three or more it is no
    longer than that limit, which neither the flags nor the menu
    change. *)
Theorem main_commits_generated_message (py_int : string -> option Z)
  (args : Args) (host : Host) (answers : list string) (root : string)
  (config : Config) (before : list Console.event) (m : string) :
  args_setup args = false ->
  git_root host = Some root ->
  get_config py_int
    (autocommit_section host (PyText.join root ".git-autocommit"))
    (environ_OPENAI_API_KEY host) = inr config ->
  fst (main py_int args host answers)
  = (before ++ [Console.Committed m;
                Console.Printed "Changes committed successfully!"])%list ->
  (exists printed staged p out,
     get_staged_files (staged_name_status host) = (printed, inr staged)
     /\ generate_commit_message (world host)
          (set_prefix p (apply_flags args config)) staged
        = (out, inr m)
     /\ ((prefixes config = [] \/ args_no_prefix_selection args = true) ->
         p = prefix config)
     /\ (prefixes config <> [] -> args_no_prefix_selection args = false ->
         In p (prefixes config) \/ p = ""
         \/ exists a, In a answers /\ p = PyStr.strip a))
  /\ use_ai (apply_flags args config) = args_use_ai args || use_ai config
  /\ conventional_commits (apply_flags args config)
     = args_conventional args || conventional_commits config
  /\ git_commit host m = None
  /\ (0 < PyStr.len m)%Z
  /\ ((3 <= max_length config)%Z -> (PyStr.len m <= max_length config)%Z).
Proof.
  intros Hs Hr Hc Hev.
  assert (Hflags : use_ai (apply_flags args config)
                   = args_use_ai args || use_ai config
                   /\ conventional_commits (apply_flags args config)
                      = args_conventional args || conventional_commits config
                   /\ max_length (apply_flags args config) = max_length config).
  { unfold apply_flags.
    now destruct (args_use_ai args), (args_conventional args). }
  destruct Hflags as (Hu & Hv & Hl).
  assert (Hmain : main py_int args host answers
    = Console.bind (Console.lift (get_staged_files (staged_name_status host)))
        (fun staged =>
           Console.bind
             (match prefixes (apply_flags args config) with
              | [] => Console.ret (apply_flags args config)
              | _ =>
                  if negb (args_no_prefix_selection args) then
                    Console.bind
                      (select_prefix py_int (apply_flags args config))
                      (fun p =>
                         Console.ret (set_prefix p (apply_flags args config)))
                  else Console.ret (apply_flags args config)
              end)
             (fun config' =>
                Console.bind
                  (Console.lift
                     (generate_commit_message (world host) config' staged))
                  (confirm_and_commit host))) answers).
  { unfold main, get_git_root. rewrite Hs, Hr, bind_ret_l, Hc.
    cbn [Console.of_result]. now rewrite bind_ret_l. }
  rewrite Hmain in Hev. clear Hmain.
  match type of Hev with
  | fst (Console.bind ?m ?k answers) = _ =>
      destruct (Console.bind m k answers) as [ev r] eqn:E
  end.
  cbn [fst] in Hev. subst ev.
  (* the staged files *)
  apply io_bind_inv in E.
  destruct E as [[e [E _]] | (staged & answers1 & ev1 & ev' & E1 & E & Hev)].
  { apply quiet_lift in E. destruct E as [C _].
    exfalso. exact (commits_tail _ _ _ C). }
  pose proof (proj1 (quiet_lift _ _ _ _ _ E1)) as C1.
  assert (Hstaged : exists printed,
             get_staged_files (staged_name_status host) = (printed, inr staged)
             /\ answers1 = answers).
  { unfold Console.lift in E1.
    destruct (get_staged_files (staged_name_status host)) as [out0 [e | st]];
      [discriminate |].
    injection E1 as _ <- <-. now exists out0. }
  destruct Hstaged as (printed & Hstaged & ->).
  (* the menu *)
  apply io_bind_inv in E.
  destruct E as [[e [E ->]] | (config' & answers2 & ev2 & ev'' & E2 & E & ->)].
  { apply (quiet_selection py_int) in E. destruct E as [C _].
    exfalso. apply (commits_tail before m
                      (Console.Printed "Changes committed successfully!")).
    now rewrite Hev, commits_app, C1, C. }
  pose proof (proj1 (quiet_selection py_int _ _ _ _ _ E2)) as C2.
  apply selection_result in E2.
  rewrite prefixes_apply_flags in E2.
  destruct E2 as (p & -> & Hp1 & Hp2).
  (* the message *)
  apply io_bind_inv in E.
  destruct E as [[e [E ->]] | (msg & answers3 & ev3 & ev4 & E3 & E & ->)].
  { apply quiet_lift in E. destruct E as [C _].
    exfalso. apply (commits_tail before m
                      (Console.Printed "Changes committed successfully!")).
    now rewrite Hev, !commits_app, C1, C2, C. }
  assert (Hgen : exists out,
             generate_commit_message (world host)
               (set_prefix p (apply_flags args config)) staged
             = (out, inr msg)).
  { unfold Console.lift in E3.
    destruct (generate_commit_message (world host)
                (set_prefix p (apply_flags args config)) staged)
      as [out [e | x]]; [discriminate |].
    injection E3 as _ <- _. now exists out. }
  destruct Hgen as [out Hgen].
  (* the confirmation *)
  assert (Hacc : m = msg /\ git_commit host m = None).
  { apply (confirm_and_commit_accepted host msg answers3
             (ev1 ++ ev2 ++ ev3) before m).
    rewrite E. cbn [fst]. rewrite Hev, <- !app_assoc. reflexivity. }
  destruct Hacc as [-> Hgit].
  split.
  { exists printed, staged, p, out. split; [assumption |].
    split; [exact Hgen |]. split; [| exact Hp2].
    intros H. rewrite (Hp1 H). unfold apply_flags.
    now destruct (args_use_ai args), (args_conventional args). }
  split; [exact Hu |]. split; [exact Hv |]. split; [exact Hgit |].
  split.
  - pose proof (generate_commit_message_positive _ _ _ _ _ Hgen).
    unfold PyStr.len. lia.
  - intros HL.
    assert (Hl' : max_length (set_prefix p (apply_flags args config))
                  = max_length config) by exact Hl.
    rewrite <- Hl'. apply (generate_commit_message_bounded _ _ _ _ _ ltac:(now rewrite Hl') Hgen).
Qed.

Lemma main_commits_generated_message_witness :
  git_commit
    {| git_root := Some "/repo"; path_exists := fun _ => true;
       autocommit_section :=
         fun _ => inr (Some (plain_section default_section));
       environ_OPENAI_API_KEY := None;
       staged_name_status := "A" ++ tab ++ "a/b/foo.py";
       world := offline_world; git_commit := fun _ => None |}
    "docs: Add foo.py" = None
  /\ (0 < PyStr.len "docs: Add foo.py")%Z
  /\ (PyStr.len "docs: Add foo.py" <= 72)%Z.
Proof.
  pose proof (main_commits_generated_message decimal_int
    {| args_setup := false; args_use_ai := false; args_conventional := false;
       args_no_prefix_selection := false |}
    {| git_root := Some "/repo"; path_exists := fun _ => true;
       autocommit_section :=
         fun _ => inr (Some (plain_section default_section));
       environ_OPENAI_API_KEY := None;
       staged_name_status := "A" ++ tab ++ "a/b/foo.py";
       world := offline_world; git_commit := fun _ => None |}
    ["3"; " Y "; "n"] "/repo"
    (set_prefixes conventional_prefixes default_config)
    (menu_events (set_prefixes conventional_prefixes default_config)
     ++ [Console.Asked "Enter your choice (number): ";
         Console.Printed (nl ++ "Generated commit message: docs: Add foo.py");
         Console.Asked confirmation_prompt])%list
    "docs: Add foo.py" eq_refl eq_refl eq_refl eq_refl)
    as (_ & _ & _ & Hgit & Hpos & Hlen).
  split; [exact Hgit |]. split; [exact Hpos |]. apply Hlen.
  vm_compute. discriminate.
Defined.

(** ** The program on known runs *)

Example get_config_known_values :
  get_config decimal_int
    (inl (Py.Exception "File contains no section headers.")) (Some "sk-env")
  = inl (Console.Uncaught (Py.Exception "File contains no section headers."))
  /\ get_config decimal_int
       (inr (Some [("max_length", inr "10");
                   ("prefix",
                    inl (Py.Exception "'%' must be followed by '%' or '('"))]))
       None
     = inl (Console.Uncaught
              (Py.Exception "'%' must be followed by '%' or '('"))
  /\ get_config decimal_int
       (inr (Some [("max_length", inr "ten");
                   ("use_ai",
                    inl (Py.Exception "'%' must be followed by '%' or '('"))]))
       None
     = inl Console.ValueError
  /\ get_config decimal_int
       (inr (Some (plain_section [("max_length", "50"); ("use_ai", "Yes")])))
       (Some "sk-env")
     = inr {| prefix := ""; prefixes := []; max_length := 50; use_ai := true;
              openai_api_key := "sk-env"; openai_model := "gpt-3.5-turbo";
              conventional_commits := false |}.
Proof. vm_compute. repeat split. Qed.

Example main_known_runs :
  let args :=
    {| args_setup := false; args_use_ai := false; args_conventional := false;
       args_no_prefix_selection := true |} in
  let host refuse :=
    {| git_root := Some "/repo"; path_exists := fun _ => true;
       autocommit_section :=
         fun _ => inr (Some (plain_section default_section));
       environ_OPENAI_API_KEY := None;
       staged_name_status := "A" ++ tab ++ "a/b/foo.py";
       world := offline_world;
       git_commit :=
         fun message =>
           if refuse && (message =? "")
           then Some (Py.Exception "Aborting commit due to empty commit message.")
           else None |} in
  main decimal_int args (host true) [" Y "; "n"]
  = ([Console.Printed (nl ++ "Generated commit message: Add foo.py");
      Console.Asked confirmation_prompt;
      Console.Committed "Add foo.py";
      Console.Printed "Changes committed successfully!"],
     inr (tt, ["n"]))
  /\ main decimal_int args (host true) ["edit"; "  "]
     = ([Console.Printed (nl ++ "Generated commit message: Add foo.py");
         Console.Asked confirmation_prompt;
         Console.Asked "Enter your commit message: "],
        inl (Console.Uncaught
               (Py.Exception "Aborting commit due to empty commit message.")))
  /\ main decimal_int args (host false) ["edit"; " Add the parser "]
     = ([Console.Printed (nl ++ "Generated commit message: Add foo.py");
         Console.Asked confirmation_prompt;
         Console.Asked "Enter your commit message: ";
         Console.Committed "Add the parser";
         Console.Printed "Changes committed with edited message!"],
        inr (tt, []))
  /\ main decimal_int args (host false) ["no"; "y"]
     = ([Console.Printed (nl ++ "Generated commit message: Add foo.py");
         Console.Asked confirmation_prompt;
         Console.Printed "Commit aborted."],
        inr (tt, ["y"])).
Proof. vm_compute. repeat split. Qed.
